(** * Instagram scraper: the clean-output builder of [main.py]

    A shallow embedding of [InstagramScraper.scrape] and its helpers
    [_determine_content_type_from_url] and [_format_count], of
    [scrape_instagram_urls] and of the part of [main] that reads the URLs
    and the options, with the Python builtins they rely on ([or],
    [dict.get], [str.replace], [str.strip], [int], [int / int], the [.1f]
    format, [re.search], [input]).

    Conventions of the model:
    - Python values are JSON-like: [None], booleans, integers, strings,
      lists and dictionaries with string keys.  Floats do not occur in the
      modelled extraction payloads; they only appear as computed results
      (quotients, rates, times) and are IEEE binary64 values of the
      Standard Library's [spec_float].
    - A [str] is a Rocq [string] of ASCII text.  On a character above
      127 the model's [\b], [str.strip], [str.lower] and [int] are not
      the interpreter's, which follow Unicode; the properties that depend
      on them are stated for ASCII text ([ascii_text]).
    - The conversions between an integer and its decimal text raise
      [ValueError] beyond 4300 digits, the interpreter's default limit,
      wherever their result is used ([int] and [str] in
      [_format_count]).
    - A dictionary is an association list in insertion order, read by the
      first binding of a key.
    - A Python exception is a value of [res]; [try/except] is a [match].
    - The extractor ([AdvancedGraphQLExtractor], not part of [main.py]) is
      a parameter: a state type with a transition per call.
    - The standard input is the list of its lines.
    - Printing, the clean-up in [finally] and the contents of the file
      written by [json.dump] are left out; the clock readings are
      parameters.  With printing, the rendering of the printed values is
      left out: an error or a username that is an integer beyond the
      digit limit, whose rendering raises, is outside the model (see
      [has_text] and [resolves_to]). *)

From Stdlib Require Import ZArith String Ascii List Bool Lia.
From Stdlib Require Import DecimalString DecimalPos DecimalFacts SpecFloat.
From stdpp Require Import base option list gmap strings.

Local Open Scope Z_scope.

(** ** Python values *)

#[warnings="-register-all"]
Inductive pyval :=
  | VNone
  | VBool (b : bool)
  | VInt (z : Z)
  | VStr (s : string)
  | VList (l : list pyval)
  | VDict (d : list (string * pyval)).

(** A dictionary with string keys, in insertion order. *)
Abbreviation dict := (list (string * pyval)).

(** Exceptions carry their class name and their [str(e)] text. *)
Record exn := Exn { exn_class : string; exn_text : string }.

Inductive res (A : Type) :=
  | Ret (a : A)
  | Raise (e : exn).
Arguments Ret {A} a.
Arguments Raise {A} e.

(** Sequencing: the first exception raised ends the computation.  With
    these instances [x ← r; k] reads as a Python statement sequence. *)
#[global] Instance res_ret : MRet res := fun A a => Ret a.
#[global] Instance res_bind : MBind res := fun A B k r =>
  match r with
  | Ret a => k a
  | Raise e => Raise e
  end.

(** [type(v).__name__] *)
Definition type_name (v : pyval) : string :=
  match v with
  | VNone => "NoneType"
  | VBool _ => "bool"
  | VInt _ => "int"
  | VStr _ => "str"
  | VList _ => "list"
  | VDict _ => "dict"
  end.

(** [bool(v)] *)
Definition truthy (v : pyval) : bool :=
  match v with
  | VNone => false
  | VBool b => b
  | VInt z => negb (z =? 0)
  | VStr s => negb (String.eqb s EmptyString)
  | VList l => match l with [] => false | _ => true end
  | VDict d => match d with [] => false | _ => true end
  end.

(** [a or b], with [b] evaluated only when [a] is falsy. *)
Definition py_or (a : pyval) (b : res pyval) : res pyval :=
  if truthy a then Ret a else b.

(** ** Dictionaries *)

Fixpoint dict_lookup (k : string) (d : dict) : option pyval :=
  match d with
  | [] => None
  | (k', v) :: d' => if String.eqb k k' then Some v else dict_lookup k d'
  end.

(** [d[k] = v]: overwrite in place, or append a new binding. *)
Fixpoint dict_set (k : string) (v : pyval) (d : dict) : dict :=
  match d with
  | [] => [(k, v)]
  | (k', v') :: d' =>
      if String.eqb k k' then (k', v) :: d' else (k', v') :: dict_set k v d'
  end.

(** [d.update(u)] *)
Definition dict_update (d u : dict) : dict :=
  fold_left (fun acc kv => dict_set (fst kv) (snd kv) acc) u d.

Definition attribute_error (v : pyval) (attr : string) : exn :=
  Exn "AttributeError"
      ("'" +:+ type_name v +:+ "' object has no attribute '" +:+ attr +:+ "'").

(** [v.get(k, default)]: only dictionaries have [get]. *)
Definition py_get (v : pyval) (k : string) (dflt : pyval) : res pyval :=
  match v with
  | VDict d => Ret (default dflt (dict_lookup k d))
  | _ => Raise (attribute_error v "get")
  end.

(** ** Strings *)

(** [str(n)] for an integer: its decimal text. *)
Definition str_of_Z (n : Z) : string := NilZero.string_of_int (Z.to_int n).

(** [needle in hay] for strings. *)
Fixpoint str_contains (needle hay : string) : bool :=
  String.prefix needle hay ||
  match hay with
  | EmptyString => false
  | String _ hay' => str_contains needle hay'
  end.

(** [s.replace(old, new)]: every non-overlapping occurrence, leftmost
    first.  [skip] counts the characters of an occurrence still to drop. *)
Fixpoint replace_from (old new : string) (skip : nat) (s : string) : string :=
  match s with
  | EmptyString => EmptyString
  | String c s' =>
      match skip with
      | S k => replace_from old new k s'
      | O =>
          if String.prefix old s
          then new +:+ replace_from old new (String.length old - 1) s'
          else String c (replace_from old new 0 s')
      end
  end.

Fixpoint intersperse (new s : string) : string :=
  match s with
  | EmptyString => new
  | String c s' => new +:+ String c (intersperse new s')
  end.

Definition str_replace (old new s : string) : string :=
  match old with
  | EmptyString => intersperse new s
  | _ => replace_from old new 0 s
  end.

Definition is_digit (c : ascii) : bool :=
  (48 <=? nat_of_ascii c)%nat && (nat_of_ascii c <=? 57)%nat.

Definition is_upper (c : ascii) : bool :=
  (65 <=? nat_of_ascii c)%nat && (nat_of_ascii c <=? 90)%nat.

Definition is_lower (c : ascii) : bool :=
  (97 <=? nat_of_ascii c)%nat && (nat_of_ascii c <=? 122)%nat.

(** [str.isspace] on ASCII. *)
Definition is_space (c : ascii) : bool :=
  let n := nat_of_ascii c in
  (n =? 32)%nat || (9 <=? n)%nat && (n <=? 13)%nat
  || (28 <=? n)%nat && (n <=? 31)%nat.

Fixpoint lstrip (l : list ascii) : list ascii :=
  match l with
  | c :: l' => if is_space c then lstrip l' else l
  | [] => []
  end.

Definition strip (l : list ascii) : list ascii := rev (lstrip (rev (lstrip l))).

(** Digits of an integer literal after the first one; a single underscore
    may separate two digits. *)
Fixpoint int_digits (acc : Z) (after_underscore : bool) (l : list ascii)
  : option Z :=
  match l with
  | [] => if after_underscore then None else Some acc
  | c :: l' =>
      if is_digit c
      then int_digits (10 * acc + (Z.of_nat (nat_of_ascii c) - 48)) false l'
      else if Ascii.eqb c "_" && negb after_underscore
           then int_digits acc true l'
           else None
  end.

(** The number of digits from which the conversions between an integer
    and its decimal text raise [ValueError]
    ([sys.get_int_max_str_digits()], by default). *)
Definition int_max_str_digits : nat := 4300.

Definition int_unsigned (l : list ascii) : option Z :=
  match l with
  | c :: _ =>
      if is_digit c
         && (length (List.filter is_digit l) <=? int_max_str_digits)%nat
      then int_digits 0 false l else None
  | [] => None
  end.

(** The blanks that [int] skips at both ends of ASCII text: the space
    and the bytes 9 to 13 (not the separators 28 to 31 that [str.strip]
    removes as well). *)
Definition is_int_space (c : ascii) : bool :=
  let n := nat_of_ascii c in
  (n =? 32)%nat || (9 <=? n)%nat && (n <=? 13)%nat.

Fixpoint int_lstrip (l : list ascii) : list ascii :=
  match l with
  | c :: l' => if is_int_space c then int_lstrip l' else l
  | [] => []
  end.

Definition int_strip (l : list ascii) : list ascii :=
  rev (int_lstrip (rev (int_lstrip l))).

(** [int(s)] for a string of ASCII text; [None] is [ValueError]: no
    digit, a misplaced sign or underscore, any other character, or more
    than [int_max_str_digits] digits. *)
Definition int_of_str (s : string) : option Z :=
  match int_strip (list_ascii_of_string s) with
  | "-"%char :: l => Z.opp <$> int_unsigned l
  | "+"%char :: l => int_unsigned l
  | l => int_unsigned l
  end.

(** [int(v)]; [None] stands for the [ValueError] or [TypeError] that
    [_format_count] catches in one clause. *)
Definition py_int (v : pyval) : option Z :=
  match v with
  | VInt z => Some z
  | VBool b => Some (Z.b2z b)
  | VStr s => int_of_str s
  | VNone | VList _ | VDict _ => None
  end.

Definition hex_digit (n : nat) : ascii :=
  ascii_of_nat (if (n <? 10)%nat then 48 + n else 87 + n).

(** One character of [repr] of a string quoted with [q]. *)
Definition repr_char (q c : ascii) : string :=
  let n := nat_of_ascii c in
  if Ascii.eqb c "\" then "\\"
  else if Ascii.eqb c q then String "\" (String q EmptyString)
  else if (n =? 10)%nat then "\n"
  else if (n =? 13)%nat then "\r"
  else if (n =? 9)%nat then "\t"
  else if (n <? 32)%nat || (n =? 127)%nat
       then String "\" (String "x" (String (hex_digit (n / 16))
                                      (String (hex_digit (n mod 16)) EmptyString)))
  else String c EmptyString.

Definition dquote : ascii := "034"%char.

Definition has_char (c : ascii) (s : string) : bool :=
  existsb (Ascii.eqb c) (list_ascii_of_string s).

(** [repr(s)]: single quotes, unless the text has a single quote and no
    double quote. *)
Definition repr_str (s : string) : string :=
  let q : ascii := if has_char "'" s && negb (has_char dquote s)
                   then dquote else "'"%char in
  String q (String.concat EmptyString
              (map (repr_char q) (list_ascii_of_string s)))
  +:+ String q EmptyString.

Fixpoint py_repr (v : pyval) : string :=
  match v with
  | VNone => "None"
  | VBool b => if b then "True" else "False"
  | VInt z => str_of_Z z
  | VStr s => repr_str s
  | VList l => "[" +:+ String.concat ", " (map py_repr l) +:+ "]"
  | VDict d =>
      "{" +:+ String.concat ", "
                (map (fun kv => match kv with
                                | (k, x) => repr_str k +:+ ": " +:+ py_repr x
                                end) d) +:+ "}"
  end.

(** [str(v)], also what an f-string field [{v}] renders. *)
Definition py_str (v : pyval) : string :=
  match v with
  | VStr s => s
  | _ => py_repr v
  end.

(** Whether [str(n)] returns: an integer of more than
    [int_max_str_digits] digits has no decimal text. *)
Definition int_has_text (n : Z) : bool :=
  (String.length (str_of_Z (Z.abs n)) <=? int_max_str_digits)%nat.

(** Whether [str(v)] returns: every integer in [v] has a text. *)
Fixpoint has_text (v : pyval) : bool :=
  match v with
  | VInt z => int_has_text z
  | VList l => forallb has_text l
  | VDict d => forallb (fun kv => match kv with (_, x) => has_text x end) d
  | VNone | VBool _ | VStr _ => true
  end.

Definition str_digits_error : exn :=
  Exn "ValueError"
      ("Exceeds the limit (4300 digits) for integer string conversion; "
       +:+ "use sys.set_int_max_str_digits() to increase the limit").

(** [str(v)] where its result is used: the text, or the [ValueError] of
    an integer with too many digits. *)
Definition str_checked (v : pyval) : res string :=
  if has_text v then Ret (py_str v) else Raise str_digits_error.

(** ** Floats: true division and the [.1f] format *)

(** The integer nearest to [n / d] for [d > 0], ties to the even one. *)
Definition round_half_even (n d : Z) : Z :=
  let q := n / d in
  match 2 * (n mod d) ?= d with
  | Lt => q
  | Gt => q + 1
  | Eq => if Z.even q then q else q + 1
  end.

(** [a / (b * 2^e)] rounded to an integer. *)
Definition scaled_quotient (a b e : Z) : Z :=
  if 0 <=? e then round_half_even a (b * 2 ^ e)
  else round_half_even (a * 2 ^ (- e)) b.

(** [floor (log2 (a / b))] for positive [a] and [b]. *)
Definition quotient_log2 (a b : Z) : Z :=
  let k := Z.log2 a - Z.log2 b in
  if (if 0 <=? k then b * 2 ^ k <=? a else b <=? a * 2 ^ (- k))
  then k else k - 1.

(** The binary64 value nearest to [a / b] for positive [a] and [b] (ties
    to even): the quotient that Python's integer true division returns.
    A result of [2^1024] or more is the infinity. *)
Definition nearest_double (a b : Z) : spec_float :=
  let e := Z.max (quotient_log2 a b - 52) (-1074) in
  let m := scaled_quotient a b e in
  let '(m, e) := if m =? 2 ^ 53 then (2 ^ 52, e + 1) else (m, e) in
  if 971 <? e then S754_infinity false
  else match m with
       | Zpos p => S754_finite false p e
       | _ => S754_zero false
       end.

Definition SF_set_sign (s : bool) (f : spec_float) : spec_float :=
  match f with
  | S754_zero _ => S754_zero s
  | S754_infinity _ => S754_infinity s
  | S754_finite _ m e => S754_finite s m e
  | S754_nan => S754_nan
  end.

(** The binary64 value nearest to [a / b], for [a] and [b] other than
    zero. *)
Definition int_quotient (a b : Z) : spec_float :=
  SF_set_sign (xorb (a <? 0) (b <? 0)) (nearest_double (Z.abs a) (Z.abs b)).

(** [a / b] on integers. *)
Definition py_truediv (a b : Z) : res spec_float :=
  if b =? 0 then Raise (Exn "ZeroDivisionError" "division by zero")
  else if a =? 0 then Ret (S754_zero (b <? 0))
  else
    match int_quotient a b with
    | S754_infinity _ =>
        Raise (Exn "OverflowError"
                   "integer division result too large for a float")
    | q => Ret q
    end.

(** The number of tenths in a finite magnitude [m * 2^e], to the nearest
    integer, ties to even. *)
Definition tenths (m : positive) (e : Z) : Z :=
  if 0 <=? e then 10 * Zpos m * 2 ^ e
  else round_half_even (10 * Zpos m) (2 ^ (- e)).

Definition one_decimal (t : Z) : string :=
  str_of_Z (t / 10) +:+ "." +:+ str_of_Z (t mod 10).

(** [f"{x:.1f}"] *)
Definition format_1f (x : spec_float) : string :=
  match x with
  | S754_zero s => (if s then "-" else EmptyString) +:+ "0.0"
  | S754_infinity s => if s then "-inf" else "inf"
  | S754_nan => "nan"
  | S754_finite s m e =>
      (if s then "-" else EmptyString) +:+ one_decimal (tenths m e)
  end.

(** ** [InstagramScraper._format_count] *)

Definition _format_count (count : pyval) : res pyval :=
  match count with
  | VNone => Ret VNone
  | _ =>
      match py_int count with
      | Some n =>
          if 1000000 <=? n then
            q ← py_truediv n 1000000;
            Ret (VStr (str_replace ".0" EmptyString (format_1f q +:+ "M")))
          else if 1000 <=? n then
            q ← py_truediv n 1000;
            Ret (VStr (str_replace ".0" EmptyString (format_1f q +:+ "K")))
          else
            (* a [ValueError] of [str(count)] is caught, and raised
               again by the [str(count)] of the handler *)
            text ← str_checked (VInt n);
            Ret (VStr text)
      | None =>
          if truthy count then
            text ← str_checked count;
            Ret (VStr text)
          else Ret VNone
      end
  end.

(** An integer as a float, as in [x * 100] or [x / n] for a float [x]. *)
Definition double_of_Z (n : Z) : spec_float :=
  binary_normalize 53 1024 n 0 false.

(** [a / b] for two list lengths, [b] not zero.  A length is below
    [2^63], so the quotient never leaves the range of a float. *)
Definition len_quotient (a b : Z) : spec_float :=
  if a =? 0 then S754_zero false else int_quotient a b.


(** ** [InstagramScraper._determine_content_type_from_url] *)

(** [v == s] for a string constant [s]. *)
Definition eq_str (v : pyval) (s : string) : bool :=
  match v with
  | VStr s' => String.eqb s' s
  | _ => false
  end.

Definition _determine_content_type_from_url (url : string) (data : pyval)
  : res string :=
  if str_contains "/reel/" url then Ret "video"
  else if str_contains "/p/" url then
    meta_data ← py_get data "meta_data" (VDict []);
    content_type ← py_get meta_data "content_type" VNone;
    marker ← py_or (VBool (eq_str content_type "video"))
                   (script_data ← py_get data "script_data" (VDict []);
                    is_video ← py_get script_data "is_video" VNone;
                    py_or is_video
                          (script_data ← py_get data "script_data" (VDict []);
                           py_get script_data "video_url" VNone));
    Ret (if truthy marker then "video" else "article")
  else Ret "profile".

(** ** [re.search] for the e-mail pattern *)

(** The pattern language the scraper needs: [\b], a literal character,
    and a greedy character class repeated [at_least] times or more. *)
Inductive re_item :=
  | Boundary
  | Lit (c : ascii)
  | Class (member : ascii -> bool) (at_least : nat).

Definition one_of (cs : string) (c : ascii) : bool := has_char c cs.

(** [\w] on ASCII text. *)
Definition is_word (c : ascii) : bool :=
  is_upper c || is_lower c || is_digit c || Ascii.eqb c "_".

Definition word_side (o : option ascii) : bool :=
  match o with
  | Some c => is_word c
  | None => false
  end.

(** [\b] holds between a word character and a non-word character or an
    end of the text. *)
Definition at_boundary (prev next : option ascii) : bool :=
  xorb (word_side prev) (word_side next).

Fixpoint run_length (member : ascii -> bool) (s : list ascii) : nat :=
  match s with
  | c :: s' => if member c then S (run_length member s') else O
  | [] => O
  end.

(** The first success of [f] among [n, n-1, ..., lo], the order in which a
    greedy repetition gives characters back. *)
Fixpoint first_down (f : nat -> option nat) (lo n : nat) {struct n}
  : option nat :=
  if (n <? lo)%nat then None
  else match f n with
       | Some r => Some r
       | None => match n with
                 | O => None
                 | S n' => first_down f lo n'
                 end
       end.

(** The character before the position reached after consuming [taken]. *)
Definition last_seen (prev : option ascii) (taken : list ascii)
  : option ascii :=
  match last taken with
  | Some c => Some c
  | None => prev
  end.

(** Backtracking match of [items] at the start of [s], where [prev] is the
    character before [s]; returns the length matched. *)
Fixpoint match_here (items : list re_item) (prev : option ascii)
    (s : list ascii) : option nat :=
  match items with
  | [] => Some O
  | Boundary :: rest =>
      if at_boundary prev (head s) then match_here rest prev s else None
  | Lit c :: rest =>
      match s with
      | x :: s' =>
          if Ascii.eqb x c then S <$> match_here rest (Some x) s' else None
      | [] => None
      end
  | Class member lo :: rest =>
      first_down
        (fun k => Nat.add k <$>
                    match_here rest (last_seen prev (take k s)) (drop k s))
        lo (run_length member s)
  end.

(** Leftmost match: start position and length. *)
Fixpoint search_from (items : list re_item) (prev : option ascii)
    (s : list ascii) (pos : nat) : option (nat * nat) :=
  match match_here items prev s with
  | Some n => Some (pos, n)
  | None =>
      match s with
      | [] => None
      | x :: s' => search_from items (Some x) s' (S pos)
      end
  end.

(** [re.search(pattern, text).group(0)], [None] when nothing matches. *)
Definition re_search (items : list re_item) (text : string) : option string :=
  match search_from items None (list_ascii_of_string text) O with
  | Some (pos, n) => Some (String.substring pos n text)
  | None => None
  end.

Definition local_class (c : ascii) : bool :=
  is_upper c || is_lower c || is_digit c || one_of "._%+-" c.

Definition domain_class (c : ascii) : bool :=
  is_upper c || is_lower c || is_digit c || one_of ".-" c.

(** The class written [[A-Z|a-z]] in the source: the letters and the
    vertical bar. *)
Definition tld_class (c : ascii) : bool :=
  is_upper c || Ascii.eqb c "|" || is_lower c.

(** [r'\b[A-Za-z0-9._%+-]+@[A-Za-z0-9.-]+\.[A-Z|a-z]{2,}\b'] *)
Definition email_pattern : list re_item :=
  [Boundary; Class local_class 1; Lit "@"; Class domain_class 1; Lit ".";
   Class tld_class 2; Boundary].

(** ** Building entries *)

Definition business_fields : list string :=
  ["business_email"; "business_phone_number"; "business_category_name"].

Definition is_business_field (k : string) : bool :=
  existsb (String.eqb k) business_fields.

Definition is_none (v : pyval) : bool :=
  match v with
  | VNone => true
  | _ => false
  end.

(** The thirteen profile fields read from [user_data], in the order of the
    dictionary display. *)
Definition profile_fields (user_data : pyval) : res dict :=
  full_name ← py_get user_data "full_name" VNone;
  username ← py_get user_data "username" VNone;
  followers ← py_get user_data "followers_count" VNone;
  followers_count ← _format_count followers;
  following ← py_get user_data "following_count" VNone;
  following_count ← _format_count following;
  biography ← py_get user_data "biography" (VStr EmptyString);
  bio_links ← py_get user_data "bio_links" (VList []);
  is_private ← py_get user_data "is_private" (VBool false);
  is_verified ← py_get user_data "is_verified" (VBool false);
  is_business_account ← py_get user_data "is_business_account" (VBool false);
  is_professional_account ←
    py_get user_data "is_professional_account" (VBool true);
  business_email ← py_get user_data "business_email" VNone;
  business_phone_number ← py_get user_data "business_phone_number" VNone;
  business_category_name ← py_get user_data "business_category_name" VNone;
  Ret [("full_name", full_name);
       ("username", username);
       ("followers_count", followers_count);
       ("following_count", following_count);
       ("biography", biography);
       ("bio_links", bio_links);
       ("is_private", is_private);
       ("is_verified", is_verified);
       ("is_business_account", is_business_account);
       ("is_professional_account", is_professional_account);
       ("business_email", business_email);
       ("business_phone_number", business_phone_number);
       ("business_category_name", business_category_name)].

(** The username and the five fields of an article or video entry. *)
Definition post_fields (extracted_data : pyval) : res (pyval * dict) :=
  meta_data ← py_get extracted_data "meta_data" (VDict []);
  script_data ← py_get extracted_data "script_data" (VDict []);
  username ←
    (u ← py_get meta_data "username" VNone;
     py_or u (t ← py_get meta_data "username_from_title" VNone;
              py_or t (py_get script_data "username" VNone)));
  likes ← (m ← py_get meta_data "likes_count" VNone;
           py_or m (py_get script_data "likes" VNone));
  likes_count ← _format_count likes;
  comments ← (m ← py_get meta_data "comments_count" VNone;
              py_or m (py_get script_data "comments" VNone));
  comments_count ← _format_count comments;
  post_date ← py_get meta_data "post_date" VNone;
  caption ← (m ← py_get meta_data "caption" VNone;
             py_or m (py_get script_data "caption" VNone));
  Ret (username,
       [("likes_count", likes_count);
        ("comments_count", comments_count);
        ("username", username);
        ("post_date", post_date);
        ("caption", caption)]).

(** "Always include business fields, even if null": a missing or empty
    business field becomes [None]. *)
Definition include_business_fields (entry : dict) : dict :=
  fold_left
    (fun e field =>
       match dict_lookup field e with
       | None => dict_set field VNone e
       | Some v => if eq_str v EmptyString then dict_set field VNone e else e
       end)
    business_fields entry.

(** "Try to extract business email from biography if not found". *)
Definition email_from_biography (entry : dict) : res dict :=
  let biography := default VNone (dict_lookup "biography" entry) in
  if negb (truthy (default VNone (dict_lookup "business_email" entry)))
     && truthy biography
  then
    match biography with
    | VStr text =>
        match re_search email_pattern text with
        | Some email => Ret (dict_set "business_email" (VStr email) entry)
        | None => Ret entry
        end
    | _ =>
        Raise (Exn "TypeError"
                   ("expected string or bytes-like object, got '"
                    +:+ type_name biography +:+ "'"))
    end
  else Ret entry.

(** "Remove None values for non-business fields". *)
Definition drop_none_fields (entry : dict) : dict :=
  List.filter (fun kv => negb (is_none (snd kv)) || is_business_field (fst kv))
              entry.

(** The three closing steps, which the source applies in the same words
    to a chained profile entry and to the entry of the URL itself. *)
Definition finish_entry (entry : dict) : res dict :=
  entry ← email_from_biography (include_business_fields entry);
  Ret (drop_none_fields entry).

(** [f"https://www.instagram.com/{username}/"] *)
Definition profile_url_of (username : pyval) : string :=
  "https://www.instagram.com/" +:+ py_str username +:+ "/".

(** The body of the inner [try] of the chaining step, from the result
    [r] of the extraction of [profile_url] on: the profile entry, or
    nothing when the result carries an error. *)
Definition chained_profile_entry (profile_url : string) (r : res pyval)
  : res (option dict) :=
  profile_extracted_data ← r;
  error ← py_get profile_extracted_data "error" VNone;
  if truthy error then Ret None
  else
    user_data ← py_get profile_extracted_data "user_data" (VDict []);
    fields ← profile_fields user_data;
    profile_entry ←
      finish_entry ([("url", VStr profile_url);
                     ("content_type", VStr "profile")] ++ fields);
    Ret (Some profile_entry).

(** What the chaining step appends: whatever is raised inside the [try]
    is printed and dropped. *)
Definition chain_outcome (profile_url : string) (r : res pyval)
  : option dict :=
  match chained_profile_entry profile_url r with
  | Ret (Some profile_entry) => Some profile_entry
  | _ => None
  end.

(** ** Hashable values: members of [processed_usernames], keys of the
    content-type breakdown *)

(** [None], an integer (a boolean hashes and compares as 0 or 1) or a
    string. *)
Abbreviation hkey := (option (Z + string)).

Definition hash_key (v : pyval) : res hkey :=
  match v with
  | VNone => Ret None
  | VBool b => Ret (Some (inl (Z.b2z b)))
  | VInt z => Ret (Some (inl z))
  | VStr s => Ret (Some (inr s))
  | VList _ | VDict _ =>
      Raise (Exn "TypeError" ("unhashable type: '" +:+ type_name v +:+ "'"))
  end.

(** ** The result of a run *)

Inductive sumval :=
  | SInt (n : Z)
  | SFloat (x : spec_float)
  | SCounts (m : gmap hkey nat).

Inductive outval :=
  | OBool (b : bool)
  | ONone
  | OStr (s : string)
  | OList (l : list dict)
  | OSummary (s : list (string * sumval))
  | OVal (v : pyval).

Fixpoint lookup_key {A} (k : string) (d : list (string * A)) : option A :=
  match d with
  | [] => None
  | (k', v) :: d' => if String.eqb k k' then Some v else lookup_key k d'
  end.

(** What one step of the loop did; kept next to the two lists the loop
    appends to, as a record of which append came from where. *)
Inductive event :=
  | Failed (i : nat) (record : dict)
  | Emitted (i : nat) (entry : dict)
  | Chained (i : nat) (user : hkey) (entry : option dict).

Definition event_entries (ev : event) : list dict :=
  match ev with
  | Emitted _ e => [e]
  | Chained _ _ (Some e) => [e]
  | _ => []
  end.

Definition event_errors (ev : event) : list dict :=
  match ev with
  | Failed _ r => [r]
  | _ => []
  end.

(** [content_types[content_type] = content_types.get(content_type, 0) + 1]
    over the entries. *)
Fixpoint count_content_types (data : list dict) (content_types : gmap hkey nat)
  : res (gmap hkey nat) :=
  match data with
  | [] => Ret content_types
  | entry :: data' =>
      content_type ←
        hash_key (default (VStr "unknown") (dict_lookup "content_type" entry));
      count_content_types data'
        (<[content_type := S (default O (content_types !! content_type))]>
           content_types)
  end.

Section Scrape.

(** The extractor: its state, and what a call of
    [extract_graphql_data(url)] returns or raises. *)
Context {St : Type}.
Variable extract_graphql_data : St -> string -> St * res pyval.

(** Creating and starting the extractor and reading the first stealth
    report; an exception here is the critical failure. *)
Variable start : res St.
(** The final [get_stealth_report()]. *)
Variable get_stealth_report : St -> res pyval.
(** Whether [json.dump] to the given path went through. *)
Variable save_json : string -> list dict -> bool.
(** [time.time() - start_time] when the summary is computed, and when
    a critical failure is reported. *)
Variable total_time : spec_float.
Variable time_of_failure : spec_float.

(** [self.enable_anti_detection] and [self.output_file]. *)
Variable enable_anti_detection : bool.
Variable output_file : option string.

(** The variables of the loop: the extractor, the two lists and the set
    of the source, and [history], an auxiliary log that no statement of
    the source reads: it records each append next to the list it goes
    to. *)
Record loop_state := LoopState {
  extractor : St;
  all_extracted_data : list dict;
  errors : list dict;
  processed_usernames : gset hkey;
  history : list event
}.

Definition with_extractor (x : St) (st : loop_state) : loop_state :=
  LoopState x (all_extracted_data st) (errors st) (processed_usernames st)
            (history st).

(** [errors.append({'url': url, 'error': error, 'index': i})] *)
Definition append_error (i : nat) (url : string) (error : pyval)
    (st : loop_state) : loop_state :=
  let record := [("url", VStr url); ("error", error);
                 ("index", VInt (Z.of_nat i))] in
  LoopState (extractor st) (all_extracted_data st) (errors st ++ [record])
            (processed_usernames st) (history st ++ [Failed i record]).

(** [all_extracted_data.append(clean_entry)] *)
Definition append_entry (i : nat) (entry : dict) (st : loop_state)
  : loop_state :=
  LoopState (extractor st) (all_extracted_data st ++ [entry]) (errors st)
            (processed_usernames st) (history st ++ [Emitted i entry]).

(** [processed_usernames.add(username)] *)
Definition add_username (user : hkey) (st : loop_state) : loop_state :=
  LoopState (extractor st) (all_extracted_data st) (errors st)
            ({[user]} ∪ processed_usernames st) (history st).

(** The inner [try] of the chaining step: one more extraction, and a
    profile entry when it reports no error.  Whatever is raised inside
    is printed and dropped. *)
Definition chain_profile (i : nat) (username : pyval) (user : hkey)
    (st : loop_state) : loop_state :=
  let profile_url := profile_url_of username in
  let '(x, r) := extract_graphql_data (extractor st) profile_url in
  match chained_profile_entry profile_url r with
  | Ret (Some profile_entry) =>
      LoopState x (all_extracted_data st ++ [profile_entry]) (errors st)
                (processed_usernames st)
                (history st ++ [Chained i user (Some profile_entry)])
  | _ =>
      LoopState x (all_extracted_data st) (errors st)
                (processed_usernames st)
                (history st ++ [Chained i user None])
  end.

(** The [except Exception as e] of the loop body. *)
Definition on_exception (i : nat) (url : string) (e : exn)
    (st : loop_state) : loop_state :=
  append_error i url (VStr (exn_text e)) st.

(** The end of the loop body: closing steps, then the append. *)
Definition emit (i : nat) (url : string) (clean_entry : dict)
    (st : loop_state) : loop_state :=
  match finish_entry clean_entry with
  | Ret entry => append_entry i entry st
  | Raise e => on_exception i url e st
  end.

(** One iteration of [for i, url in enumerate(urls, 1)]. *)
Definition process_url (i : nat) (url : string) (st : loop_state)
  : loop_state :=
  let '(x, r) := extract_graphql_data (extractor st) url in
  let st := with_extractor x st in
  match (extracted_data ← r;
         error ← py_get extracted_data "error" VNone;
         Ret (extracted_data, error)) with
  | Raise e => on_exception i url e st
  | Ret (extracted_data, error) =>
      if truthy error then append_error i url error st
      else
        match _determine_content_type_from_url url extracted_data with
        | Raise e => on_exception i url e st
        | Ret content_type =>
            let clean_entry :=
              [("url", VStr url); ("content_type", VStr content_type)] in
            if String.eqb content_type "profile" then
              match (user_data ←
                       py_get extracted_data "user_data" (VDict []);
                     profile_fields user_data) with
              | Raise e => on_exception i url e st
              | Ret fields => emit i url (dict_update clean_entry fields) st
              end
            else if String.eqb content_type "article"
                    || String.eqb content_type "video" then
              match post_fields extracted_data with
              | Raise e => on_exception i url e st
              | Ret (username, fields) =>
                  let clean_entry := dict_update clean_entry fields in
                  if truthy username then
                    match hash_key username with
                    | Raise e => on_exception i url e st
                    | Ret user =>
                        if decide (user ∈ processed_usernames st)
                        then emit i url clean_entry st
                        else emit i url clean_entry
                               (chain_profile i username user
                                  (add_username user st))
                    end
                  else emit i url clean_entry st
              end
            else emit i url clean_entry st
        end
  end.

Fixpoint run_loop (i : nat) (urls : list string) (st : loop_state)
  : loop_state :=
  match urls with
  | [] => st
  | url :: rest => run_loop (S i) rest (process_url i url st)
  end.

Definition initial_state (x : St) : loop_state :=
  LoopState x [] [] ∅ [].

(** The summary of a run that went through the loop. *)
Definition summary_of (urls : list string) (st : loop_state)
    (content_types : gmap hkey nat) : list (string * sumval) :=
  let original_urls_processed := Z.of_nat (length urls) in
  let additional_profiles_extracted :=
    Z.of_nat (size (processed_usernames st)) in
  let extracted := Z.of_nat (length (all_extracted_data st)) in
  [("total_original_urls", SInt original_urls_processed);
   ("additional_profiles_extracted", SInt additional_profiles_extracted);
   ("total_extractions", SInt extracted);
   ("successful_extractions", SInt extracted);
   ("failed_extractions", SInt (Z.of_nat (length (errors st))));
   ("success_rate",
     if original_urls_processed =? 0 then SInt 0
     else SFloat (SFmul 53 1024
                        (len_quotient extracted original_urls_processed)
                        (double_of_Z 100)));
   ("total_time_seconds", SFloat total_time);
   ("average_time_per_url",
     if original_urls_processed =? 0 then SInt 0
     else SFloat (SFdiv 53 1024 total_time
                        (double_of_Z original_urls_processed)));
   ("content_type_breakdown", SCounts content_types)].

Definition critical_error_text (e : exn) : string :=
  "Critical error during scraping: " +:+ exn_text e.

(** The [except Exception as e] around the whole run. *)
Definition critical_result (urls : list string) (data errs : list dict)
    (usernames : nat) (e : exn) : list (string * outval) :=
  [("success", OBool false);
   ("error", OStr (critical_error_text e));
   ("data", OList data);
   ("summary", OSummary
      [("total_original_urls", SInt (Z.of_nat (length urls)));
       ("additional_profiles_extracted", SInt (Z.of_nat usernames));
       ("total_extractions", SInt (Z.of_nat (length data)));
       ("successful_extractions", SInt (Z.of_nat (length data)));
       ("failed_extractions", SInt (Z.of_nat (length urls)));
       ("success_rate", SInt 0);
       ("total_time_seconds", SFloat time_of_failure);
       ("average_time_per_url", SInt 0);
       ("content_type_breakdown", SCounts ∅)]);
   ("errors", OList (errs ++ [[("url", VStr "ALL");
                               ("error", VStr (critical_error_text e));
                               ("index", VInt 0)]]));
   ("output_file", ONone)].

(** [InstagramScraper.scrape] *)
Definition scrape (urls : list string) : list (string * outval) :=
  match urls with
  | [] =>
      [("success", OBool false);
       ("error", OStr "No URLs provided");
       ("data", OList []);
       ("summary", OSummary []);
       ("errors", OList [])]
  | _ =>
      match start with
      | Raise e => critical_result urls [] [] O e
      | Ret x =>
          let st := run_loop 1 urls (initial_state x) in
          let output_file_path :=
            match output_file with
            | Some path =>
                if negb (String.eqb path EmptyString)
                   && save_json path (all_extracted_data st)
                then OStr path else ONone
            | None => ONone
            end in
          match count_content_types (all_extracted_data st) ∅ with
          | Raise e =>
              critical_result urls (all_extracted_data st) (errors st)
                              (size (processed_usernames st)) e
          | Ret content_types =>
              let final_stealth_report :=
                if enable_anti_detection then
                  match get_stealth_report (extractor st) with
                  | Ret report => OVal report
                  | Raise _ => ONone
                  end
                else ONone in
              [("success",
                 OBool (Nat.eqb (length (errors st)) O));
               ("data", OList (all_extracted_data st));
               ("summary", OSummary (summary_of urls st content_types));
               ("errors", OList (errors st));
               ("output_file", output_file_path);
               ("stealth_report", final_stealth_report)]
          end
      end
  end.

End Scrape.

(** ** A canned extractor, for examples *)

(** An extractor without state of its own: it answers from a table of
    pages and times out on every other URL. *)
Definition canned (pages : list (string * res pyval)) (x : unit)
    (url : string) : unit * res pyval :=
  (x, default (Raise (Exn "TimeoutError" "Timeout 30000ms exceeded"))
              (lookup_key url pages)).

Definition sample_pages : list (string * res pyval) :=
  [("https://www.instagram.com/codehype_",
    Ret (VDict [("user_data",
                 VDict [("username", VStr "codehype_");
                        ("followers_count", VInt 16500);
                        ("biography", VStr "Contact a@b.com|x");
                        ("business_email", VStr EmptyString)])]));
   ("https://www.instagram.com/p/DMsercXMVeZ/",
    Ret (VDict [("meta_data",
                 VDict [("username", VStr "bob"); ("likes_count", VInt 0)]);
                ("script_data",
                 VDict [("likes", VInt 7); ("caption", VStr "hi")])]));
   ("https://www.instagram.com/p/second/",
    Ret (VDict [("meta_data",
                 VDict [("username", VStr "bob");
                        ("likes_count", VInt 1500000)]);
                ("script_data", VDict [("is_video", VBool true)])]));
   ("https://www.instagram.com/bob/",
    Ret (VDict [("user_data", VDict [("username", VStr "bob")])]));
   ("https://www.instagram.com/reel/CSb6-Rap2Ip/",
    Ret (VDict [("error", VStr "no_data_found")]))].

Definition sample_urls : list string :=
  ["https://www.instagram.com/codehype_";
   "https://www.instagram.com/p/DMsercXMVeZ/";
   "https://www.instagram.com/p/second/";
   "https://www.instagram.com/reel/CSb6-Rap2Ip/";
   "https://www.instagram.com/90svogue.__"].

(** A run over the sample pages: the extractor starts, saving is off,
    the clock reads zero. *)
Definition sample_run (urls : list string) : list (string * outval) :=
  scrape (canned sample_pages) (Ret tt) (fun _ => Ret VNone)
         (fun _ _ => true) (S754_zero false) (S754_zero false) true None urls.

(** The final loop state of that run. *)
Definition sample_loop (urls : list string) : loop_state :=
  run_loop (canned sample_pages) 1 urls (initial_state tt).



(** The keys of the summary as the specification lists them. *)
Definition specified_summary_keys : list string :=
  ["total_original_urls"; "additional_profiles_extracted";
   "total_extractions"; "successful_extractions"; "failed_extractions";
   "success_rate_percent"; "total_time_seconds"; "average_time_per_url";
   "content_type_breakdown"].

(** The keys of the summary in the source. *)
Definition summary_keys : list string :=
  ["total_original_urls"; "additional_profiles_extracted";
   "total_extractions"; "successful_extractions"; "failed_extractions";
   "success_rate"; "total_time_seconds"; "average_time_per_url";
   "content_type_breakdown"].

(** ** Notions used to state the properties *)

(** The largest quotient that still rounds to a finite binary64 value is
    just below [2^1024 - 2^970]. *)
Definition double_limit : Z := 2 ^ 1024 - 2 ^ 970.

Fixpoint digits_only (s : string) : bool :=
  match s with
  | EmptyString => true
  | String c s' => is_digit c && digits_only s'
  end.

(** The number of tenths that [.1f] prints for the quotient
    [count / unit]. *)
Definition quotient_tenths (count unit : Z) : Z :=
  match int_quotient count unit with
  | S754_finite _ m e => tenths m e
  | _ => 0
  end.

(** [t] tenths with a unit suffix: the integer part, then a point and
    the tenths digit unless that digit is zero, then the suffix. *)
Definition abbreviated (t : Z) (suffix : string) : string :=
  str_of_Z (t / 10)
  +:+ (if t mod 10 =? 0 then EmptyString else "." +:+ str_of_Z (t mod 10))
  +:+ suffix.

(** A field of the extraction that holds a mapping: the value under
    [k] when it is a dictionary, the empty dictionary that [get] defaults
    to when [k] is missing. *)
Definition sub_dict (data : dict) (k : string) : option dict :=
  match dict_lookup k data with
  | None => Some []
  | Some (VDict d) => Some d
  | Some _ => None
  end.

(** [d.get(k)] on a dictionary. *)
Definition field (d : dict) (k : string) : pyval :=
  default VNone (dict_lookup k d).

(** A video marker among the sources: the meta [content_type] equal to
    ["video"], or a truthy script [is_video] or [video_url]. *)
Definition has_video_marker (meta script : dict) : bool :=
  eq_str (field meta "content_type") "video"
  || truthy (field script "is_video")
  || truthy (field script "video_url").

(** The resolution the specification describes: the first candidate
    that is not null, in the order meta tag, embedded script, network
    payload. *)
Definition first_non_null (candidates : list pyval) : pyval :=
  default VNone (List.find (fun v => negb (is_none v)) candidates).

(** What [a or b] gives on two values: [a] when it is truthy, else [b]. *)
Definition first_truthy (a b : pyval) : pyval := if truthy a then a else b.

(** A field other than a business field in an emitted entry: left out
    when null. *)
Definition shown (v : pyval) : option pyval :=
  if is_none v then None else Some v.

(** The e-mail shape of the specification: letters, digits or one of
    [._%+-], then [@], then a domain of letters, digits, dots and hyphens,
    then a dot and two or more letters. *)
Definition letter_class (c : ascii) : bool := is_upper c || is_lower c.

Definition email_shaped (s : list ascii) : Prop :=
  exists local domain tld,
    s = local ++ "@"%char :: domain ++ "."%char :: tld /\
    local <> [] /\ forallb local_class local = true /\
    domain <> [] /\ forallb domain_class domain = true /\
    (2 <= length tld)%nat /\ forallb letter_class tld = true.

(** An e-mail-shaped substring of [text], from [pos] and [len] long, with
    a word boundary on both sides. *)
Definition email_shaped_at (text : list ascii) (pos len : nat) : Prop :=
  email_shaped (take len (drop pos text)) /\
  (pos + len <= length text)%nat /\
  at_boundary (last (take pos text)) (head (drop pos text)) = true /\
  at_boundary (last (take (pos + len) text))
              (head (drop (pos + len) text)) = true.

(** The value a business field is given before the e-mail scan: null
    when the built entry lacks the field or has the empty string. *)
Definition business_value (raw : dict) (f : string) : pyval :=
  match dict_lookup f raw with
  | Some v => if eq_str v EmptyString then VNone else v
  | None => VNone
  end.

(** The URL index an event closes, and the user a chained event is
    about. *)
Definition url_index (ev : event) : option nat :=
  match ev with
  | Failed i _ | Emitted i _ => Some i
  | Chained _ _ _ => None
  end.

Definition chained_user (ev : event) : option hkey :=
  match ev with
  | Chained _ user _ => Some user
  | _ => None
  end.

(** The profile entries that chaining for [user] appended. *)
Definition chained_entries (user : hkey) (ev : event) : list dict :=
  match ev with
  | Chained _ user' (Some entry) =>
      if decide (user' = user) then [entry] else []
  | _ => []
  end.

(** The key under which the breakdown counts an entry. *)
Definition has_type (k : hkey) (entry : dict) : bool :=
  match hash_key (default (VStr "unknown") (dict_lookup "content_type" entry))
  with
  | Ret k' => bool_decide (k' = k)
  | Raise _ => false
  end.

(** The number of entries of the data list with content type [k]. *)
Definition type_count (k : hkey) (data : list dict) : nat :=
  length (List.filter (has_type k) data).

(** A profile extraction that reports no error and whose [user_data] is
    a mapping with counts the formatter accepts and a biography that is
    text (or missing). *)
Definition profile_payload_ok (payload : dict) : Prop :=
  truthy (field payload "error") = false /\
  exists user_data,
    sub_dict payload "user_data" = Some user_data /\
    (exists v, _format_count (field user_data "followers_count") = Ret v) /\
    (exists v, _format_count (field user_data "following_count") = Ret v) /\
    (exists text,
       default (VStr EmptyString) (dict_lookup "biography" user_data)
       = VStr text).

(** The outcomes of the chained extractions attempted for [user]. *)
Definition chain_attempts (user : hkey) (ev : event) : list (option dict) :=
  match ev with
  | Chained _ user' r => if decide (user' = user) then [r] else []
  | _ => []
  end.

Definition error_record (i : nat) (url : string) (error : pyval) : dict :=
  [("url", VStr url); ("error", error); ("index", VInt (Z.of_nat i))].

(** [entry] is what the closing steps made of an entry built for [url]
    with the given content type. *)
Definition built (url content_type : string) (entry : dict) : Prop :=
  exists raw,
    finish_entry raw = Ret entry /\
    dict_lookup "url" raw = Some (VStr url) /\
    dict_lookup "content_type" raw = Some (VStr content_type).

(** How the processing of URL number [i] ends: with an error record for
    it, or with its entry. *)
Definition closing (i : nat) (url : string) (ev : event) : Prop :=
  (exists error, ev = Failed i (error_record i url error)) \/
  (exists content_type entry,
     ev = Emitted i entry /\ built url content_type entry).

Section Steps.

Context {St : Type}.

(** The state once [ev] has happened. *)
Definition log_event (ev : event) (st : @loop_state St) : loop_state :=
  LoopState (extractor st)
            (all_extracted_data st ++ event_entries ev)
            (errors st ++ event_errors ev)
            (processed_usernames st)
            (history st ++ [ev]).

(** The two shapes of an iteration: it closes at once, or it first
    chains to the profile of a user not seen before. *)
Inductive step_shape (i : nat) (url : string) (st st' : @loop_state St)
  : Prop :=
  | step_plain (x : St) (last : event) :
      closing i url last ->
      st' = log_event last (with_extractor x st) ->
      step_shape i url st st'
  | step_chained (x : St) (user : hkey) (r : option dict) (last : event) :
      user ∉ processed_usernames st ->
      (forall entry, r = Some entry ->
                     exists profile_url, built profile_url "profile" entry) ->
      closing i url last ->
      st' = log_event last
              (log_event (Chained i user r)
                 (with_extractor x (add_username user st))) ->
      step_shape i url st st'.

(** Processing [url] in state [st] finds an article or a video whose
    username is the hashable, truthy value [username], with key [user];
    the username has a text (it is printed before it is chained). *)
Definition resolves_to
    (extract_graphql_data : St -> string -> St * res pyval)
    (st : @loop_state St) (url : string) (username : pyval) (user : hkey)
  : Prop :=
  exists extracted_data error content_type fields,
    snd (extract_graphql_data (extractor st) url) = Ret extracted_data /\
    py_get extracted_data "error" VNone = Ret error /\
    truthy error = false /\
    _determine_content_type_from_url url extracted_data = Ret content_type /\
    (content_type = "article" \/ content_type = "video") /\
    post_fields extracted_data = Ret (username, fields) /\
    truthy username = true /\
    hash_key username = Ret user /\
    has_text username = true.

(** What holds of the loop state once the URLs [urls], numbered from
    [first], have been processed. *)
Record run_ok (first : nat) (urls : list string) (st : @loop_state St)
  : Prop := RunOk {
  ok_data : all_extracted_data st = flat_map event_entries (history st);
  ok_errors : errors st = flat_map event_errors (history st);
  ok_index : omap url_index (history st) = seq first (length urls);
  ok_closing :
    forall ev i, ev ∈ history st -> url_index ev = Some i ->
                 exists url, urls !! (i - first)%nat = Some url
                             /\ closing i url ev;
  ok_chained_seen :
    forall ev user, ev ∈ history st -> chained_user ev = Some user ->
                    user ∈ processed_usernames st;
  ok_chained_once : NoDup (omap chained_user (history st));
  ok_chained_built :
    forall i user entry, Chained i user (Some entry) ∈ history st ->
                         exists profile_url, built profile_url "profile" entry
}.

End Steps.

(** ** [main]: the listing of the example URLs *)

(** The content type that [main] prints next to an example URL:
    ["profile" if "/p/" not in url and "/reel/" not in url else
     ("video" if "/reel/" in url else "article")]. *)
Definition listed_content_type (url : string) : string :=
  if negb (str_contains "/p/" url) && negb (str_contains "/reel/" url)
  then "profile"
  else if str_contains "/reel/" url then "video" else "article".

(** ** Notions for the further properties *)

(** The profile entries that chaining appended, for whatever user. *)
Definition chained_success (ev : event) : list dict :=
  match ev with
  | Chained _ _ (Some entry) => [entry]
  | _ => []
  end.

(** The three content types. *)
Definition known_type (content_type : string) : Prop :=
  content_type = "profile" \/ content_type = "article"
  \/ content_type = "video".

(** The keys of the result on the normal return. *)
Definition result_keys : list string :=
  ["success"; "data"; "summary"; "errors"; "output_file"; "stealth_report"].

(** An entry closed from one built with a URL and one of the three
    content types. *)
Definition typed_entry (entry : dict) : Prop :=
  exists url content_type,
    built url content_type entry /\ known_type content_type.

(** A URL that is neither a post nor a reel. *)
Definition profile_url (url : string) : Prop :=
  str_contains "/reel/" url = false /\ str_contains "/p/" url = false.


(** The flags of a profile entry when [user_data] lacks them. *)
Definition flag_defaults (user_data entry : dict) : Prop :=
  (dict_lookup "is_professional_account" user_data = None ->
   dict_lookup "is_professional_account" entry = Some (VBool true)) /\
  (dict_lookup "is_private" user_data = None ->
   dict_lookup "is_private" entry = Some (VBool false)) /\
  (dict_lookup "is_verified" user_data = None ->
   dict_lookup "is_verified" entry = Some (VBool false)) /\
  (dict_lookup "is_business_account" user_data = None ->
   dict_lookup "is_business_account" entry = Some (VBool false)).

(** ASCII text: every character is below 128.  On such text the model
    of [\b], of [str.strip] and of [str.lower] is that of the
    interpreter; a property that depends on them is stated for ASCII
    text. *)
Definition is_ascii (c : ascii) : bool := (nat_of_ascii c <? 128)%nat.

Definition ascii_text (s : string) : Prop :=
  forallb is_ascii (list_ascii_of_string s) = true.

(** The texts that [email_pattern] accepts between its two [\b]: a
    local part, [@], a domain, a dot, and two or more characters of the
    class written [[A-Z|a-z]]. *)
Definition pattern_shaped (s : list ascii) : Prop :=
  exists local domain tld,
    s = local ++ "@"%char :: domain ++ "."%char :: tld /\
    local <> [] /\ forallb local_class local = true /\
    domain <> [] /\ forallb domain_class domain = true /\
    (2 <= length tld)%nat /\ forallb tld_class tld = true.

(** A substring of [text] that the pattern accepts, from [pos] and [len]
    long, with a word boundary on both sides. *)
Definition pattern_match_at (text : list ascii) (pos len : nat) : Prop :=
  pattern_shaped (take len (drop pos text)) /\
  (pos + len <= length text)%nat /\
  at_boundary (last (take pos text)) (head (drop pos text)) = true /\
  at_boundary (last (take (pos + len) text))
              (head (drop (pos + len) text)) = true.

(** ** [scrape_instagram_urls] and [main]: the URLs and the options *)

(** [s.strip()] and [s.lower()] on ASCII text. *)
Definition str_strip (s : string) : string :=
  string_of_list_ascii (strip (list_ascii_of_string s)).

Definition lower_char (c : ascii) : ascii :=
  if is_upper c then ascii_of_nat (nat_of_ascii c + 32) else c.

Definition str_lower (s : string) : string :=
  string_of_list_ascii (map lower_char (list_ascii_of_string s)).

Definition example_urls : list string :=
  ["https://www.instagram.com/90svogue.__";
   "https://www.instagram.com/codehype_";
   "https://www.instagram.com/p/DMsercXMVeZ/";
   "https://www.instagram.com/reel/CSb6-Rap2Ip/"].

(** [input()]: the next line of the standard input, without its line
    end; [EOFError] when the input is over. *)
Definition input (stdin : list string) : res (string * list string) :=
  match stdin with
  | line :: stdin' => Ret (line, stdin')
  | [] => Raise (Exn "EOFError" "EOF when reading a line")
  end.

(** The [while True] loop of [main] that fills [urls]. *)
Fixpoint read_urls (urls : list string) (stdin : list string)
  : res (list string * list string) :=
  match stdin with
  | line :: stdin' =>
      let url := str_strip line in
      if negb (truthy (VStr url)) then Ret (urls, stdin')
      else if str_contains "instagram.com" url
           then read_urls (urls ++ [url]) stdin'
           else read_urls urls stdin'
  | [] => Raise (Exn "EOFError" "EOF when reading a line")
  end.

(** The URLs that [main] goes on with. *)
Definition choose_urls (stdin : list string)
  : res (list string * list string) :=
  '(line, stdin) ← input stdin;
  let choice := str_lower (str_strip line) in
  if String.eqb choice "y" then Ret (example_urls, stdin)
  else
    '(urls, stdin) ← read_urls [] stdin;
    if negb (truthy (VList (map VStr urls)))
    then Ret (example_urls, stdin)
    else Ret (urls, stdin).

(** The keyword arguments that [main] passes on. *)
Record scraper_options := ScraperOptions {
  opt_headless : bool;
  opt_enable_anti_detection : bool;
  opt_is_mobile : bool;
  opt_output_file : option string
}.

Definition read_options (stdin : list string)
  : res (scraper_options * list string) :=
  '(line, stdin) ← input stdin;
  let headless := negb (String.eqb (str_lower (str_strip line)) "n") in
  '(line, stdin) ← input stdin;
  let anti_detection := negb (String.eqb (str_lower (str_strip line)) "n") in
  '(line, stdin) ← input stdin;
  let mobile := String.eqb (str_lower (str_strip line)) "y" in
  '(line, stdin) ← input stdin;
  let save_file := negb (String.eqb (str_lower (str_strip line)) "n") in
  if save_file then
    '(line, stdin) ← input stdin;
    let output_file := str_strip line in
    let output_file :=
      if negb (truthy (VStr output_file))
      then "instagram_scraped_data.json"%string else output_file in
    Ret (ScraperOptions headless anti_detection mobile (Some output_file),
         stdin)
  else Ret (ScraperOptions headless anti_detection mobile None, stdin).

Section Main.

Context {St : Type}.
Variable extract_graphql_data : St -> string -> St * res pyval.
(** Creating and starting the extractor with [headless],
    [enable_anti_detection] and [is_mobile]. *)
Variable start : bool -> bool -> bool -> res St.
Variable get_stealth_report : St -> res pyval.
Variable save_json : string -> list dict -> bool.
Variable total_time : spec_float.
Variable time_of_failure : spec_float.

Definition scrape_instagram_urls (urls : list string)
    (headless enable_anti_detection is_mobile : bool)
    (output_file : option string) : list (string * outval) :=
  scrape extract_graphql_data (start headless enable_anti_detection is_mobile)
         get_stealth_report save_json total_time time_of_failure
         enable_anti_detection output_file urls.

(** [main] up to the result it displays: the lines it reads, then the
    call of the scraper.  The only exception is the [EOFError] of
    [input]. *)
Definition main (stdin : list string) : res (list (string * outval)) :=
  '(urls, stdin) ← choose_urls stdin;
  '(options, stdin) ← read_options stdin;
  Ret (scrape_instagram_urls urls (opt_headless options)
         (opt_enable_anti_detection options) (opt_is_mobile options)
         (opt_output_file options)).

End Main.

(** * Properties *)

(** ** Rounding *)

Lemma round_half_even_error (n d : Z) :
  0 < d -> 2 * Z.abs (round_half_even n d * d - n) <= d.
Proof.
  intros Hd. unfold round_half_even.
  pose proof (Z.div_mod n d ltac:(lia)) as Hdm.
  pose proof (Z.mod_pos_bound n d Hd) as Hr.
  destruct (Z.compare_spec (2 * (n mod d)) d) as [H|H|H];
    [destruct (Z.even (n / d))| |]; nia.
Qed.

Lemma round_half_even_lower (n d lo : Z) :
  0 < d -> lo * d <= n -> lo <= round_half_even n d.
Proof.
  intros Hd Hlo. unfold round_half_even.
  pose proof (Z.div_mod n d ltac:(lia)) as Hdm.
  pose proof (Z.mod_pos_bound n d Hd) as Hr.
  assert (lo <= n / d) by (apply Z.div_le_lower_bound; lia).
  destruct (2 * (n mod d) ?= d); [destruct (Z.even (n / d))| |]; lia.
Qed.

Lemma round_half_even_upper (n d hi : Z) :
  0 < d -> n < hi * d -> round_half_even n d <= hi.
Proof.
  intros Hd Hhi. unfold round_half_even.
  pose proof (Z.div_mod n d ltac:(lia)) as Hdm.
  pose proof (Z.mod_pos_bound n d Hd) as Hr.
  assert (n / d < hi) by (apply Z.div_lt_upper_bound; lia).
  destruct (2 * (n mod d) ?= d); [destruct (Z.even (n / d))| |]; lia.
Qed.

(** Strictly below [hi] when [n / d] is below [hi - 1/2]. *)
Lemma round_half_even_below (n d hi : Z) :
  0 < d -> 2 * n < (2 * hi - 1) * d -> round_half_even n d < hi.
Proof.
  intros Hd Hhi. unfold round_half_even.
  pose proof (Z.div_mod n d ltac:(lia)) as Hdm.
  pose proof (Z.mod_pos_bound n d Hd) as Hr.
  destruct (Z.compare_spec (2 * (n mod d)) d) as [H|H|H];
    [destruct (Z.even (n / d))| |]; nia.
Qed.

Lemma quotient_log2_bounds (a b : Z) :
  0 < b -> b <= a ->
  let k := quotient_log2 a b in
  0 <= k /\ b * 2 ^ k <= a < b * 2 ^ (k + 1).
Proof.
  intros Hb Hab. unfold quotient_log2.
  pose proof (Z.log2_spec a ltac:(lia)) as [Ha1 Ha2].
  pose proof (Z.log2_spec b Hb) as [Hb1 Hb2].
  pose proof (Z.log2_le_mono b a Hab) as Hmono.
  pose proof (Z.log2_nonneg b) as Hlb.
  set (la := Z.log2 a) in *. set (lb := Z.log2 b) in *.
  assert (Hk0 : 0 <= la - lb) by lia.
  destruct (Z.leb_spec 0 (la - lb)) as [_|]; [|lia].
  assert (Hsplit : 2 ^ (la + 1) = 2 ^ lb * 2 ^ (la - lb + 1)).
  { rewrite <- Z.pow_add_r by lia. f_equal. lia. }
  assert (Hpos : 0 < 2 ^ (la - lb + 1)) by (apply Z.pow_pos_nonneg; lia).
  destruct (Z.leb_spec (b * 2 ^ (la - lb)) a) as [Hle|Hgt]; cbn zeta.
  - split; [lia|]. split; [lia|]. nia.
  - assert (la - lb <> 0).
    { intros Heq. rewrite Heq in Hgt. simpl in Hgt. lia. }
    split; [lia|]. replace (la - lb - 1 + 1) with (la - lb) by lia.
    split; [|lia].
    assert (Hsplit' : 2 ^ la = 2 ^ (lb + 1) * 2 ^ (la - lb - 1)).
    { rewrite <- Z.pow_add_r by lia. f_equal. lia. }
    assert (0 < 2 ^ (la - lb - 1)) by (apply Z.pow_pos_nonneg; lia).
    nia.
Qed.

Lemma scaled_quotient_bounds (a b : Z) :
  0 < b -> b <= a ->
  let s := scaled_quotient a b (quotient_log2 a b - 52) in
  2 ^ 52 <= s <= 2 ^ 53.
Proof.
  intros Hb Hab.
  destruct (quotient_log2_bounds a b Hb Hab) as (Hk & Hlo & Hhi).
  set (k := quotient_log2 a b) in *. cbn zeta. unfold scaled_quotient.
  assert (Hk1 : 2 ^ (k + 1) = 2 * 2 ^ k)
    by (rewrite Z.pow_add_r by lia; change (2 ^ 1) with 2; lia).
  destruct (Z.leb_spec 0 (k - 52)) as [He|He].
  - assert (Hs : 2 ^ k = 2 ^ 52 * 2 ^ (k - 52)).
    { rewrite <- Z.pow_add_r by lia. f_equal. lia. }
    assert (0 < 2 ^ (k - 52)) by (apply Z.pow_pos_nonneg; lia).
    split.
    + apply round_half_even_lower; nia.
    + apply round_half_even_upper; nia.
  - assert (Hs : 2 ^ 52 = 2 ^ k * 2 ^ (- (k - 52))).
    { rewrite <- Z.pow_add_r by lia. f_equal. lia. }
    assert (0 < 2 ^ (- (k - 52))) by (apply Z.pow_pos_nonneg; lia).
    assert (0 < 2 ^ k) by (apply Z.pow_pos_nonneg; lia).
    split.
    + apply round_half_even_lower; nia.
    + apply round_half_even_upper; nia.
Qed.

(** A quotient of at least one and below the limit is a normal double:
    the rounded 53-bit quotient, renormalised when rounding carried. *)
Lemma nearest_double_normal (a b : Z) :
  0 < b -> b <= a -> a < b * double_limit ->
  let k := quotient_log2 a b in
  let s := scaled_quotient a b (k - 52) in
  exists m e,
    nearest_double a b = S754_finite false m e /\
    ((Zpos m = s /\ e = k - 52) \/
     (s = 2 ^ 53 /\ Zpos m = 2 ^ 52 /\ e = k - 51)).
Proof.
  intros Hb Hab Hlim.
  pose proof (scaled_quotient_bounds a b Hb Hab) as Hs.
  destruct (quotient_log2_bounds a b Hb Hab) as (Hk & Hlo & Hhi).
  cbn zeta in *. unfold nearest_double.
  set (k := quotient_log2 a b) in *.
  rewrite Z.max_l by lia.
  set (s := scaled_quotient a b (k - 52)) in *.
  assert (Hk1024 : k < 1024).
  { destruct (Z.lt_ge_cases k 1024) as [|Hge]; [done|]. exfalso.
    assert (2 ^ 1024 <= 2 ^ k) by (apply Z.pow_le_mono_r; lia).
    unfold double_limit in Hlim.
    assert (0 < 2 ^ 970) by (apply Z.pow_pos_nonneg; lia). nia. }
  destruct (Z.eqb_spec s (2 ^ 53)) as [Heq|Hne].
  - assert (Hk1023 : k < 1023).
    { destruct (Z.lt_ge_cases k 1023) as [|Hge]; [done|]. exfalso.
      assert (Hk' : k = 1023) by lia.
      assert (Hlt : s < 2 ^ 53); [|lia].
      unfold s, scaled_quotient. rewrite Hk'.
      change (0 <=? 1023 - 52) with true. cbv iota.
      apply round_half_even_below.
      - apply Z.mul_pos_pos; [lia|]. apply Z.pow_pos_nonneg; lia.
      - unfold double_limit in Hlim.
        assert (E1 : 2 ^ 1024 = 2 ^ 54 * 2 ^ 970) by (vm_compute; reflexivity).
        assert (E2 : 2 ^ (1023 - 52) = 2 * 2 ^ 970)
          by (vm_compute; reflexivity).
        rewrite E1 in Hlim. rewrite E2.
        assert (0 < 2 ^ 970) by (apply Z.pow_pos_nonneg; lia).
        set (P := 2 ^ 970) in *. lia. }
    destruct (Z.ltb_spec 971 (k - 52 + 1)) as [|_]; [lia|].
    change (2 ^ 52) with (Zpos (2 ^ 52)%positive).
    eexists _, _. split; [reflexivity|]. right.
    repeat split; [done|lia].
  - destruct (Z.ltb_spec 971 (k - 52)) as [|_]; [lia|].
    destruct s as [|p|p] eqn:Hsp; [lia| |lia].
    eexists _, _. split; [reflexivity|]. left. done.
Qed.

(** ** Decimal text and [replace] *)

Lemma digits_only_uint (d : Decimal.uint) :
  digits_only (NilEmpty.string_of_uint d) = true.
Proof. induction d; simpl; auto. Qed.

Lemma digits_only_str_of_Z (n : Z) : 0 <= n -> digits_only (str_of_Z n) = true.
Proof.
  intros Hn. unfold str_of_Z, NilZero.string_of_int.
  destruct n as [|p|p]; [reflexivity| |lia].
  simpl. unfold NilZero.string_of_uint.
  destruct (Pos.to_uint p); try apply digits_only_uint. reflexivity.
Qed.

Lemma digit_not_dot (c : ascii) : is_digit c = true -> c <> "."%char.
Proof. intros H ->. discriminate H. Qed.

Lemma prefix_dot_digit (c : ascii) (p s : string) :
  is_digit c = true -> String.prefix (String "." p) (String c s) = false.
Proof.
  intros Hc.
  change (String.prefix (String "." p) (String c s))
    with (if ascii_dec "." c then String.prefix p s else false).
  destruct (ascii_dec "." c) as [<-|_]; [discriminate Hc|reflexivity].
Qed.

(** [replace] leaves a run of digits alone when it looks for [".0"]. *)
Lemma replace_from_digits (new s rest : string) :
  digits_only s = true ->
  replace_from ".0" new 0 (s +:+ rest)
  = s +:+ replace_from ".0" new 0 rest.
Proof.
  induction s as [|c s IH]; intros Hd; [reflexivity|].
  simpl in Hd. apply andb_prop in Hd as [Hc Hs].
  change (String c s +:+ rest) with (String c (s +:+ rest)).
  change (replace_from ".0" new 0 (String c (s +:+ rest)))
    with (if String.prefix ".0" (String c (s +:+ rest))
          then new +:+ replace_from ".0" new (String.length ".0" - 1)
                         (s +:+ rest)
          else String c (replace_from ".0" new 0 (s +:+ rest))).
  rewrite prefix_dot_digit by done. rewrite (IH Hs). reflexivity.
Qed.

Lemma append_assoc (s1 s2 s3 : string) :
  (s1 +:+ s2) +:+ s3 = s1 +:+ s2 +:+ s3.
Proof.
  induction s1 as [|c s1 IH]; [reflexivity|].
  change (String c ((s1 +:+ s2) +:+ s3) = String c (s1 +:+ s2 +:+ s3)).
  by rewrite IH.
Qed.

Lemma one_decimal_stripped (t : Z) (suffix : string) :
  0 <= t -> suffix = "K" \/ suffix = "M" ->
  str_replace ".0" EmptyString (one_decimal t +:+ suffix)
  = abbreviated t suffix.
Proof.
  intros Ht Hsuffix. unfold str_replace, one_decimal, abbreviated.
  rewrite !append_assoc.
  rewrite replace_from_digits
    by (apply digits_only_str_of_Z, Z.div_pos; lia).
  f_equal.
  pose proof (Z.mod_pos_bound t 10 ltac:(lia)) as Hr.
  assert (Hcases : t mod 10 = 0 \/ t mod 10 = 1 \/ t mod 10 = 2
                   \/ t mod 10 = 3 \/ t mod 10 = 4 \/ t mod 10 = 5
                   \/ t mod 10 = 6 \/ t mod 10 = 7 \/ t mod 10 = 8
                   \/ t mod 10 = 9) by lia.
  destruct Hsuffix as [-> | ->];
    repeat (destruct Hcases as [-> | Hcases]; [reflexivity|]);
    rewrite Hcases; reflexivity.
Qed.

(** ** The count formatter on integers *)

Lemma tenths_nonneg (m : positive) (e : Z) : 0 <= tenths m e.
Proof.
  unfold tenths. destruct (Z.leb_spec 0 e).
  - assert (0 <= 2 ^ e) by (apply Z.pow_nonneg; lia). lia.
  - apply round_half_even_lower; [apply Z.pow_pos_nonneg|]; lia.
Qed.

Lemma int_quotient_normal (a b : Z) :
  0 < b -> b <= a -> a < b * double_limit ->
  exists m e,
    int_quotient a b = S754_finite false m e /\
    py_truediv a b = Ret (S754_finite false m e) /\
    quotient_tenths a b = tenths m e.
Proof.
  intros Hb Hab Hlim.
  destruct (nearest_double_normal a b Hb Hab Hlim) as (m & e & Hnd & _).
  exists m, e.
  assert (Hq : int_quotient a b = S754_finite false m e).
  { unfold int_quotient. rewrite !Z.abs_eq by lia. rewrite Hnd.
    destruct (Z.ltb_spec a 0), (Z.ltb_spec b 0); try lia. reflexivity. }
  split; [done|]. split.
  - unfold py_truediv. rewrite Hq.
    destruct (Z.eqb_spec b 0); [lia|]. destruct (Z.eqb_spec a 0); [lia|done].
  - unfold quotient_tenths. by rewrite Hq.
Qed.


Lemma round_half_even_double (n d : Z) :
  0 < d -> round_half_even (2 * n) (2 * d) = round_half_even n d.
Proof.
  intros Hd. unfold round_half_even.
  rewrite Z.div_mul_cancel_l by lia.
  rewrite Z.mul_mod_distr_l by lia.
  replace (2 * (2 * (n mod d)) ?= 2 * d) with (2 * (n mod d) ?= d);
    [reflexivity|].
  destruct (Z.compare_spec (2 * (n mod d)) d),
           (Z.compare_spec (2 * (2 * (n mod d))) (2 * d)); lia || reflexivity.
Qed.

(** Below [2^34] the double quotient is so close to [count / unit] that
    its tenths are a nearest integer to [10 * count / unit]. *)
Lemma quotient_tenths_nearest (a b : Z) :
  b = 1000 \/ b = 1000000 -> b <= a -> a < b * 2 ^ 34 ->
  2 * Z.abs (quotient_tenths a b * b - 10 * a) <= b.
Proof.
  intros Hb Hab Hlt.
  assert (Hbpos : 0 < b) by lia.
  assert (Hlim : a < b * double_limit).
  { assert (2 ^ 34 <= double_limit) by (vm_compute; discriminate). nia. }
  destruct (nearest_double_normal a b Hbpos Hab Hlim) as (m & e & Hnd & Hme).
  destruct (int_quotient_normal a b Hbpos Hab Hlim) as (m' & e' & Hq & _ & Ht).
  assert (Hq' : int_quotient a b = S754_finite false m e).
  { unfold int_quotient. rewrite !Z.abs_eq by lia. rewrite Hnd.
    destruct (Z.ltb_spec a 0), (Z.ltb_spec b 0); try lia. reflexivity. }
  rewrite Hq' in Hq. injection Hq as <- <-. rewrite Ht. clear Ht Hq' Hnd.
  destruct (quotient_log2_bounds a b Hbpos Hab) as (Hk & Hlo & _).
  pose proof (scaled_quotient_bounds a b Hbpos Hab) as Hs. cbn zeta in *.
  set (k := quotient_log2 a b) in *.
  assert (Hk34 : k < 34).
  { destruct (Z.lt_ge_cases k 34) as [|Hge]; [done|]. exfalso.
    assert (2 ^ 34 <= 2 ^ k) by (apply Z.pow_le_mono_r; lia). nia. }
  set (E := 2 ^ (52 - k)).
  assert (HE : 2 ^ 19 <= E) by (apply Z.pow_le_mono_r; lia).
  assert (Hsq : scaled_quotient a b (k - 52) = round_half_even (a * E) b).
  { unfold scaled_quotient. destruct (Z.leb_spec 0 (k - 52)); [lia|].
    unfold E. do 3 f_equal. lia. }
  rewrite Hsq in *. set (s := round_half_even (a * E) b) in *.
  pose proof (round_half_even_error (a * E) b Hbpos) as Herr. fold s in Herr.
  assert (Htenths : tenths m e = round_half_even (10 * s) E).
  { unfold tenths. destruct Hme as [[Hm ->] | (Hs53 & Hm & ->)].
    - destruct (Z.leb_spec 0 (k - 52)); [lia|]. rewrite Hm.
      unfold E. do 2 f_equal. lia.
    - destruct (Z.leb_spec 0 (k - 51)); [lia|]. rewrite Hm, Hs53.
      replace E with (2 * 2 ^ (- (k - 51))).
      + change (10 * 2 ^ 53) with (2 * (10 * 2 ^ 52)).
        rewrite round_half_even_double; [done|].
        apply Z.pow_pos_nonneg; lia.
      + unfold E. replace (52 - k) with (- (k - 51) + 1) by lia.
        rewrite Z.pow_add_r by lia. change (2 ^ 1) with 2. lia. }
  rewrite Htenths. set (t := round_half_even (10 * s) E).
  pose proof (round_half_even_error (10 * s) E ltac:(lia)) as Herr'.
  fold t in Herr'.
  change (2 ^ 19) with 524288 in HE.
  (* the error is a multiple of ten, and below [b / 2 + 10] *)
  assert (Hdiv : exists x, t * b - 10 * a = 10 * x).
  { destruct Hb as [-> | ->].
    - exists (t * 100 - a). lia.
    - exists (t * 100000 - a). lia. }
  destruct Hdiv as (x & Hx). rewrite Hx.
  assert (HxE : 10 * x * E = b * (t * E - 10 * s) + 10 * (s * b - a * E))
    by (rewrite <- Hx; ring).
  assert (Hbound : 2 * Z.abs (10 * x) * E <= b * E + 10 * b).
  { rewrite <- Z.mul_assoc, <- (Z.abs_eq E) at 1 by lia.
    rewrite <- Z.abs_mul, HxE. 
    pose proof (Z.abs_triangle (b * (t * E - 10 * s)) (10 * (s * b - a * E))).
    rewrite !Z.abs_mul in *. rewrite (Z.abs_eq b), (Z.abs_eq 10) in * by lia.
    nia. }
  destruct Hb as [-> | ->]; nia.
Qed.

(** ** The number of digits of an integer *)

Lemma uint_length (d : Decimal.uint) :
  String.length (NilEmpty.string_of_uint d) = Decimal.nb_digits d.
Proof. induction d; cbn; congruence. Qed.

Lemma uint_digit_count (d : Decimal.uint) :
  length (List.filter is_digit
            (list_ascii_of_string (NilEmpty.string_of_uint d)))
  = Decimal.nb_digits d.
Proof.
  induction d; cbn [NilEmpty.string_of_uint list_ascii_of_string
                    Decimal.nb_digits]; [reflexivity|..];
    match goal with
    | |- context [List.filter _ (?c :: _)] =>
        change (is_digit c) with true || cbn [List.filter];
        replace (is_digit c) with true by (vm_compute; reflexivity)
    end; cbn [length]; congruence.
Qed.

Lemma of_uint_acc_lower (d : Decimal.uint) (acc : positive) :
  Zpos acc * 10 ^ Z.of_nat (Decimal.nb_digits d)
  <= Zpos (Pos.of_uint_acc d acc).
Proof.
  revert acc. induction d; intros acc;
    cbn [Decimal.nb_digits Pos.of_uint_acc]; [cbn; lia|..];
    (etransitivity; [|apply IHd]);
    rewrite Nat2Z.inj_succ, Z.pow_succ_r by lia;
    assert (0 < 10 ^ Z.of_nat (Decimal.nb_digits d))
      by (apply Z.pow_pos_nonneg; lia);
    nia.
Qed.

(** The decimal text of a positive integer below [10^k] has at most [k]
    digits. *)
Lemma to_uint_digits (p : positive) (k : nat) :
  Zpos p < 10 ^ Z.of_nat k ->
  (Decimal.nb_digits (Pos.to_uint p) <= k)%nat.
Proof.
  intros Hp.
  pose proof (Unsigned.of_to p) as Hof.
  pose proof (Unsigned.to_of (Pos.to_uint p)) as Hnorm.
  rewrite Hof in Hnorm. cbn [N.to_uint] in Hnorm.
  pose proof (Unsigned.to_uint_nonzero p) as Hnz.
  destruct (Pos.to_uint p) as [|d|d|d|d|d|d|d|d|d|d] eqn:Hd;
    [discriminate Hof| |..].
  { (* a leading zero is not kept *)
    exfalso. unfold Decimal.unorm in Hnorm. cbn [Decimal.nzhead] in Hnorm.
    pose proof (nb_digits_nzhead d) as Hle.
    destruct (Decimal.nzhead d) eqn:Hh; try discriminate Hnorm.
    - injection Hnorm as ->. by apply Hnz.
    - injection Hnorm as ->. cbn [Decimal.nb_digits] in Hle. lia. }
  all: cbn [Pos.of_uint] in Hof; injection Hof as Hof;
    cbn [Decimal.nb_digits];
    match type of Hof with
    | Pos.of_uint_acc _ ?a = _ =>
        pose proof (of_uint_acc_lower d a) as Hlow
    end;
    rewrite Hof in Hlow;
    assert (Hlt : 10 ^ Z.of_nat (Decimal.nb_digits d) < 10 ^ Z.of_nat k)
      by (assert (0 < 10 ^ Z.of_nat (Decimal.nb_digits d))
            by (apply Z.pow_pos_nonneg; lia); nia);
    apply Z.pow_lt_mono_r_iff in Hlt; lia.
Qed.

Lemma int_has_text_bound (n : Z) :
  Z.abs n < 10 ^ 4300 -> int_has_text n = true.
Proof.
  intros Hn. unfold int_has_text. apply Nat.leb_le.
  unfold str_of_Z, NilZero.string_of_int.
  destruct (Z.abs n) as [|p|p] eqn:Habs; [cbn; unfold int_max_str_digits; lia| |lia].
  cbn [Z.to_int]. unfold NilZero.string_of_uint.
  pose proof (to_uint_digits p 4300 Hn) as Hk.
  destruct (Pos.to_uint p) eqn:Hd; rewrite ?uint_length;
    [cbn; unfold int_max_str_digits; lia|..]; exact Hk.
Qed.

(** C2 (as amended): on an integer of at most 4300 digits whose quotient
    by one million stays in the range of a float, [_format_count] returns
    the decimal text below 1000, and otherwise the tenths of the float
    quotient by 1000 or by 1000000 written with one decimal digit, a zero
    digit and its point left out, and the suffix K or M.  Up to [2^34]
    units those tenths are a nearest integer to ten times the exact
    quotient. *)
Theorem format_count_integer (count : Z) :
  - 10 ^ 4300 < count -> count < 1000000 * double_limit ->
  _format_count (VInt count)
  = Ret (VStr (if 1000000 <=? count
               then abbreviated (quotient_tenths count 1000000) "M"
               else if 1000 <=? count
                    then abbreviated (quotient_tenths count 1000) "K"
                    else str_of_Z count))
  /\ (1000 <= count < 1000000 ->
      2 * Z.abs (quotient_tenths count 1000 * 1000 - 10 * count) <= 1000)
  /\ (1000000 <= count < 1000000 * 2 ^ 34 ->
      2 * Z.abs (quotient_tenths count 1000000 * 1000000 - 10 * count)
      <= 1000000).
Proof.
  intros Hlow Hlim. split; [|split].
  - unfold _format_count. cbn [py_int].
    assert (Hdl : 1000 <= double_limit) by (vm_compute; discriminate).
    destruct (Z.leb_spec 1000000 count) as [HM|HM].
    + destruct (int_quotient_normal count 1000000) as (m & e & _ & -> & ->);
        [lia..|].
      cbn. f_equal. f_equal.
      apply one_decimal_stripped; [apply tenths_nonneg|by right].
    + destruct (Z.leb_spec 1000 count) as [HK|HK].
      * destruct (int_quotient_normal count 1000) as (m & e & _ & -> & ->);
          [lia..|].
        cbn. f_equal. f_equal.
        apply one_decimal_stripped; [apply tenths_nonneg|by left].
      * unfold str_checked. cbn [has_text].
        rewrite int_has_text_bound; [reflexivity|].
        assert (10 ^ 3 <= 10 ^ 4300) by (apply Z.pow_le_mono_r; lia).
        change (10 ^ 3) with 1000 in *. lia.
  - intros [HK1 HK2].
    apply quotient_tenths_nearest; [by left|lia|].
    change (2 ^ 34) with 17179869184. lia.
  - intros [HM1 HM2]. apply quotient_tenths_nearest; [by right|lia|lia].
Qed.

Lemma format_count_integer_witness :
  _format_count (VInt 16500) = Ret (VStr "16.5K")
  /\ _format_count (VInt 1500000) = Ret (VStr "1.5M")
  /\ _format_count (VInt (-7)) = Ret (VStr "-7").
Proof.
  split; [|split].
  - rewrite (proj1 (format_count_integer 16500 ltac:(vm_compute; reflexivity)
                      ltac:(vm_compute; reflexivity))).
    vm_compute. reflexivity.
  - rewrite (proj1 (format_count_integer 1500000
                      ltac:(vm_compute; reflexivity)
                      ltac:(vm_compute; reflexivity))).
    vm_compute. reflexivity.
  - rewrite (proj1 (format_count_integer (-7) ltac:(vm_compute; reflexivity)
                      ltac:(vm_compute; reflexivity))).
    vm_compute. reflexivity.
Defined.

(** The examples of the claim. *)
Example format_count_examples :
  map (fun n => _format_count (VInt n)) [16000000; 1500000; 16000; 16500; 999]
  = map (fun s => Ret (VStr s)) ["16M"; "1.5M"; "16K"; "16.5K"; "999"].
Proof. vm_compute. reflexivity. Qed.

(** Counterexample to C2 as stated: the formatter does not return a
    text for every integer.  On an integer of 316 digits the division by
    one million leaves the range of a float and it raises
    [OverflowError]; on a negative integer of 4301 digits [str] raises
    [ValueError], in the [try] and again in its handler. *)
Lemma format_count_not_total :
  _format_count (VInt (10 ^ 315))
  = Raise (Exn "OverflowError"
               "integer division result too large for a float")
  /\ _format_count (VInt (- 10 ^ 4300)) = Raise str_digits_error
  /\ ~ (exists text, _format_count (VInt (10 ^ 315)) = Ret (VStr text))
  /\ ~ (exists text, _format_count (VInt (- 10 ^ 4300)) = Ret (VStr text)).
Proof.
  assert (H : _format_count (VInt (10 ^ 315))
              = Raise (Exn "OverflowError"
                           "integer division result too large for a float"))
    by (vm_compute; reflexivity).
  assert (H' : _format_count (VInt (- 10 ^ 4300)) = Raise str_digits_error)
    by (vm_compute; reflexivity).
  split; [exact H|]. split; [exact H'|].
  split; intros [text Htext]; [rewrite H in Htext|rewrite H' in Htext];
    discriminate.
Qed.

(** ** Substring test *)

Lemma prefix_spec (p s : string) :
  String.prefix p s = true <-> exists post, s = p +:+ post.
Proof.
  revert s. induction p as [|c p IH]; intros s.
  - split; [intros _; by exists s|by destruct s].
  - destruct s as [|c' s].
    + split; [done|]. intros [post Hpost]. discriminate Hpost.
    + change (String.prefix (String c p) (String c' s))
        with (if ascii_dec c c' then String.prefix p s else false).
      destruct (ascii_dec c c') as [<-|Hne].
      * rewrite IH. split; intros [post Hpost]; exists post.
        -- change (String c s = String c (p +:+ post)). by rewrite Hpost.
        -- change (String c s = String c (p +:+ post)) in Hpost.
           by injection Hpost.
      * split; [done|]. intros [post Hpost].
        change (String c' s = String c (p +:+ post)) in Hpost.
        injection Hpost as -> _. done.
Qed.

(** [str_contains] is the substring relation. *)
Lemma str_contains_spec (needle hay : string) :
  str_contains needle hay = true
  <-> exists pre post, hay = pre +:+ needle +:+ post.
Proof.
  induction hay as [|c hay IH].
  - cbn [str_contains]. rewrite orb_false_r, prefix_spec. split.
    + intros [post Hpost]. by exists EmptyString, post.
    + intros (pre & post & H). destruct pre; [by exists post|discriminate H].
  - cbn [str_contains]. rewrite orb_true_iff, prefix_spec, IH. split.
    + intros [[post Hpost] | (pre & post & H)].
      * by exists EmptyString, post.
      * exists (String c pre), post.
        change (String c hay = String c (pre +:+ needle +:+ post)).
        by rewrite H.
    + intros (pre & post & H). destruct pre as [|c' pre].
      * left. by exists post.
      * right. exists pre, post.
        change (String c hay = String c' (pre +:+ needle +:+ post)) in H.
        by injection H.
Qed.

(** ** Content type *)

Lemma py_get_sub_dict (data : dict) (k : string) (d : dict) :
  sub_dict data k = Some d -> py_get (VDict data) k (VDict []) = Ret (VDict d).
Proof.
  unfold sub_dict, py_get. intros H.
  destruct (dict_lookup k data) as [[]|]; simplify_eq/=; done.
Qed.

(** C3: the content type is "video" for a URL with "/reel/"; for a URL
    with "/p/" it is "video" when a video marker is present in the meta or
    script data and "article" when none is; it is "profile" otherwise. *)
Theorem content_type_derivation (url : string) (data meta script : dict) :
  sub_dict data "meta_data" = Some meta ->
  sub_dict data "script_data" = Some script ->
  _determine_content_type_from_url url (VDict data)
  = Ret (if str_contains "/reel/" url then "video"
         else if str_contains "/p/" url
              then if has_video_marker meta script then "video" else "article"
              else "profile").
Proof.
  intros Hmeta Hscript. unfold _determine_content_type_from_url.
  destruct (str_contains "/reel/" url); [done|].
  destruct (str_contains "/p/" url); [|done].
  rewrite (py_get_sub_dict _ _ _ Hmeta), (py_get_sub_dict _ _ _ Hscript).
  unfold has_video_marker, field. cbn.
  unfold py_or. cbn [truthy].
  destruct (eq_str _ "video"); [done|]. cbn.
  destruct (truthy (default VNone (dict_lookup "is_video" script))) eqn:Hv;
    cbn; [by rewrite Hv|].
  by destruct (truthy (default VNone (dict_lookup "video_url" script))).
Qed.

Lemma content_type_derivation_witness :
  _determine_content_type_from_url "https://www.instagram.com/p/DMsercXMVeZ/"
    (VDict [("meta_data", VDict [("content_type", VStr "photo")]);
            ("script_data", VDict [("video_url", VStr "https://v/1.mp4")])])
  = Ret "video".
Proof.
  exact (content_type_derivation
           "https://www.instagram.com/p/DMsercXMVeZ/"
           [("meta_data", VDict [("content_type", VStr "photo")]);
            ("script_data", VDict [("video_url", VStr "https://v/1.mp4")])]
           [("content_type", VStr "photo")]
           [("video_url", VStr "https://v/1.mp4")]
           eq_refl eq_refl).
Defined.

(** ** Dictionaries *)

Lemma dict_lookup_set (k k' : string) (v : pyval) (d : dict) :
  dict_lookup k (dict_set k' v d)
  = if String.eqb k k' then Some v else dict_lookup k d.
Proof.
  induction d as [|[k0 v0] d IH]; cbn [dict_set dict_lookup].
  - done.
  - destruct (String.eqb_spec k' k0) as [->|Hne]; cbn [dict_lookup].
    + by destruct (String.eqb k k0).
    + destruct (String.eqb_spec k k0) as [->|Hne'].
      * destruct (String.eqb_spec k0 k'); [congruence|done].
      * exact IH.
Qed.

Lemma dict_lookup_set_eq (k : string) (v : pyval) (d : dict) :
  dict_lookup k (dict_set k v d) = Some v.
Proof. by rewrite dict_lookup_set, String.eqb_refl. Qed.

Lemma dict_lookup_set_ne (k k' : string) (v : pyval) (d : dict) :
  k <> k' -> dict_lookup k (dict_set k' v d) = dict_lookup k d.
Proof.
  intros Hne. rewrite dict_lookup_set.
  by destruct (String.eqb_spec k k').
Qed.

Lemma is_business_field_spec (k : string) :
  is_business_field k = true <-> k ∈ business_fields.
Proof.
  unfold is_business_field. rewrite existsb_exists. split.
  - intros (f & Hf & Heq). apply String.eqb_eq in Heq as ->.
    by apply list_elem_of_In.
  - intros Hk. exists k. split; [by apply list_elem_of_In|].
    apply String.eqb_refl.
Qed.

(** A binding that survives the last step keeps its place in front of
    later bindings of the same key. *)
Lemma dict_lookup_drop_none_keep (k : string) (v : pyval) (e : dict) :
  dict_lookup k e = Some v ->
  is_none v = false \/ is_business_field k = true ->
  dict_lookup k (drop_none_fields e) = Some v.
Proof.
  intros Hl Hkeep. induction e as [|[k0 v0] e IH]; [done|].
  cbn [dict_lookup] in Hl. cbn [drop_none_fields List.filter fst snd].
  destruct (String.eqb_spec k k0) as [->|Hne].
  - injection Hl as ->.
    assert (negb (is_none v) || is_business_field k0 = true) as ->.
    { destruct Hkeep as [-> | ->]; [done|apply orb_true_r]. }
    cbn [dict_lookup]. by rewrite String.eqb_refl.
  - destruct (negb (is_none v0) || is_business_field k0); cbn [dict_lookup].
    + destruct (String.eqb_spec k k0); [done|]. by apply IH.
    + by apply IH.
Qed.

(** Whatever is left after the last step is not null, or is a business
    field. *)
Lemma dict_lookup_drop_none_inv (k : string) (v : pyval) (e : dict) :
  dict_lookup k (drop_none_fields e) = Some v ->
  is_none v = false \/ is_business_field k = true.
Proof.
  induction e as [|[k0 v0] e IH]; [done|].
  cbn [drop_none_fields List.filter fst snd].
  destruct (negb (is_none v0) || is_business_field k0) eqn:Hkeep;
    [|exact IH].
  cbn [dict_lookup]. destruct (String.eqb_spec k k0) as [->|Hne]; [|exact IH].
  intros [= <-]. apply orb_true_iff in Hkeep as [Hn|Hb]; [left|by right].
  by destruct (is_none v0).
Qed.

Lemma dict_lookup_drop_none_None (k : string) (e : dict) :
  dict_lookup k e = None -> dict_lookup k (drop_none_fields e) = None.
Proof.
  induction e as [|[k0 v0] e IH]; [done|].
  cbn [dict_lookup drop_none_fields List.filter fst snd].
  destruct (String.eqb_spec k k0) as [->|Hne]; [done|]. intros Hl.
  destruct (negb (is_none v0) || is_business_field k0); cbn [dict_lookup].
  - destruct (String.eqb_spec k k0); [done|]. by apply IH.
  - by apply IH.
Qed.

(** The value a business field has after "always include business
    fields": null for a missing or empty one. *)
Lemma include_business_fields_lookup (k : string) (e : dict) :
  dict_lookup k (include_business_fields e)
  = if is_business_field k
    then Some (match dict_lookup k e with
               | Some v => if eq_str v EmptyString then VNone else v
               | None => VNone
               end)
    else dict_lookup k e.
Proof.
  set (step := fun (e : dict) (field : string) =>
                 match dict_lookup field e with
                 | Some v =>
                     if eq_str v EmptyString then dict_set field VNone e else e
                 | None => dict_set field VNone e
                 end).
  assert (Hstep : forall f d,
    dict_lookup k (step d f)
    = if String.eqb k f
      then Some (match dict_lookup k d with
                 | Some v => if eq_str v EmptyString then VNone else v
                 | None => VNone
                 end)
      else dict_lookup k d).
  { intros f d. unfold step. destruct (String.eqb_spec k f) as [->|Hne].
    - destruct (dict_lookup f d) as [v|] eqn:Hl.
      + destruct (eq_str v EmptyString); [apply dict_lookup_set_eq|done].
      + apply dict_lookup_set_eq.
    - destruct (dict_lookup f d) as [v|];
        [destruct (eq_str v EmptyString)|];
        by rewrite ?dict_lookup_set_ne. }
  change (include_business_fields e)
    with (step (step (step e "business_email") "business_phone_number")
               "business_category_name").
  rewrite !Hstep. unfold is_business_field, business_fields.
  cbn [existsb].
  destruct (String.eqb_spec k "business_email") as [->|];
    [reflexivity|].
  destruct (String.eqb_spec k "business_phone_number") as [->|];
    [reflexivity|].
  destruct (String.eqb_spec k "business_category_name") as [->|];
    reflexivity.
Qed.

Lemma email_from_biography_other (k : string) (e e' : dict) :
  email_from_biography e = Ret e' -> k <> "business_email" ->
  dict_lookup k e' = dict_lookup k e.
Proof.
  unfold email_from_biography. intros H Hk.
  destruct (_ && _); [|by injection H as <-].
  destruct (default VNone (dict_lookup "biography" e)); try done.
  destruct (re_search email_pattern s); injection H as <-; [|done].
  by apply dict_lookup_set_ne.
Qed.

(** ** Profile entries *)

Lemma bind_ret_inv {A B} (r : res A) (k : A -> res B) (b : B) :
  r ≫= k = Ret b -> exists a, r = Ret a /\ k a = Ret b.
Proof. destruct r as [a|e]; [by exists a|done]. Qed.

(** On a dictionary, [profile_fields] returns thirteen bindings, the
    flags with their defaults. *)
Lemma profile_fields_dict (user_data fields : dict) :
  profile_fields (VDict user_data) = Ret fields ->
  exists followers_count following_count,
    _format_count (field user_data "followers_count") = Ret followers_count /\
    _format_count (field user_data "following_count") = Ret following_count /\
    fields =
      [("full_name", field user_data "full_name");
       ("username", field user_data "username");
       ("followers_count", followers_count);
       ("following_count", following_count);
       ("biography",
         default (VStr EmptyString) (dict_lookup "biography" user_data));
       ("bio_links", default (VList []) (dict_lookup "bio_links" user_data));
       ("is_private",
         default (VBool false) (dict_lookup "is_private" user_data));
       ("is_verified",
         default (VBool false) (dict_lookup "is_verified" user_data));
       ("is_business_account",
         default (VBool false) (dict_lookup "is_business_account" user_data));
       ("is_professional_account",
         default (VBool true)
                 (dict_lookup "is_professional_account" user_data));
       ("business_email", field user_data "business_email");
       ("business_phone_number", field user_data "business_phone_number");
       ("business_category_name", field user_data "business_category_name")].
Proof.
  unfold profile_fields, py_get. cbn [mbind res_bind]. intros H.
  apply bind_ret_inv in H as (fc1 & Hfc1 & H).
  apply bind_ret_inv in H as (fc2 & Hfc2 & H).
  injection H as <-. by exists fc1, fc2.
Qed.

(** The entry of a profile URL and a chained profile entry start from the
    same fifteen bindings. *)
Lemma profile_entry_update (url content_type : pyval) (fields : dict)
    (user_data : dict) :
  profile_fields (VDict user_data) = Ret fields ->
  dict_update [("url", url); ("content_type", content_type)] fields
  = [("url", url); ("content_type", content_type)] ++ fields.
Proof.
  intros H. apply profile_fields_dict in H as (fc1 & fc2 & _ & _ & ->).
  reflexivity.
Qed.

Lemma finish_entry_lookup_kept (k : string) (v : pyval) (raw entry : dict) :
  finish_entry raw = Ret entry ->
  is_business_field k = false ->
  dict_lookup k raw = Some v -> is_none v = false ->
  dict_lookup k entry = Some v.
Proof.
  unfold finish_entry. intros H Hk Hl Hv.
  apply bind_ret_inv in H as (e1 & He1 & [= <-]).
  apply dict_lookup_drop_none_keep; [|by left].
  rewrite (email_from_biography_other k _ _ He1).
  - by rewrite include_business_fields_lookup, Hk.
  - intros ->. done.
Qed.

(** ** One iteration of the loop *)

Lemma post_fields_dict (extracted_data username : pyval) (fields : dict) :
  post_fields extracted_data = Ret (username, fields) ->
  exists likes_count comments_count post_date caption,
    fields = [("likes_count", likes_count);
              ("comments_count", comments_count);
              ("username", username);
              ("post_date", post_date);
              ("caption", caption)].
Proof.
  unfold post_fields. intros H.
  repeat (apply bind_ret_inv in H as (? & _ & H)).
  injection H as <- <-. eauto.
Qed.

Section StepFacts.

Context {St : Type}.
Variable extract_graphql_data : St -> string -> St * res pyval.

Implicit Types st : @loop_state St.

Lemma append_error_log i url error st :
  append_error i url error st
  = log_event (Failed i (error_record i url error)) st.
Proof. unfold append_error, log_event. cbn. by rewrite app_nil_r. Qed.

Lemma append_entry_log i entry st :
  append_entry i entry st = log_event (Emitted i entry) st.
Proof. unfold append_entry, log_event. cbn. by rewrite app_nil_r. Qed.

Lemma on_exception_closing i url e st :
  exists last, closing i url last /\ on_exception i url e st = log_event last st.
Proof.
  eexists. split; [|apply append_error_log]. left. eauto.
Qed.

Lemma append_error_closing i url error st :
  exists last,
    closing i url last /\ append_error i url error st = log_event last st.
Proof.
  eexists. split; [|apply append_error_log]. left. eauto.
Qed.

Lemma emit_closing i url content_type clean_entry st :
  dict_lookup "url" clean_entry = Some (VStr url) ->
  dict_lookup "content_type" clean_entry = Some (VStr content_type) ->
  exists last,
    closing i url last /\ emit i url clean_entry st = log_event last st.
Proof.
  intros Hurl Htype. unfold emit.
  destruct (finish_entry clean_entry) as [entry|e] eqn:Hfinish.
  - eexists. split; [|apply append_entry_log]. right.
    exists content_type, entry. split; [done|]. by exists clean_entry.
  - apply on_exception_closing.
Qed.

Lemma chain_outcome_built profile_url r entry :
  chain_outcome profile_url r = Some entry ->
  built profile_url "profile" entry.
Proof.
  unfold chain_outcome.
  destruct (chained_profile_entry profile_url r) as [[e|]|] eqn:Hbuilt;
    try done.
  intros [= ->]. unfold chained_profile_entry in Hbuilt.
  apply bind_ret_inv in Hbuilt as (pd & _ & Hbuilt).
  apply bind_ret_inv in Hbuilt as (error & _ & Hbuilt).
  destruct (truthy error); [done|].
  apply bind_ret_inv in Hbuilt as (user_data & _ & Hbuilt).
  apply bind_ret_inv in Hbuilt as (fields & _ & Hbuilt).
  apply bind_ret_inv in Hbuilt as (profile_entry & Hfinish & [= ->]).
  eexists. split; [exact Hfinish|]. split; reflexivity.
Qed.

(** The chaining step calls the extractor once and logs its outcome. *)
Lemma chain_profile_log i username user st :
  let profile_url := profile_url_of username in
  let call := extract_graphql_data (extractor st) profile_url in
  chain_profile extract_graphql_data i username user st
  = log_event (Chained i user (chain_outcome profile_url (snd call)))
              (with_extractor (fst call) st).
Proof.
  cbn zeta. unfold chain_profile, chain_outcome.
  destruct (extract_graphql_data (extractor st) (profile_url_of username))
    as [x r]. cbn [fst snd].
  destruct (chained_profile_entry _ r) as [[entry|]|e];
    unfold log_event; cbn; by rewrite !app_nil_r.
Qed.

Lemma chain_profile_shape i username user st :
  exists x r,
    (forall entry, r = Some entry ->
                   exists profile_url, built profile_url "profile" entry) /\
    chain_profile extract_graphql_data i username user st
    = log_event (Chained i user r) (with_extractor x st).
Proof.
  eexists _, _. split; [|apply chain_profile_log].
  intros entry Hentry. eexists. by eapply chain_outcome_built.
Qed.

Lemma process_url_shape i url st :
  step_shape i url st (process_url extract_graphql_data i url st).
Proof.
  unfold process_url.
  destruct (extract_graphql_data (extractor st) url) as [x r].
  set (st0 := with_extractor x st).
  assert (Hplain : forall st',
    (exists last, closing i url last /\ st' = log_event last st0) ->
    step_shape i url st st').
  { intros st' (last & Hlast & ->). by eapply step_plain. }
  destruct (r ≫= _) as [[extracted_data error]|e];
    [|apply Hplain, on_exception_closing].
  destruct (truthy error); [apply Hplain, append_error_closing|].
  destruct (_determine_content_type_from_url url extracted_data)
    as [content_type|e]; [|apply Hplain, on_exception_closing].
  destruct (String.eqb content_type "profile").
  { destruct (_ ≫= _) as [fields|e] eqn:Hfields;
      [|apply Hplain, on_exception_closing].
    apply bind_ret_inv in Hfields as (user_data & _ & Hfields).
    destruct user_data; try done.
    rewrite (profile_entry_update _ _ _ _ Hfields).
    by apply Hplain, (emit_closing _ _ content_type). }
  destruct (_ || _); [|by apply Hplain, (emit_closing _ _ content_type)].
  destruct (post_fields extracted_data) as [[username fields]|e] eqn:Hpost;
    [|apply Hplain, on_exception_closing].
  apply post_fields_dict in Hpost as (lc & cc & pd & cap & ->).
  assert (Hemit : forall st1, exists last,
    closing i url last /\
    emit i url
      (dict_update [("url", VStr url); ("content_type", VStr content_type)]
         [("likes_count", lc); ("comments_count", cc);
          ("username", username); ("post_date", pd); ("caption", cap)]) st1
    = log_event last st1).
  { intros st1. by apply (emit_closing _ _ content_type). }
  destruct (truthy username); [|apply Hplain, Hemit].
  destruct (hash_key username) as [user|e];
    [|apply Hplain, on_exception_closing].
  destruct (decide (user ∈ processed_usernames st0)) as [Hin|Hnotin];
    [apply Hplain, Hemit|].
  destruct (chain_profile_shape i username user (add_username user st0))
    as (x' & r' & Hr' & ->).
  destruct (Hemit (log_event (Chained i user r')
                     (with_extractor x' (add_username user st0))))
    as (last & Hlast & ->).
  eapply (step_chained _ _ _ _ x' user r' last); [done..|].
  by destruct st.
Qed.

End StepFacts.

(** ** The whole loop *)

Section LoopFacts.

Context {St : Type}.
Variable extract_graphql_data : St -> string -> St * res pyval.

Implicit Types st : @loop_state St.

Lemma closing_index i url ev : closing i url ev -> url_index ev = Some i.
Proof. by intros [(error & ->) | (ct & entry & -> & _)]. Qed.

Lemma closing_not_chained i url ev :
  closing i url ev -> chained_user ev = None.
Proof. by intros [(error & ->) | (ct & entry & -> & _)]. Qed.

Lemma run_ok_initial first (x : St) : run_ok first [] (initial_state x).
Proof.
  split; cbn; try reflexivity.
  - intros ev i Hev. by apply elem_of_nil in Hev.
  - intros ev user Hev. by apply elem_of_nil in Hev.
  - apply NoDup_nil_2.
  - intros i user entry Hev. by apply elem_of_nil in Hev.
Qed.

(** A closing event extends the invariant by one URL. *)
Lemma run_ok_close first urls url last st :
  closing (first + length urls) url last ->
  run_ok first urls st ->
  run_ok first (urls ++ [url]) (log_event last st).
Proof.
  intros Hlast [Hd He Hi Hc Hs Ho Hb].
  pose proof (closing_index _ _ _ Hlast) as Hidx.
  pose proof (closing_not_chained _ _ _ Hlast) as Hnc.
  split; cbn.
  - rewrite flat_map_app. cbn. rewrite ?app_nil_r. congruence.
  - rewrite flat_map_app. cbn. rewrite ?app_nil_r. congruence.
  - rewrite omap_app, Hi, length_app, seq_app. cbn. by rewrite Hidx.
  - intros ev i Hev Hi'. apply elem_of_app in Hev as [Hev|Hev].
    + destruct (Hc ev i Hev Hi') as (url' & Hurl' & Hcl).
      exists url'. split; [|done]. by apply lookup_app_l_Some.
    + apply list_elem_of_singleton in Hev as ->.
      rewrite Hidx in Hi'. injection Hi' as <-.
      exists url. split; [|done].
      replace (first + length urls - first)%nat with (length urls) by lia.
      by rewrite lookup_app_r, Nat.sub_diag.
  - intros ev user Hev Hu. apply elem_of_app in Hev as [Hev|Hev].
    + by apply (Hs ev).
    + apply list_elem_of_singleton in Hev as ->. congruence.
  - rewrite omap_app. cbn. by rewrite Hnc, app_nil_r.
  - intros i user entry Hev. apply elem_of_app in Hev as [Hev|Hev].
    + by apply (Hb i user).
    + apply list_elem_of_singleton in Hev as <-.
      destruct Hlast as [(error & [=]) | (ct & e & [=] & _)].
Qed.

Lemma run_ok_with_extractor first urls x st :
  run_ok first urls st -> run_ok first urls (with_extractor x st).
Proof. by intros []. Qed.

(** A chaining step for a new user keeps the invariant. *)
Lemma run_ok_chain first urls i user r st :
  user ∉ processed_usernames st ->
  (forall entry, r = Some entry ->
                 exists profile_url, built profile_url "profile" entry) ->
  run_ok first urls st ->
  run_ok first urls (log_event (Chained i user r) (add_username user st)).
Proof.
  intros Hnew Hr [Hd He Hi Hc Hs Ho Hb]. split; cbn.
  - rewrite flat_map_app. cbn. rewrite ?app_nil_r. congruence.
  - rewrite flat_map_app. cbn. rewrite ?app_nil_r. congruence.
  - rewrite omap_app. cbn. rewrite ?app_nil_r. congruence.
  - intros ev j Hev Hj. apply elem_of_app in Hev as [Hev|Hev].
    + by apply Hc.
    + by apply list_elem_of_singleton in Hev as ->.
  - intros ev u Hev Hu. apply elem_of_app in Hev as [Hev|Hev].
    + apply elem_of_union_r. by apply (Hs ev).
    + apply list_elem_of_singleton in Hev as ->. injection Hu as <-.
      by apply elem_of_union_l, elem_of_singleton.
  - rewrite omap_app. cbn. apply NoDup_app. split; [done|]. split.
    + intros u Hu Hu'. apply list_elem_of_singleton in Hu' as ->.
      apply list_elem_of_omap in Hu as (ev & Hev & Hcu).
      by apply Hnew, (Hs ev).
    + apply NoDup_singleton.
  - intros j u entry Hev. apply elem_of_app in Hev as [Hev|Hev].
    + by apply (Hb j u).
    + apply list_elem_of_singleton in Hev as [= _ _ <-]. by apply Hr.
Qed.

Lemma run_ok_step first urls url st :
  run_ok first urls st ->
  run_ok first (urls ++ [url])
         (process_url extract_graphql_data (first + length urls) url st).
Proof.
  intros Hok.
  destruct (process_url_shape extract_graphql_data
              (first + length urls) url st)
    as [x last Hlast -> | x user r last Hnew Hr Hlast ->].
  - by apply run_ok_close, run_ok_with_extractor.
  - apply run_ok_close; [done|].
    assert (Hswap : with_extractor x (add_username user st)
                    = add_username user (with_extractor x st)) by done.
    rewrite Hswap. apply run_ok_chain; [done..|].
    by apply run_ok_with_extractor.
Qed.

Lemma run_loop_ok first done urls st :
  run_ok first done st ->
  run_ok first (done ++ urls)
         (run_loop extract_graphql_data (first + length done) urls st).
Proof.
  revert done st. induction urls as [|url urls IH]; intros done st Hok.
  - by rewrite app_nil_r.
  - cbn [run_loop].
    replace (done ++ url :: urls) with ((done ++ [url]) ++ urls)
      by (by rewrite <- app_assoc).
    replace (S (first + length done))
      with (first + length (done ++ [url]))%nat
      by (rewrite length_app; cbn; lia).
    apply IH. by apply run_ok_step.
Qed.

(** The invariant holds at the end of the loop of a run. *)
Lemma run_loop_from_start urls (x : St) :
  run_ok 1 urls (run_loop extract_graphql_data 1 urls (initial_state x)).
Proof.
  exact (run_loop_ok 1 [] urls (initial_state x) (run_ok_initial 1 x)).
Qed.

End LoopFacts.

(** ** Business fields *)

(** What the three closing steps do to a built entry. *)
Lemma finish_entry_business (raw entry : dict) :
  finish_entry raw = Ret entry ->
  dict_lookup "business_phone_number" entry
    = Some (business_value raw "business_phone_number") /\
  dict_lookup "business_category_name" entry
    = Some (business_value raw "business_category_name") /\
  (dict_lookup "business_email" entry
     = Some (business_value raw "business_email")
   \/ truthy (business_value raw "business_email") = false /\
      exists biography email,
        dict_lookup "biography" raw = Some (VStr biography) /\
        re_search email_pattern biography = Some email /\
        dict_lookup "business_email" entry = Some (VStr email)) /\
  (forall k, dict_lookup k entry = Some VNone -> k ∈ business_fields).
Proof.
  unfold finish_entry. intros H.
  apply bind_ret_inv in H as (e1 & He1 & [= <-]).
  assert (Hother : forall f, f ∈ business_fields -> f <> "business_email" ->
            dict_lookup f (drop_none_fields e1) = Some (business_value raw f)).
  { intros f Hf Hne. apply is_business_field_spec in Hf.
    apply dict_lookup_drop_none_keep; [|by right].
    rewrite (email_from_biography_other f _ _ He1 Hne).
    by rewrite include_business_fields_lookup, Hf. }
  split; [apply Hother; [set_solver|done]|].
  split; [apply Hother; [set_solver|done]|].
  split.
  - assert (Hinc : dict_lookup "business_email" (include_business_fields raw)
                   = Some (business_value raw "business_email"))
      by (by rewrite include_business_fields_lookup).
    assert (Hbio : dict_lookup "biography" (include_business_fields raw)
                   = dict_lookup "biography" raw)
      by (by rewrite include_business_fields_lookup).
    revert He1. unfold email_from_biography. rewrite Hinc, Hbio. cbn.
    destruct (truthy (business_value raw "business_email")) eqn:Htruthy; cbn.
    { intros [= <-]. left.
      apply dict_lookup_drop_none_keep; [done|by right]. }
    destruct (dict_lookup "biography" raw) as [biography|] eqn:Hb; cbn;
      [|intros [= <-]; left;
        apply dict_lookup_drop_none_keep; [done|by right]].
    destruct (truthy biography) eqn:Htb;
      [|intros [= <-]; left;
        apply dict_lookup_drop_none_keep; [done|by right]].
    destruct biography as [| | |text| |]; try done.
    destruct (re_search email_pattern text) as [email|] eqn:Hsearch;
      intros [= <-].
    + right. split; [done|]. exists text, email. repeat split; [done|].
      apply dict_lookup_drop_none_keep; [|by right].
      apply dict_lookup_set_eq.
    + left. apply dict_lookup_drop_none_keep; [done|by right].
  - intros k Hk. apply dict_lookup_drop_none_inv in Hk as [Hk|Hk]; [done|].
    by apply is_business_field_spec.
Qed.

Section DataFacts.

Context {St : Type}.
Variable extract_graphql_data : St -> string -> St * res pyval.
Variable start : res St.
Variable get_stealth_report : St -> res pyval.
Variable save_json : string -> list dict -> bool.
Variables total_time time_of_failure : spec_float.
Variable enable_anti_detection : bool.
Variable output_file : option string.

Implicit Types st : @loop_state St.

Let run := scrape extract_graphql_data start get_stealth_report save_json
                  total_time time_of_failure enable_anti_detection
                  output_file.

(** Every entry of the data list was built and closed by the loop. *)
Lemma run_ok_entries_built first urls st entry :
  run_ok first urls st -> entry ∈ all_extracted_data st ->
  exists url content_type, built url content_type entry.
Proof.
  intros Hok Hentry. rewrite (ok_data _ _ _ Hok) in Hentry.
  apply list_elem_of_In, in_flat_map in Hentry as (ev & Hev & Hentry).
  apply list_elem_of_In in Hev.
  destruct ev as [i record|i e|i user [e|]]; try done;
    apply list_elem_of_In, list_elem_of_singleton in Hentry as ->.
  - destruct (ok_closing _ _ _ Hok _ i Hev eq_refl)
      as (url & _ & [(error & [=]) | (ct & e' & [= <-] & Hbuilt)]).
    by exists url, ct.
  - destruct (ok_chained_built _ _ _ Hok i user e Hev) as (url & Hbuilt).
    by exists url, "profile"%string.
Qed.

(** The data list that a run returns is empty or the list of the loop. *)
Lemma scrape_data urls entries :
  lookup_key "data" (run urls) = Some (OList entries) ->
  entries = [] \/
  exists x, start = Ret x /\
            entries = all_extracted_data
                        (run_loop extract_graphql_data 1 urls
                                  (initial_state x)).
Proof.
  unfold run, scrape. destruct urls as [|url urls]; [cbn; intros [=]; eauto|].
  destruct start as [x|e]; [|cbn; intros [=]; eauto].
  destruct (count_content_types _ ∅); cbn; intros [= <-]; eauto.
Qed.

(** C4: every entry of the output data, chained profiles included, has
    the keys [business_email], [business_phone_number] and
    [business_category_name]; it comes from a built entry through the
    closing steps, which give a missing or empty business field the
    value null (the e-mail, when null, may then be taken from the
    biography) and omit every other field that is null. *)
Theorem business_fields_always_present urls entries entry :
  lookup_key "data" (run urls) = Some (OList entries) ->
  entry ∈ entries ->
  (forall f, f ∈ business_fields -> is_Some (dict_lookup f entry)) /\
  (forall k, dict_lookup k entry = Some VNone -> k ∈ business_fields) /\
  exists raw,
    finish_entry raw = Ret entry /\
    dict_lookup "business_phone_number" entry
      = Some (business_value raw "business_phone_number") /\
    dict_lookup "business_category_name" entry
      = Some (business_value raw "business_category_name") /\
    (dict_lookup "business_email" entry
       = Some (business_value raw "business_email")
     \/ truthy (business_value raw "business_email") = false /\
        exists biography email,
          dict_lookup "biography" raw = Some (VStr biography) /\
          re_search email_pattern biography = Some email /\
          dict_lookup "business_email" entry = Some (VStr email)).
Proof.
  intros Hdata Hentry.
  apply scrape_data in Hdata as [-> | (x & _ & ->)];
    [by apply elem_of_nil in Hentry|].
  destruct (run_ok_entries_built 1 urls _ entry
              (run_loop_from_start extract_graphql_data urls x) Hentry)
    as (url & ct & raw & Hfinish & _).
  destruct (finish_entry_business raw entry Hfinish)
    as (Hphone & Hcat & Hemail & Hnone).
  split; [|split; [exact Hnone|by exists raw]].
  intros f Hf. unfold business_fields in Hf.
  apply elem_of_cons in Hf as [-> | Hf];
    [destruct Hemail as [-> | (_ & ? & ? & _ & _ & ->)]; eauto|].
  apply elem_of_cons in Hf as [-> | Hf]; [rewrite Hphone; eauto|].
  apply list_elem_of_singleton in Hf as ->. rewrite Hcat. eauto.
Qed.

End DataFacts.

(** ** Chained profiles *)

Lemma chain_attempts_unseen (user : hkey) (h : list event) :
  user ∉ omap chained_user h -> flat_map (chain_attempts user) h = [].
Proof.
  induction h as [|ev h IH]; [done|]. intros Hnot.
  destruct ev as [| |i user' r]; cbn in *; try by apply IH.
  apply not_elem_of_cons in Hnot as [Hne Hnot].
  destruct (decide (user' = user)); [done|]. by apply IH.
Qed.

Lemma chain_attempts_once (user : hkey) (h : list event) :
  NoDup (omap chained_user h) ->
  (length (flat_map (chain_attempts user) h) <= 1)%nat.
Proof.
  induction h as [|ev h IH]; [cbn; lia|]. intros Hnodup.
  destruct ev as [| |i user' r]; cbn in *; try by apply IH.
  apply NoDup_cons in Hnodup as [Hnot Hnodup].
  destruct (decide (user' = user)) as [->|Hne]; [|by apply IH].
  rewrite chain_attempts_unseen by done. cbn. lia.
Qed.

(** The chained entries for a user are the successful attempts. *)
Lemma chained_entries_attempts (user : hkey) (h : list event) :
  flat_map (chained_entries user) h
  = omap id (flat_map (chain_attempts user) h).
Proof.
  induction h as [|ev h IH]; [done|].
  destruct ev as [| |i user' [entry|]]; cbn; try done;
    destruct (decide (user' = user)); cbn; by rewrite ?IH.
Qed.

Lemma chained_entries_in_data (user : hkey) (h : list event) (entry : dict) :
  entry ∈ flat_map (chained_entries user) h ->
  entry ∈ flat_map event_entries h.
Proof.
  rewrite !list_elem_of_In, !in_flat_map.
  intros (ev & Hev & Hentry). exists ev. split; [done|].
  destruct ev as [| |i user' [e|]]; try done.
  cbn in *. by destruct (decide (user' = user)).
Qed.

(** The closing steps go through when the biography is text or is
    missing. *)
Lemma finish_entry_ok (raw : dict) :
  dict_lookup "biography" raw = None
  \/ (exists text, dict_lookup "biography" raw = Some (VStr text)) ->
  exists entry, finish_entry raw = Ret entry.
Proof.
  intros Hbio. unfold finish_entry, email_from_biography.
  assert (Hl : dict_lookup "biography" (include_business_fields raw)
               = dict_lookup "biography" raw)
    by (by rewrite include_business_fields_lookup).
  rewrite Hl. destruct (negb _); cbn [andb mbind res_bind]; [|eauto].
  destruct Hbio as [-> | (text & ->)]; cbn; [eauto|].
  destruct (negb (String.eqb text EmptyString)); [|cbn; eauto].
  destruct (re_search email_pattern text); cbn; eauto.
Qed.

Lemma sub_dict_default (data : dict) (k : string) (d : dict) :
  sub_dict data k = Some d ->
  default (VDict []) (dict_lookup k data) = VDict d.
Proof.
  unfold sub_dict. intros H.
  destruct (dict_lookup k data) as [[]|]; simplify_eq/=; done.
Qed.

(** A well-formed profile result gives a chained entry. *)
Lemma chain_outcome_succeeds (profile_url : string) (payload : dict) :
  profile_payload_ok payload ->
  is_Some (chain_outcome profile_url (Ret (VDict payload))).
Proof.
  intros (Herror & user_data & Hud & (v1 & Hv1) & (v2 & Hv2) & text & Hbio).
  unfold field in Herror, Hv1, Hv2.
  unfold chain_outcome, chained_profile_entry.
  cbn [mbind res_bind py_get]. rewrite Herror, (sub_dict_default _ _ _ Hud).
  unfold profile_fields. cbn [mbind res_bind py_get].
  rewrite Hv1. cbn [mbind res_bind]. rewrite Hv2. cbn [mbind res_bind].
  rewrite Hbio.
  edestruct finish_entry_ok as (entry & ->); [|by eexists].
  right. by exists text.
Qed.

Section ChainFacts.

Context {St : Type}.
Variable extract_graphql_data : St -> string -> St * res pyval.

Implicit Types st : @loop_state St.

Lemma closing_no_attempt user i url ev :
  closing i url ev -> chain_attempts user ev = [].
Proof. by intros [(error & ->) | (ct & entry & -> & _)]. Qed.

(** A user already in [processed_usernames] is not chained again. *)
Lemma process_url_seen user i url st :
  user ∈ processed_usernames st ->
  flat_map (chain_attempts user)
           (history (process_url extract_graphql_data i url st))
  = flat_map (chain_attempts user) (history st).
Proof.
  intros Hseen.
  destruct (process_url_shape extract_graphql_data i url st)
    as [x last Hlast -> | x user' r last Hnew Hr Hlast ->]; cbn.
  - rewrite flat_map_app. cbn.
    by rewrite (closing_no_attempt _ _ _ _ Hlast), !app_nil_r.
  - rewrite !flat_map_app. cbn.
    rewrite (closing_no_attempt _ _ _ _ Hlast).
    destruct (decide (user' = user)) as [->|_]; [done|].
    by rewrite !app_nil_r.
Qed.

(** The first time a user is found, the chained extraction is made, and
    the user is recorded as processed. *)
Lemma process_url_first_time username user i url st :
  resolves_to extract_graphql_data st url username user ->
  user ∉ processed_usernames st ->
  let st' := process_url extract_graphql_data i url st in
  let x := fst (extract_graphql_data (extractor st) url) in
  let profile_url := profile_url_of username in
  let r := chain_outcome profile_url
             (snd (extract_graphql_data x profile_url)) in
  user ∈ processed_usernames st' /\
  flat_map (chain_attempts user) (history st')
  = flat_map (chain_attempts user) (history st) ++ [r] /\
  (forall entry, r = Some entry -> entry ∈ all_extracted_data st').
Proof.
  intros (ed & error & ct & fields & Hex & Hget & Herr & Hct
          & Hkind & Hpost & Htruthy & Hhash & _) Hnew.
  cbn zeta. unfold process_url.
  destruct (extract_graphql_data (extractor st) url) as [x r].
  cbn in Hex. subst r. cbn [mbind res_bind fst]. rewrite Hget.
  cbn [mbind res_bind]. rewrite Herr, Hct.
  assert (String.eqb ct "profile" = false) as ->
    by (destruct Hkind as [Hk|Hk]; by rewrite Hk).
  assert (String.eqb ct "article" || String.eqb ct "video" = true) as ->
    by (destruct Hkind as [Hk|Hk]; by rewrite Hk).
  rewrite Hpost, Htruthy, Hhash.
  destruct (decide (user ∈ processed_usernames (with_extractor x st)))
    as [Hin|_]; [done|].
  apply post_fields_dict in Hpost as (lc & cc & pd & cap & ->).
  rewrite chain_profile_log. cbn [extractor add_username with_extractor].
  edestruct (emit_closing (St := St) i url ct) as (last & Hlast & ->);
    [reflexivity..|].
  cbn. split; [by apply elem_of_union_l, elem_of_singleton|].
  rewrite !flat_map_app. cbn.
  rewrite (closing_no_attempt _ _ _ _ Hlast).
  destruct (decide (user = user)); [|done].
  split; [by rewrite !app_nil_r|].
  intros entry ->. apply elem_of_app. left. apply elem_of_app. right.
  apply list_elem_of_here.
Qed.

End ChainFacts.

(** ** The summary *)

Lemma built_lookup (url content_type : string) (entry : dict) :
  built url content_type entry ->
  dict_lookup "url" entry = Some (VStr url) /\
  dict_lookup "content_type" entry = Some (VStr content_type).
Proof.
  intros (raw & Hfinish & Hurl & Htype).
  split; by eapply finish_entry_lookup_kept.
Qed.

(** Counting never fails on entries whose content type is a string, and
    adds to each key the number of entries of that type. *)
Lemma count_content_types_spec (data : list dict) (acc : gmap hkey nat) :
  (forall entry, entry ∈ data ->
     exists content_type,
       dict_lookup "content_type" entry = Some (VStr content_type)) ->
  exists m,
    count_content_types data acc = Ret m /\
    forall k,
      m !! k = if (type_count k data =? 0)%nat then acc !! k
               else Some (default O (acc !! k) + type_count k data)%nat.
Proof.
  revert acc. induction data as [|entry data IH]; intros acc Htypes.
  - exists acc. split; [done|]. intros k. reflexivity.
  - destruct (Htypes entry) as (ct & Hct); [by left|].
    destruct (IH (<[Some (inr ct) := S (default O (acc !! Some (inr ct)))]> acc))
      as (m & Hcount & Hm).
    { intros e He. apply Htypes. by right. }
    exists m. split.
    { cbn [count_content_types]. by rewrite Hct. }
    intros k. rewrite Hm.
    assert (Htype : has_type k entry = bool_decide (Some (inr ct) = k))
      by (unfold has_type; by rewrite Hct).
    unfold type_count. cbn [List.filter]. rewrite Htype.
    destruct (decide (Some (inr ct) = k)) as [<-|Hne].
    + rewrite bool_decide_eq_true_2 by done. cbn [length].
      rewrite lookup_insert_eq. cbn.
      destruct (Nat.eqb_spec (length (List.filter (has_type (Some (inr ct)))
                                                  data)) 0) as [->|_].
      * cbn. f_equal. lia.
      * cbn. f_equal. lia.
    + rewrite bool_decide_eq_false_2 by done.
      by rewrite lookup_insert_ne.
Qed.

Section RunFacts.

Context {St : Type}.
Variable extract_graphql_data : St -> string -> St * res pyval.
Variable start : res St.
Variable get_stealth_report : St -> res pyval.
Variable save_json : string -> list dict -> bool.
Variables total_time time_of_failure : spec_float.
Variable enable_anti_detection : bool.
Variable output_file : option string.

Implicit Types st : @loop_state St.

Let run := scrape extract_graphql_data start get_stealth_report save_json
                  total_time time_of_failure enable_anti_detection
                  output_file.

(** A run that reaches the loop returns through the normal [return]:
    the six keys, with the summary of the final loop state. *)
Lemma scrape_normal urls (x : St) :
  urls <> [] -> start = Ret x ->
  let st := run_loop extract_graphql_data 1 urls (initial_state x) in
  exists content_types output_file_path final_stealth_report,
    (forall k,
       content_types !! k
       = if (type_count k (all_extracted_data st) =? 0)%nat then None
         else Some (type_count k (all_extracted_data st))) /\
    run urls
    = [("success", OBool (Nat.eqb (length (errors st)) O));
       ("data", OList (all_extracted_data st));
       ("summary", OSummary (summary_of total_time urls st content_types));
       ("errors", OList (errors st));
       ("output_file", output_file_path);
       ("stealth_report", final_stealth_report)].
Proof.
  intros Hurls Hstart. cbn zeta.
  pose proof (run_loop_from_start extract_graphql_data urls x) as Hok.
  set (st := run_loop extract_graphql_data 1 urls (initial_state x)) in *.
  destruct (count_content_types_spec (all_extracted_data st) ∅)
    as (m & Hcount & Hm).
  { intros entry Hentry.
    destruct (run_ok_entries_built 1 urls st entry Hok Hentry)
      as (url & ct & Hbuilt).
    exists ct. by apply (built_lookup url). }
  exists m. unfold run, scrape. rewrite Hstart.
  destruct urls as [|url urls']; [done|].
  fold st. rewrite Hcount. eexists _, _. split; [|reflexivity].
  intros k. rewrite Hm, lookup_empty. by destruct (_ =? _)%nat.
Qed.

End RunFacts.

(** ** Errors, success flag and summary of a run *)

Section ResultFacts.

Context {St : Type}.
Variable extract_graphql_data : St -> string -> St * res pyval.
Variable start : res St.
Variable get_stealth_report : St -> res pyval.
Variable save_json : string -> list dict -> bool.
Variables total_time time_of_failure : spec_float.
Variable enable_anti_detection : bool.
Variable output_file : option string.

Implicit Types st : @loop_state St.

Let run := scrape extract_graphql_data start get_stealth_report save_json
                  total_time time_of_failure enable_anti_detection
                  output_file.

(** An exception of the extractor becomes the error record of the URL. *)
Lemma process_url_raise i url e st :
  snd (extract_graphql_data (extractor st) url) = Raise e ->
  history (process_url extract_graphql_data i url st)
  = history st ++ [Failed i (error_record i url (VStr (exn_text e)))].
Proof.
  unfold process_url.
  destruct (extract_graphql_data (extractor st) url) as [x r].
  cbn. by intros ->.
Qed.

(** So does an extraction result that carries an error. *)
Lemma process_url_error i url extracted_data error st :
  snd (extract_graphql_data (extractor st) url) = Ret extracted_data ->
  py_get extracted_data "error" VNone = Ret error ->
  truthy error = true ->
  history (process_url extract_graphql_data i url st)
  = history st ++ [Failed i (error_record i url error)].
Proof.
  unfold process_url.
  destruct (extract_graphql_data (extractor st) url) as [x r].
  cbn. intros -> Hget Herror. cbn. rewrite Hget. cbn. by rewrite Herror.
Qed.

(** C7: in a run that reaches the loop, every URL is processed, in
    order, and ends either in an error record with its URL, the error
    and its 1-based index, or in an entry for it; an exception of the
    extractor or an error in its result gives such a record and the loop
    goes on; the success flag is true exactly when the errors list is
    empty, and the data list is returned whatever failed. *)
Theorem per_url_errors_recorded urls (x : St) :
  urls <> [] -> start = Ret x ->
  let st := run_loop extract_graphql_data 1 urls (initial_state x) in
  lookup_key "errors" (run urls) = Some (OList (errors st)) /\
  lookup_key "data" (run urls) = Some (OList (all_extracted_data st)) /\
  (exists success,
     lookup_key "success" (run urls) = Some (OBool success) /\
     (success = true <-> errors st = [])) /\
  omap url_index (history st) = seq 1 (length urls) /\
  errors st = flat_map event_errors (history st) /\
  all_extracted_data st = flat_map event_entries (history st) /\
  (forall ev i,
     ev ∈ history st -> url_index ev = Some i ->
     exists url,
       urls !! (i - 1)%nat = Some url /\
       ((exists error, ev = Failed i (error_record i url error)) \/
        (exists entry, ev = Emitted i entry /\
                       dict_lookup "url" entry = Some (VStr url)))) /\
  (forall st0 i url e,
     snd (extract_graphql_data (extractor st0) url) = Raise e ->
     history (process_url extract_graphql_data i url st0)
     = history st0 ++ [Failed i (error_record i url (VStr (exn_text e)))]) /\
  (forall st0 i url extracted_data error,
     snd (extract_graphql_data (extractor st0) url) = Ret extracted_data ->
     py_get extracted_data "error" VNone = Ret error ->
     truthy error = true ->
     history (process_url extract_graphql_data i url st0)
     = history st0 ++ [Failed i (error_record i url error)]).
Proof.
  intros Hurls Hstart. cbn zeta.
  destruct (scrape_normal extract_graphql_data start get_stealth_report
              save_json total_time time_of_failure enable_anti_detection
              output_file urls x Hurls Hstart)
    as (m & path & report & _ & Hrun).
  pose proof (run_loop_from_start extract_graphql_data urls x) as Hok.
  set (st := run_loop extract_graphql_data 1 urls (initial_state x)) in *.
  unfold run. rewrite Hrun.
  split; [reflexivity|]. split; [reflexivity|]. split.
  { eexists. split; [reflexivity|]. rewrite Nat.eqb_eq.
    split; [apply nil_length_inv|by intros ->]. }
  split; [apply (ok_index _ _ _ Hok)|].
  split; [apply (ok_errors _ _ _ Hok)|].
  split; [apply (ok_data _ _ _ Hok)|].
  split; [|split; [intros; by apply process_url_raise
                  |intros; by eapply process_url_error]].
  intros ev i Hev Hi.
  destruct (ok_closing _ _ _ Hok ev i Hev Hi)
    as (url & Hurl & [Hfailed | (ct & entry & -> & Hbuilt)]).
  - exists url. split; [done|by left].
  - exists url. split; [done|]. right. exists entry. split; [done|].
    by apply (built_lookup url ct).
Qed.

(** The summary of a run that reaches the loop. *)
Lemma scrape_summary urls (x : St) :
  urls <> [] -> start = Ret x ->
  let st := run_loop extract_graphql_data 1 urls (initial_state x) in
  exists content_types,
    (forall k,
       content_types !! k
       = if (type_count k (all_extracted_data st) =? 0)%nat then None
         else Some (type_count k (all_extracted_data st))) /\
    lookup_key "data" (run urls) = Some (OList (all_extracted_data st)) /\
    lookup_key "summary" (run urls)
    = Some (OSummary (summary_of total_time urls st content_types)).
Proof.
  intros Hurls Hstart. cbn zeta.
  destruct (scrape_normal extract_graphql_data start get_stealth_report
              save_json total_time time_of_failure enable_anti_detection
              output_file urls x Hurls Hstart)
    as (m & path & report & Hm & Hrun).
  exists m. unfold run. rewrite Hrun. done.
Qed.

(** C8 (as amended): the summary of a run that completes has exactly
    the nine fields of the source, where the success rate is named
    [success_rate], and its [content_type_breakdown] maps each content
    type of the output data to the number of entries of that type, and
    holds no other key. *)
Theorem summary_fields urls (x : St) :
  urls <> [] -> start = Ret x ->
  let st := run_loop extract_graphql_data 1 urls (initial_state x) in
  exists summary content_types,
    lookup_key "summary" (run urls) = Some (OSummary summary) /\
    map fst summary = summary_keys /\
    lookup_key "content_type_breakdown" summary
    = Some (SCounts content_types) /\
    forall k,
      content_types !! k
      = if (type_count k (all_extracted_data st) =? 0)%nat then None
        else Some (type_count k (all_extracted_data st)).
Proof.
  intros Hurls Hstart. cbn zeta.
  destruct (scrape_summary urls x Hurls Hstart) as (m & Hm & _ & Hsummary).
  eexists _, m. split; [exact Hsummary|]. by repeat split.
Qed.


End ResultFacts.

(** ** The sample run *)

Lemma sample_urls_not_nil : sample_urls <> [].
Proof. discriminate. Qed.

Lemma business_fields_always_present_witness :
  is_Some (dict_lookup "business_phone_number"
             [("url", VStr "https://www.instagram.com/p/DMsercXMVeZ/");
              ("content_type", VStr "article"); ("likes_count", VStr "7");
              ("username", VStr "bob"); ("caption", VStr "hi");
              ("business_email", VNone); ("business_phone_number", VNone);
              ("business_category_name", VNone)]).
Proof.
  refine (proj1 (business_fields_always_present
                   (canned sample_pages) (Ret tt) (fun _ => Ret VNone)
                   (fun _ _ => true) (S754_zero false) (S754_zero false)
                   true None
                   ["https://www.instagram.com/p/DMsercXMVeZ/"] _ _ _ _)
                _ _).
  - vm_compute. reflexivity.
  - apply list_elem_of_further, list_elem_of_here.
  - apply list_elem_of_further, list_elem_of_here.
Defined.

(** In the sample run the two posts of the same user give one chained
    profile entry. *)
Example sample_chained_once :
  flat_map (chain_attempts (Some (inr "bob")))
           (history (sample_loop sample_urls))
  = [Some [("url", VStr "https://www.instagram.com/bob/");
           ("content_type", VStr "profile"); ("username", VStr "bob");
           ("biography", VStr EmptyString); ("bio_links", VList []);
           ("is_private", VBool false); ("is_verified", VBool false);
           ("is_business_account", VBool false);
           ("is_professional_account", VBool true);
           ("business_email", VNone); ("business_phone_number", VNone);
           ("business_category_name", VNone)]]
  /\ length (all_extracted_data (sample_loop sample_urls)) = 4%nat.
Proof. split; vm_compute; reflexivity. Qed.

Lemma per_url_errors_recorded_witness :
  lookup_key "errors" (sample_run sample_urls)
  = Some (OList [error_record 4 "https://www.instagram.com/reel/CSb6-Rap2Ip/"
                              (VStr "no_data_found");
                 error_record 5 "https://www.instagram.com/90svogue.__"
                              (VStr "Timeout 30000ms exceeded")]).
Proof.
  unfold sample_run.
  rewrite (proj1 (per_url_errors_recorded
                    (canned sample_pages) (Ret tt) (fun _ => Ret VNone)
                    (fun _ _ => true) (S754_zero false) (S754_zero false)
                    true None sample_urls tt sample_urls_not_nil eq_refl)).
  vm_compute. reflexivity.
Defined.

Lemma summary_fields_witness :
  exists summary,
    lookup_key "summary" (sample_run sample_urls) = Some (OSummary summary)
    /\ map fst summary = summary_keys.
Proof.
  destruct (summary_fields
              (canned sample_pages) (Ret tt) (fun _ => Ret VNone)
              (fun _ _ => true) (S754_zero false) (S754_zero false)
              true None sample_urls tt sample_urls_not_nil eq_refl)
    as (summary & m & Hsummary & Hkeys & _).
  exists summary. split; [exact Hsummary|exact Hkeys].
Defined.

(** Counterexample to C8 as stated: the summary of a run without any
    error has no field [success_rate_percent]; its keys are not the
    specified ones. *)
Lemma summary_has_no_success_rate_percent :
  exists summary,
    lookup_key "success" (sample_run ["https://www.instagram.com/codehype_"])
    = Some (OBool true) /\
    lookup_key "summary" (sample_run ["https://www.instagram.com/codehype_"])
    = Some (OSummary summary) /\
    lookup_key "success_rate_percent" summary = None /\
    map fst summary <> specified_summary_keys.
Proof.
  destruct (scrape_summary
              (canned sample_pages) (Ret tt) (fun _ => Ret VNone)
              (fun _ _ => true) (S754_zero false) (S754_zero false)
              true None ["https://www.instagram.com/codehype_"] tt
              ltac:(discriminate) eq_refl)
    as (m & _ & _ & Hsummary).
  eexists. split; [vm_compute; reflexivity|]. split; [exact Hsummary|].
  split; [reflexivity|discriminate].
Qed.




(** ** Field resolution of article and video entries *)

Lemma py_or_first_truthy (a b : pyval) :
  py_or a (Ret b) = Ret (first_truthy a b).
Proof. unfold py_or, first_truthy. by destruct (truthy a). Qed.


Lemma dict_lookup_None_keys (k : string) (d : dict) :
  dict_lookup k d = None <-> k ∉ map fst d.
Proof.
  induction d as [|[k0 v0] d IH]; cbn [dict_lookup map fst].
  - split; [intros _; apply not_elem_of_nil|done].
  - rewrite not_elem_of_cons, <- IH.
    destruct (String.eqb_spec k k0) as [->|Hne]; [|tauto].
    split; [done|]. by intros [? _].
Qed.

Lemma dict_set_keys (k : string) (v : pyval) (d : dict) :
  map fst (dict_set k v d)
  = if decide (k ∈ map fst d) then map fst d else map fst d ++ [k].
Proof.
  induction d as [|[k0 v0] d IH]; cbn [dict_set map fst].
  - by rewrite decide_False by apply not_elem_of_nil.
  - destruct (String.eqb_spec k k0) as [->|Hne]; cbn [map fst].
    + rewrite decide_True; [done|by left].
    + rewrite IH. destruct (decide (k ∈ map fst d)) as [Hin|Hnot].
      * rewrite decide_True; [done|by right].
      * rewrite decide_False; [done|]. by rewrite not_elem_of_cons.
Qed.

Lemma dict_set_NoDup (k : string) (v : pyval) (d : dict) :
  NoDup (map fst d) -> NoDup (map fst (dict_set k v d)).
Proof.
  intros Hd. rewrite dict_set_keys. destruct (decide _); [done|].
  apply NoDup_app. split; [done|]. split; [|apply NoDup_singleton].
  intros x Hx Hx'. by apply list_elem_of_singleton in Hx' as ->.
Qed.

Lemma include_business_fields_NoDup (e : dict) :
  NoDup (map fst e) -> NoDup (map fst (include_business_fields e)).
Proof.
  intros He. unfold include_business_fields.
  generalize business_fields. intros fs. revert e He.
  induction fs as [|f fs IH]; intros e He; [done|]. cbn [fold_left].
  apply IH. destruct (dict_lookup f e) as [v|];
    [destruct (eq_str v EmptyString)|]; by try apply dict_set_NoDup.
Qed.

Lemma email_from_biography_NoDup (e e' : dict) :
  email_from_biography e = Ret e' ->
  NoDup (map fst e) -> NoDup (map fst e').
Proof.
  unfold email_from_biography. intros H He.
  destruct (_ && _); [|by injection H as <-].
  destruct (default VNone (dict_lookup "biography" e)); try done.
  destruct (re_search email_pattern s); injection H as <-; [|done].
  by apply dict_set_NoDup.
Qed.

(** With distinct keys, a null field that is not a business field is
    gone after the last step. *)
Lemma dict_lookup_drop_none_dropped (k : string) (e : dict) :
  NoDup (map fst e) ->
  dict_lookup k e = Some VNone -> is_business_field k = false ->
  dict_lookup k (drop_none_fields e) = None.
Proof.
  intros Hnodup Hl Hk. induction e as [|[k0 v0] e IH]; [done|].
  cbn [map fst] in Hnodup. apply NoDup_cons in Hnodup as [Hnot Hnodup].
  cbn [dict_lookup] in Hl. cbn [drop_none_fields List.filter fst snd].
  destruct (String.eqb_spec k k0) as [->|Hne].
  - injection Hl as ->. rewrite Hk. cbn.
    by apply dict_lookup_drop_none_None, dict_lookup_None_keys.
  - destruct (negb (is_none v0) || is_business_field k0); cbn [dict_lookup].
    + destruct (String.eqb_spec k k0); [done|]. by apply IH.
    + by apply IH.
Qed.

(** What the closing steps leave of a field that is not a business
    field, in an entry with distinct keys: the field itself, unless it is
    null or missing. *)
Lemma finish_entry_lookup (k : string) (raw entry : dict) :
  finish_entry raw = Ret entry ->
  NoDup (map fst raw) -> is_business_field k = false ->
  dict_lookup k entry = dict_lookup k raw ≫= shown.
Proof.
  unfold finish_entry. intros H Hnodup Hk.
  apply bind_ret_inv in H as (e1 & He1 & [= <-]).
  assert (Hne : k <> "business_email") by (by intros ->).
  assert (Hl : dict_lookup k e1 = dict_lookup k raw).
  { rewrite (email_from_biography_other k _ _ He1 Hne).
    by rewrite include_business_fields_lookup, Hk. }
  assert (Hnodup1 : NoDup (map fst e1)).
  { eapply email_from_biography_NoDup; [exact He1|].
    by apply include_business_fields_NoDup. }
  rewrite <- Hl. destruct (dict_lookup k e1) as [v|] eqn:Hv; cbn.
  - unfold shown. destruct (is_none v) eqn:Hnone.
    + destruct v; try done. by apply dict_lookup_drop_none_dropped.
    + apply dict_lookup_drop_none_keep; [done|by left].
  - by apply dict_lookup_drop_none_None.
Qed.


(** What [or] does on a candidate that is not null but falsy: the
    sample post has the meta value [likes_count = 0] and the script value
    [likes = 7]; the entry shows 7 likes, while the first candidate that is
    not null is 0 and would be shown as "0" (as the formatter and the
    profile fields show it). *)
Lemma likes_count_not_first_non_null :
  exists entry,
    all_extracted_data
      (sample_loop ["https://www.instagram.com/p/DMsercXMVeZ/"]) !! 1%nat
    = Some entry /\
    dict_lookup "url" entry
    = Some (VStr "https://www.instagram.com/p/DMsercXMVeZ/") /\
    dict_lookup "likes_count" entry = Some (VStr "7") /\
    first_non_null [VInt 0; VInt 7] = VInt 0 /\
    _format_count (first_non_null [VInt 0; VInt 7]) = Ret (VStr "0").
Proof.
  eexists. split; [vm_compute; reflexivity|]. repeat split.
Qed.


(** ** The e-mail taken from the biography *)

Lemma forallb_elem (p : ascii -> bool) (l : list ascii) (c : ascii) :
  forallb p l = true -> c ∈ l -> p c = true.
Proof.
  rewrite forallb_forall. intros H Hc. by apply H, list_elem_of_In.
Qed.

(** No e-mail-shaped text holds a vertical bar. *)
Lemma email_shaped_no_bar (s : list ascii) :
  email_shaped s -> "|"%char ∉ s.
Proof.
  intros (loc & domain & tld & -> & _ & Hloc & _ & Hdomain & _ & Htld) Hin.
  apply elem_of_app in Hin as [Hin|Hin];
    [by apply (forallb_elem _ _ _ Hloc) in Hin|].
  apply elem_of_cons in Hin as [Hin|Hin]; [done|].
  apply elem_of_app in Hin as [Hin|Hin];
    [by apply (forallb_elem _ _ _ Hdomain) in Hin|].
  apply elem_of_cons in Hin as [Hin|Hin]; [done|].
  by apply (forallb_elem _ _ _ Htld) in Hin.
Qed.

(** C5, where the code departs from it: the sample profile has an empty
    [business_email] and the biography ["Contact a@b.com|x"], in which
    ["a@b.com"] is an e-mail-shaped substring at word boundaries; the
    emitted [business_email] is ["a@b.com|x"], which is not e-mail shaped,
    because the class written [[A-Z|a-z]] takes the bar as a letter of the
    top-level domain. *)
Lemma email_backfill_takes_bar :
  re_search email_pattern "Contact a@b.com|x" = Some "a@b.com|x" /\
  email_shaped_at (list_ascii_of_string "Contact a@b.com|x") 8 7 /\
  String.substring 8 7 "Contact a@b.com|x" = "a@b.com" /\
  ~ email_shaped (list_ascii_of_string "a@b.com|x") /\
  exists entry,
    all_extracted_data (sample_loop ["https://www.instagram.com/codehype_"])
    = [entry] /\
    dict_lookup "biography" entry = Some (VStr "Contact a@b.com|x") /\
    dict_lookup "business_email" entry = Some (VStr "a@b.com|x").
Proof.
  split; [vm_compute; reflexivity|]. split.
  { split; [|split; [cbn; lia|split; reflexivity]].
    exists ["a"%char], ["b"%char], ["c"; "o"; "m"]%char.
    repeat split; try done. cbn. lia. }
  split; [reflexivity|]. split.
  { intros H. apply email_shaped_no_bar in H. apply H.
    cbn. do 7 apply list_elem_of_further. apply list_elem_of_here. }
  eexists. split; [vm_compute; reflexivity|]. split; reflexivity.
Qed.

(** ** Cross-checks of the float model *)

(** On operands that a double holds exactly, the nearest double to the
    quotient is the IEEE division of the Standard Library. *)
Example nearest_double_is_SFdiv :
  map (fun a => nearest_double a 1000)
      [1000; 1050; 1150; 16500; 999950; 999999; 7; 1]
  = map (fun a => SFdiv 53 1024 (double_of_Z a) (double_of_Z 1000))
        [1000; 1050; 1150; 16500; 999950; 999999; 7; 1]
  /\ map (fun a => nearest_double a 1000000)
         [1000000; 1500000; 16000000; 2 ^ 53; 123456789012345]
     = map (fun a => SFdiv 53 1024 (double_of_Z a) (double_of_Z 1000000))
           [1000000; 1500000; 16000000; 2 ^ 53; 123456789012345].
Proof. split; vm_compute; reflexivity. Qed.

(** Ties in the decimal digits go the way of the binary value: 1050 is
    shown as 1.1K and so is 1150, as in Python. *)
Example format_count_ties :
  map (fun n => _format_count (VInt n)) [1050; 1150; 1250; 999950]
  = map (fun s => Ret (VStr s)) ["1.1K"; "1.1K"; "1.2K"; "1000K"].
Proof. vm_compute. reflexivity. Qed.

(** * Further properties of the run *)

(** Every event appends one thing: an error record, an entry, or a
    chained entry or nothing. *)
Lemma history_accounting (h : list event) :
  (length (flat_map event_entries h) + length (flat_map event_errors h)
   = length (omap url_index h) + length (flat_map chained_success h))%nat.
Proof.
  induction h as [|ev h IH]; [done|].
  destruct ev as [i r|i e|i u [e|]]; cbn; lia.
Qed.

Lemma history_errors_le (h : list event) :
  (length (flat_map event_errors h) <= length (omap url_index h))%nat.
Proof.
  induction h as [|ev h IH]; [done|].
  destruct ev as [i r|i e|i u [e|]]; cbn; lia.
Qed.

Lemma history_chained_le (h : list event) :
  (length (flat_map chained_success h) <= length (omap chained_user h))%nat.
Proof.
  induction h as [|ev h IH]; [done|].
  destruct ev as [i r|i e|i u [e|]]; cbn; lia.
Qed.

Section Accounting.

Context {St : Type}.
Variable extract_graphql_data : St -> string -> St * res pyval.

Implicit Types st : @loop_state St.

Lemma run_loop_counts (urls : list string) (x : St) :
  let st := run_loop extract_graphql_data 1 urls (initial_state x) in
  (length (all_extracted_data st) + length (errors st)
   = length urls + length (flat_map chained_success (history st)))%nat /\
  (length (errors st) <= length urls)%nat /\
  (length urls - length (errors st) <= length (all_extracted_data st))%nat.
Proof.
  cbn zeta.
  pose proof (run_loop_from_start extract_graphql_data urls x) as Hok.
  set (st := run_loop extract_graphql_data 1 urls (initial_state x)) in *.
  pose proof (history_accounting (history st)) as Hacc.
  pose proof (history_errors_le (history st)) as Hle.
  rewrite <- (ok_data _ _ _ Hok), <- (ok_errors _ _ _ Hok) in Hacc.
  rewrite <- (ok_errors _ _ _ Hok) in Hle.
  rewrite (ok_index _ _ _ Hok), length_seq in Hacc, Hle. lia.
Qed.

(** X1: at the end of the loop every URL has given either one error
    record or one entry, and the only other entries are the chained
    profiles: entries plus errors are the URLs plus the chained
    entries, and there are never more errors than URLs. *)
Theorem loop_accounting (urls : list string) (x : St) :
  let st := run_loop extract_graphql_data 1 urls (initial_state x) in
  (length (all_extracted_data st) + length (errors st)
   = length urls + length (flat_map chained_success (history st)))%nat /\
  (length (errors st) <= length urls)%nat /\
  (length urls - length (errors st) <= length (all_extracted_data st))%nat.
Proof.
  pose proof (run_loop_counts urls x) as H. cbn zeta in *.
  destruct H as (H1 & H2 & H3). by repeat split.
Qed.

(** The users of the chained events are the processed usernames. *)
Lemma process_url_processed i url st :
  processed_usernames st = list_to_set (omap chained_user (history st)) ->
  processed_usernames (process_url extract_graphql_data i url st)
  = list_to_set
      (omap chained_user
            (history (process_url extract_graphql_data i url st))).
Proof.
  intros Hinv.
  destruct (process_url_shape extract_graphql_data i url st)
    as [x last Hlast -> | x user r last Hnew Hr Hlast ->]; cbn.
  - rewrite omap_app. cbn. rewrite (closing_not_chained _ _ _ Hlast).
    by rewrite app_nil_r.
  - rewrite !omap_app. cbn. rewrite (closing_not_chained _ _ _ Hlast).
    rewrite app_nil_r, list_to_set_app_L, Hinv. cbn.
    by rewrite union_empty_r_L, (union_comm_L _ {[user]}).
Qed.

Lemma run_loop_processed i urls st :
  processed_usernames st = list_to_set (omap chained_user (history st)) ->
  processed_usernames (run_loop extract_graphql_data i urls st)
  = list_to_set
      (omap chained_user (history (run_loop extract_graphql_data i urls st))).
Proof.
  revert i st. induction urls as [|url urls IH]; intros i st Hinv; [done|].
  cbn [run_loop]. by apply IH, process_url_processed.
Qed.

(** When the loop ends, [processed_usernames] has one member per
    chained extraction that was attempted, whether or not it gave an
    entry. *)
Lemma processed_usernames_size (urls : list string) (x : St) :
  let st := run_loop extract_graphql_data 1 urls (initial_state x) in
  size (processed_usernames st)
  = length (omap chained_user (history st)) /\
  (length (flat_map chained_success (history st))
   <= size (processed_usernames st))%nat /\
  (length (all_extracted_data st)
   <= length urls + size (processed_usernames st))%nat.
Proof.
  cbn zeta.
  pose proof (run_loop_from_start extract_graphql_data urls x) as Hok.
  pose proof (run_loop_counts urls x) as (Hacc & _). cbn zeta in Hacc.
  set (st := run_loop extract_graphql_data 1 urls (initial_state x)) in *.
  assert (Hsize : size (processed_usernames st)
                  = length (omap chained_user (history st))).
  { unfold st. rewrite run_loop_processed by done.
    apply size_list_to_set, (ok_chained_once _ _ _ Hok). }
  pose proof (history_chained_le (history st)) as Hle.
  split; [exact Hsize|]. split; lia.
Qed.

End Accounting.


Section ResultShape.

Context {St : Type}.
Variable extract_graphql_data : St -> string -> St * res pyval.
Variable start : res St.
Variable get_stealth_report : St -> res pyval.
Variable save_json : string -> list dict -> bool.
Variables total_time time_of_failure : spec_float.
Variable enable_anti_detection : bool.
Variable output_file : option string.

Implicit Types st : @loop_state St.

Let run := scrape extract_graphql_data start get_stealth_report save_json
                  total_time time_of_failure enable_anti_detection
                  output_file.

(** X2: the summary's [additional_profiles_extracted] is the number of
    chained extractions attempted (one per distinct username found),
    not the number of chained profiles obtained: it is at least the
    number of chained entries in the data, and the data never holds
    more than one entry per URL plus that number. *)
Theorem additional_profiles_counts_attempts urls (x : St) :
  urls <> [] -> start = Ret x ->
  let st := run_loop extract_graphql_data 1 urls (initial_state x) in
  exists summary,
    lookup_key "summary" (run urls) = Some (OSummary summary) /\
    lookup_key "additional_profiles_extracted" summary
    = Some (SInt (Z.of_nat (length (omap chained_user (history st))))) /\
    (length (flat_map chained_success (history st))
     <= length (omap chained_user (history st)))%nat /\
    (length (all_extracted_data st)
     <= length urls + length (omap chained_user (history st)))%nat.
Proof.
  intros Hurls Hstart. cbn zeta.
  destruct (scrape_summary extract_graphql_data start get_stealth_report
              save_json total_time time_of_failure enable_anti_detection
              output_file urls x Hurls Hstart) as (m & _ & _ & Hsummary).
  destruct (processed_usernames_size extract_graphql_data urls x)
    as (Hsize & Hle & Hdata).
  eexists. split; [exact Hsummary|]. rewrite <- Hsize. by repeat split.
Qed.

(** X3: a result whose success flag is true comes from a run in which
    every URL of the input gave its own entry: the data holds, for each
    position of the input, an entry whose [url] is that URL, and at
    least as many entries as there are URLs. *)
Theorem success_covers_every_url urls :
  lookup_key "success" (run urls) = Some (OBool true) ->
  exists entries,
    lookup_key "data" (run urls) = Some (OList entries) /\
    lookup_key "errors" (run urls) = Some (OList []) /\
    (length urls <= length entries)%nat /\
    forall (i : nat) url,
      urls !! i = Some url ->
      exists entry, entry ∈ entries /\
                    dict_lookup "url" entry = Some (VStr url).
Proof.
  intros Hsuccess. unfold run in *.
  destruct urls as [|url0 urls0] eqn:Hurls; [discriminate Hsuccess|].
  rewrite <- Hurls in *.
  assert (Hne : urls <> []) by (by rewrite Hurls).
  destruct start as [x|e] eqn:Hstart;
    [|rewrite Hurls in Hsuccess; discriminate Hsuccess].
  destruct (scrape_normal extract_graphql_data (Ret x) get_stealth_report
              save_json total_time time_of_failure enable_anti_detection
              output_file urls x Hne eq_refl)
    as (m & path & report & _ & Hrun).
  rewrite Hrun in *. cbn in Hsuccess. injection Hsuccess as Herrors.
  apply Nat.eqb_eq, nil_length_inv in Herrors.
  pose proof (run_loop_from_start extract_graphql_data urls x) as Hok.
  pose proof (run_loop_counts extract_graphql_data urls x) as (Hacc & _).
  cbn zeta in Hacc.
  set (st := run_loop extract_graphql_data 1 urls (initial_state x)) in *.
  exists (all_extracted_data st). split; [reflexivity|].
  split; [cbn; by rewrite Herrors|].
  split; [rewrite Herrors in Hacc; cbn in Hacc; lia|].
  intros i url Hi.
  assert (Hin : S i ∈ omap url_index (history st)).
  { rewrite (ok_index _ _ _ Hok). apply elem_of_seq.
    apply lookup_lt_Some in Hi. lia. }
  apply list_elem_of_omap in Hin as (ev & Hev & Hidx).
  destruct (ok_closing _ _ _ Hok ev (S i) Hev Hidx)
    as (url' & Hurl' & [(error & ->) | (ct & entry & -> & Hbuilt)]).
  - exfalso. pose proof (ok_errors _ _ _ Hok) as He. rewrite Herrors in He.
    apply list_elem_of_In in Hev.
    assert (Hin : In (error_record (S i) url' error)
                     (flat_map event_errors (history st))).
    { apply in_flat_map. eexists. split; [exact Hev|]. by left. }
    by rewrite <- He in Hin.
  - replace (S i - 1)%nat with i in Hurl' by lia.
    rewrite Hi in Hurl'. injection Hurl' as <-.
    exists entry. split; [|by apply (built_lookup url ct)].
    rewrite (ok_data _ _ _ Hok). apply list_elem_of_In, in_flat_map.
    eexists. split; [by apply list_elem_of_In|]. by left.
Qed.

(** X4: the critical-error return is reached only when the extractor
    fails to start.  The result has an [error] key exactly when the URL
    list is empty or the start raised; once the extractor has started
    on a non-empty list, the result has the six keys of the normal
    return, whatever the extractions did. *)
Theorem error_key_only_without_loop urls :
  (is_Some (lookup_key "error" (run urls))
   <-> urls = [] \/ exists e, start = Raise e) /\
  (urls <> [] -> (exists x, start = Ret x) ->
   map fst (run urls) = result_keys).
Proof.
  split.
  - destruct urls as [|url0 urls0] eqn:Hurls.
    { split; [by left|]. intros _. unfold run, scrape. by eexists. }
    rewrite <- Hurls.
    assert (Hne : urls <> []) by (by rewrite Hurls).
    destruct start as [x|e] eqn:Hstart.
    + destruct (scrape_normal extract_graphql_data (Ret x)
                  get_stealth_report save_json total_time time_of_failure
                  enable_anti_detection output_file urls x Hne eq_refl)
        as (m & path & report & _ & Hrun).
      unfold run. rewrite Hrun. cbn. split.
      * by intros [? ?].
      * intros [? | [e He]]; done.
    + split; [intros _; right; by exists e|]. intros _.
      unfold run, scrape. rewrite Hurls. by eexists.
  - intros Hne [x Hstart].
    destruct (scrape_normal extract_graphql_data start
                get_stealth_report save_json total_time time_of_failure
                enable_anti_detection output_file urls x Hne Hstart)
      as (m & path & report & _ & Hrun).
    unfold run. by rewrite Hrun.
Qed.

End ResultShape.

Lemma additional_profiles_counts_attempts_witness :
  exists summary,
    lookup_key "summary" (sample_run sample_urls) = Some (OSummary summary) /\
    lookup_key "additional_profiles_extracted" summary = Some (SInt 1).
Proof.
  destruct (additional_profiles_counts_attempts
              (canned sample_pages) (Ret tt) (fun _ => Ret VNone)
              (fun _ _ => true) (S754_zero false) (S754_zero false)
              true None sample_urls tt sample_urls_not_nil eq_refl)
    as (summary & Hsummary & Hcount & _).
  exists summary. split; [exact Hsummary|]. rewrite Hcount.
  vm_compute. reflexivity.
Defined.

Lemma success_covers_every_url_witness :
  exists entries,
    lookup_key "data" (sample_run ["https://www.instagram.com/codehype_"])
    = Some (OList entries) /\ (1 <= length entries)%nat.
Proof.
  destruct (success_covers_every_url
              (canned sample_pages) (Ret tt) (fun _ => Ret VNone)
              (fun _ _ => true) (S754_zero false) (S754_zero false)
              true None ["https://www.instagram.com/codehype_"])
    as (entries & Hdata & _ & Hlen & _).
  - vm_compute. reflexivity.
  - exists entries. split; [exact Hdata|exact Hlen].
Defined.

Lemma error_key_only_without_loop_witness :
  map fst (sample_run sample_urls) = result_keys.
Proof.
  refine (proj2 (error_key_only_without_loop
                   (canned sample_pages) (Ret tt) (fun _ => Ret VNone)
                   (fun _ _ => true) (S754_zero false) (S754_zero false)
                   true None sample_urls) sample_urls_not_nil _).
  by exists tt.
Defined.


(** * Further properties of the content type *)

Lemma py_get_raise (v : pyval) (k : string) (dflt : pyval) (e : exn) :
  py_get v k dflt = Raise e -> exn_class e = "AttributeError".
Proof. destruct v; cbn; by intros [= <-]. Qed.

Lemma determine_content_type_cases (url : string) (data : pyval) :
  (str_contains "/reel/" url = true ->
   _determine_content_type_from_url url data = Ret "video") /\
  (str_contains "/reel/" url = false -> str_contains "/p/" url = false ->
   _determine_content_type_from_url url data = Ret "profile") /\
  (forall content_type,
     _determine_content_type_from_url url data = Ret content_type ->
     known_type content_type /\
     (content_type = "article" \/
      content_type = "video" /\ str_contains "/reel/" url = false ->
      str_contains "/p/" url = true) /\
     (content_type = "profile" ->
      str_contains "/reel/" url = false /\ str_contains "/p/" url = false)) /\
  (forall e,
     _determine_content_type_from_url url data = Raise e ->
     exn_class e = "AttributeError" /\
     str_contains "/reel/" url = false /\ str_contains "/p/" url = true).
Proof.
  unfold _determine_content_type_from_url, known_type.
  destruct (str_contains "/reel/" url) eqn:Hreel.
  { split; [done|]. split; [done|]. split; [|done].
    intros ct [= <-]. split; [auto|].
    split; [intros [H|[_ H]]; discriminate H|intros H; discriminate H]. }
  destruct (str_contains "/p/" url) eqn:Hp.
  2:{ split; [done|]. split; [done|]. split; [|done].
      intros ct [= <-]. split; [auto|].
      split; [intros [H|[H _]]; discriminate H|done]. }
  split; [done|]. split; [done|]. split.
  - intros ct Hct.
    assert (Hct' : ct = "video" \/ ct = "article").
    { repeat match type of Hct with
             | _ ≫= _ = Ret _ =>
                 apply bind_ret_inv in Hct as (? & _ & Hct)
             end.
      injection Hct as <-. destruct (truthy _); tauto. }
    destruct Hct' as [-> | ->];
      (split; [auto|]; split; [done|intros H; discriminate H]).
  - intros e He. split; [|done].
    destruct (py_get data "meta_data" (VDict [])) as [meta|e1] eqn:H1;
      [|injection He as <-; by eapply py_get_raise].
    cbn [mbind res_bind] in He.
    destruct (py_get meta "content_type" VNone) as [ct|e2] eqn:H2;
      [|injection He as <-; by eapply py_get_raise].
    cbn [mbind res_bind] in He. unfold py_or in He. cbn [truthy] in He.
    destruct (eq_str ct "video"); [done|].
    destruct (py_get data "script_data" (VDict [])) as [script|e3] eqn:H3;
      [|injection He as <-; by eapply py_get_raise].
    cbn [mbind res_bind] in He.
    destruct (py_get script "is_video" VNone) as [iv|e4] eqn:H4;
      [|injection He as <-; by eapply py_get_raise].
    cbn [mbind res_bind] in He.
    destruct (truthy iv); [done|]. cbn [mbind res_bind] in He.
    destruct (py_get script "video_url" VNone) as [vu|e5] eqn:H5;
      [|injection He as <-; by eapply py_get_raise].
    done.
Qed.

(** X5: [_determine_content_type_from_url] looks at the data only for a
    URL with "/p/" and without "/reel/": a reel URL is a video and a URL
    with neither marker is a profile whatever the data is, even when the
    data is not a dictionary; a URL with both markers is a video; the
    result is always one of the three content types; and the only way it
    fails is an [AttributeError] on a post URL whose meta or script data
    is not a dictionary. *)
Theorem content_type_looks_at_data_for_posts_only (url : string)
    (data : pyval) :
  (str_contains "/reel/" url = true ->
   _determine_content_type_from_url url data = Ret "video") /\
  (str_contains "/reel/" url = false -> str_contains "/p/" url = false ->
   _determine_content_type_from_url url data = Ret "profile") /\
  (forall content_type,
     _determine_content_type_from_url url data = Ret content_type ->
     known_type content_type) /\
  (forall e,
     _determine_content_type_from_url url data = Raise e ->
     exn_class e = "AttributeError" /\
     str_contains "/reel/" url = false /\ str_contains "/p/" url = true).
Proof.
  destruct (determine_content_type_cases url data) as (H1 & H2 & H3 & H4).
  split; [exact H1|]. split; [exact H2|]. split; [|exact H4].
  intros ct Hct. by apply H3.
Qed.

Lemma content_type_looks_at_data_for_posts_only_witness :
  _determine_content_type_from_url
    "https://www.instagram.com/reel/CSb6-Rap2Ip/" VNone = Ret "video"
  /\ _determine_content_type_from_url
       "https://www.instagram.com/codehype_" (VInt 3) = Ret "profile".
Proof.
  split.
  - exact (proj1 (content_type_looks_at_data_for_posts_only
                    "https://www.instagram.com/reel/CSb6-Rap2Ip/" VNone)
                 eq_refl).
  - exact (proj1 (proj2 (content_type_looks_at_data_for_posts_only
                           "https://www.instagram.com/codehype_" (VInt 3)))
                 eq_refl eq_refl).
Defined.

(** X6: the content type that [main] lists for a URL is the one the
    scraper derives, except that the scraper may find a "/p/" URL to be a
    video where the listing says article. *)
Theorem listed_content_type_agrees (url : string) (data : pyval)
    (content_type : string) :
  _determine_content_type_from_url url data = Ret content_type ->
  content_type = listed_content_type url
  \/ (content_type = "video" /\ listed_content_type url = "article"
      /\ str_contains "/p/" url = true).
Proof.
  intros Hct.
  destruct (determine_content_type_cases url data) as (H1 & H2 & H3 & _).
  unfold listed_content_type.
  destruct (str_contains "/reel/" url) eqn:Hreel.
  { rewrite (H1 eq_refl) in Hct. injection Hct as <-.
    left. by rewrite andb_false_r. }
  destruct (str_contains "/p/" url) eqn:Hp.
  - cbn. destruct (H3 _ Hct) as ([-> | [-> | ->]] & _ & Hprofile).
    + by destruct (Hprofile eq_refl).
    + by left.
    + by right.
  - rewrite (H2 eq_refl eq_refl) in Hct. injection Hct as <-. by left.
Qed.

Lemma listed_content_type_agrees_witness :
  "video" = listed_content_type "https://www.instagram.com/p/second/"
  \/ ("video" = "video"
      /\ listed_content_type "https://www.instagram.com/p/second/"
         = "article"
      /\ str_contains "/p/" "https://www.instagram.com/p/second/" = true).
Proof.
  apply (listed_content_type_agrees
           "https://www.instagram.com/p/second/"
           (VDict [("script_data", VDict [("is_video", VBool true)])])).
  vm_compute. reflexivity.
Defined.


(** * Further properties of the entries *)

Section EntryKinds.

Context {St : Type}.
Variable extract_graphql_data : St -> string -> St * res pyval.

Implicit Types st : @loop_state St.

Lemma emit_typed i url content_type clean_entry st :
  known_type content_type ->
  dict_lookup "url" clean_entry = Some (VStr url) ->
  dict_lookup "content_type" clean_entry = Some (VStr content_type) ->
  Forall typed_entry (all_extracted_data st) ->
  Forall typed_entry (all_extracted_data (emit i url clean_entry st)).
Proof.
  intros Hknown Hurl Htype Hst. unfold emit.
  destruct (finish_entry clean_entry) as [entry|e] eqn:Hfinish; [|done].
  cbn. apply Forall_app. split; [done|]. apply Forall_singleton.
  exists url, content_type. split; [|done]. by exists clean_entry.
Qed.

Lemma chain_profile_typed i username user st :
  Forall typed_entry (all_extracted_data st) ->
  Forall typed_entry
    (all_extracted_data
       (chain_profile extract_graphql_data i username user st)).
Proof.
  intros Hst. rewrite chain_profile_log. cbn.
  apply Forall_app. split; [done|].
  destruct (chain_outcome _ _) as [entry|] eqn:Hout; [|done].
  apply Forall_singleton. eexists _, "profile"%string.
  split; [by eapply chain_outcome_built|]. by left.
Qed.

Lemma process_url_typed i url st :
  Forall typed_entry (all_extracted_data st) ->
  Forall typed_entry
    (all_extracted_data (process_url extract_graphql_data i url st)).
Proof.
  intros Hst. unfold process_url.
  destruct (extract_graphql_data (extractor st) url) as [x r].
  destruct (r ≫= _) as [[extracted_data error]|e]; [|done].
  destruct (truthy error); [done|].
  destruct (_determine_content_type_from_url url extracted_data)
    as [content_type|e] eqn:Hct; [|done].
  assert (Hknown : known_type content_type).
  { by apply (determine_content_type_cases url extracted_data). }
  destruct (String.eqb content_type "profile").
  { destruct (_ ≫= _) as [fields|e] eqn:Hfields; [|done].
    apply bind_ret_inv in Hfields as (user_data & _ & Hfields).
    destruct user_data; try done.
    rewrite (profile_entry_update _ _ _ _ Hfields).
    by apply (emit_typed _ _ content_type). }
  destruct (_ || _); [|by apply (emit_typed _ _ content_type)].
  destruct (post_fields extracted_data) as [[username fields]|e] eqn:Hpost;
    [|done].
  apply post_fields_dict in Hpost as (lc & cc & pd & cap & ->).
  destruct (truthy username); [|by apply (emit_typed _ _ content_type)].
  destruct (hash_key username) as [user|e]; [|done].
  destruct (decide _); [by apply (emit_typed _ _ content_type)|].
  apply (emit_typed _ _ content_type); [done..|].
  by apply chain_profile_typed.
Qed.

Lemma run_loop_typed i urls st :
  Forall typed_entry (all_extracted_data st) ->
  Forall typed_entry
    (all_extracted_data (run_loop extract_graphql_data i urls st)).
Proof.
  revert i st. induction urls as [|url urls IH]; intros i st Hst; [done|].
  cbn [run_loop]. by apply IH, process_url_typed.
Qed.

(** A URL that is neither a post nor a reel is processed without any
    chaining, and its entry, if any, is a profile entry. *)
Lemma process_url_profile i url st :
  profile_url url ->
  exists x last,
    process_url extract_graphql_data i url st
    = log_event last (with_extractor x st) /\
    ((exists error, last = Failed i (error_record i url error)) \/
     (exists entry, last = Emitted i entry /\ built url "profile" entry)).
Proof.
  intros [Hreel Hp]. unfold process_url.
  destruct (extract_graphql_data (extractor st) url) as [x r]. exists x.
  assert (Hfail : forall e, exists last,
    on_exception i url e (with_extractor x st)
    = log_event last (with_extractor x st) /\
    ((exists error, last = Failed i (error_record i url error)) \/
     (exists entry, last = Emitted i entry /\ built url "profile" entry))).
  { intros e. eexists. split; [apply append_error_log|]. left. eauto. }
  destruct (r ≫= _) as [[extracted_data error]|e]; [|apply Hfail].
  destruct (truthy error).
  { eexists. split; [apply append_error_log|]. left. eauto. }
  rewrite (proj1 (proj2 (determine_content_type_cases url extracted_data))
             Hreel Hp).
  change (String.eqb "profile" "profile") with true. cbv iota.
  destruct (_ ≫= _) as [fields|e] eqn:Hfields; [|apply Hfail].
  apply bind_ret_inv in Hfields as (user_data & _ & Hfields).
  destruct user_data; try done.
  rewrite (profile_entry_update _ _ _ _ Hfields). unfold emit.
  destruct (finish_entry _) as [entry|e] eqn:Hfinish; [|apply Hfail].
  eexists. split; [apply append_entry_log|]. right.
  exists entry. split; [done|]. eexists. split; [exact Hfinish|done].
Qed.

Lemma run_loop_profiles i urls st :
  Forall profile_url urls ->
  omap chained_user (history st) = [] ->
  processed_usernames st = ∅ ->
  Forall (fun entry =>
            dict_lookup "content_type" entry = Some (VStr "profile"))
         (all_extracted_data st) ->
  let st' := run_loop extract_graphql_data i urls st in
  omap chained_user (history st') = [] /\
  processed_usernames st' = ∅ /\
  Forall (fun entry =>
            dict_lookup "content_type" entry = Some (VStr "profile"))
         (all_extracted_data st').
Proof.
  revert i st. induction urls as [|url urls IH];
    intros i st Hurls Hh Hp Hd; [done|].
  apply Forall_cons in Hurls as [Hurl Hurls]. cbn [run_loop].
  destruct (process_url_profile i url st Hurl)
    as (x & last & -> & Hlast).
  apply IH; [done|..].
  - cbn. rewrite omap_app, Hh. cbn.
    by destruct Hlast as [(error & ->) | (entry & -> & _)].
  - done.
  - cbn. apply Forall_app. split; [done|].
    destruct Hlast as [(error & ->) | (entry & -> & Hbuilt)]; [done|].
    apply Forall_singleton. by apply (built_lookup url).
Qed.

End EntryKinds.

Section EntryKindsOfRun.

Context {St : Type}.
Variable extract_graphql_data : St -> string -> St * res pyval.
Variable start : res St.
Variable get_stealth_report : St -> res pyval.
Variable save_json : string -> list dict -> bool.
Variables total_time time_of_failure : spec_float.
Variable enable_anti_detection : bool.
Variable output_file : option string.

Let run := scrape extract_graphql_data start get_stealth_report save_json
                  total_time time_of_failure enable_anti_detection
                  output_file.

(** X7: every entry of the returned data has a [url] that is a string
    and a [content_type] that is "profile", "article" or "video"; so the
    breakdown of the summary has no other key, and never the fallback
    key "unknown". *)
Theorem entries_have_url_and_known_type urls entries :
  lookup_key "data" (run urls) = Some (OList entries) ->
  (forall entry, entry ∈ entries ->
     exists url content_type,
       dict_lookup "url" entry = Some (VStr url) /\
       dict_lookup "content_type" entry = Some (VStr content_type) /\
       known_type content_type) /\
  (forall k, (0 < type_count k entries)%nat ->
     exists content_type,
       k = Some (inr content_type) /\ known_type content_type).
Proof.
  intros Hdata.
  assert (Htyped : Forall typed_entry entries).
  { apply scrape_data in Hdata as [-> | (x & _ & ->)]; [done|].
    by apply run_loop_typed. }
  assert (Hentries : forall entry, entry ∈ entries ->
     exists url content_type,
       dict_lookup "url" entry = Some (VStr url) /\
       dict_lookup "content_type" entry = Some (VStr content_type) /\
       known_type content_type).
  { intros entry Hentry.
    rewrite Forall_forall in Htyped.
    destruct (Htyped entry Hentry) as (url & ct & Hbuilt & Hknown).
    exists url, ct. destruct (built_lookup url ct entry Hbuilt). done. }
  split; [exact Hentries|].
  intros k Hk. unfold type_count in Hk.
  destruct (List.filter (has_type k) entries) as [|entry rest] eqn:Hf;
    [cbn in Hk; lia|].
  assert (Hin : In entry (List.filter (has_type k) entries))
    by (rewrite Hf; by left).
  apply filter_In in Hin as [Hin Hhas]. apply list_elem_of_In in Hin.
  destruct (Hentries entry Hin) as (url & ct & _ & Hct & Hknown).
  exists ct. split; [|done]. unfold has_type in Hhas.
  rewrite Hct in Hhas. cbn in Hhas.
  by apply bool_decide_eq_true_1 in Hhas.
Qed.

(** X8: a run over URLs that are neither posts nor reels never chains:
    no chained extraction is attempted, no username is recorded, every
    entry is a profile entry, and entries and errors together are as
    many as the URLs. *)
Theorem profile_urls_never_chain urls (x : St) :
  Forall profile_url urls ->
  let st := run_loop extract_graphql_data 1 urls (initial_state x) in
  omap chained_user (history st) = [] /\
  processed_usernames st = ∅ /\
  Forall (fun entry =>
            dict_lookup "content_type" entry = Some (VStr "profile"))
         (all_extracted_data st) /\
  (length (all_extracted_data st) + length (errors st) = length urls)%nat.
Proof.
  intros Hurls. cbn zeta.
  destruct (run_loop_profiles extract_graphql_data 1 urls (initial_state x)
              Hurls eq_refl eq_refl (Forall_nil_2 _))
    as (Hh & Hp & Hd).
  split; [exact Hh|]. split; [exact Hp|]. split; [exact Hd|].
  pose proof (run_loop_counts extract_graphql_data urls x) as (Hacc & _).
  cbn zeta in Hacc.
  pose proof (history_chained_le
                (history (run_loop extract_graphql_data 1 urls
                            (initial_state x)))) as Hle.
  rewrite Hh in Hle. cbn in Hle. lia.
Qed.

End EntryKindsOfRun.

Lemma entries_have_url_and_known_type_witness :
  exists url content_type,
    dict_lookup "url"
      [("url", VStr "https://www.instagram.com/p/DMsercXMVeZ/");
       ("content_type", VStr "article"); ("likes_count", VStr "7");
       ("username", VStr "bob"); ("caption", VStr "hi");
       ("business_email", VNone); ("business_phone_number", VNone);
       ("business_category_name", VNone)] = Some (VStr url) /\
    dict_lookup "content_type"
      [("url", VStr "https://www.instagram.com/p/DMsercXMVeZ/");
       ("content_type", VStr "article"); ("likes_count", VStr "7");
       ("username", VStr "bob"); ("caption", VStr "hi");
       ("business_email", VNone); ("business_phone_number", VNone);
       ("business_category_name", VNone)] = Some (VStr content_type) /\
    known_type content_type.
Proof.
  refine (proj1 (entries_have_url_and_known_type
                   (canned sample_pages) (Ret tt) (fun _ => Ret VNone)
                   (fun _ _ => true) (S754_zero false) (S754_zero false)
                   true None
                   ["https://www.instagram.com/p/DMsercXMVeZ/"] _ _) _ _).
  - vm_compute. reflexivity.
  - apply list_elem_of_further, list_elem_of_here.
Defined.

Lemma profile_urls_never_chain_witness :
  processed_usernames
    (sample_loop ["https://www.instagram.com/codehype_";
                  "https://www.instagram.com/90svogue.__"]) = ∅.
Proof.
  refine (proj1 (proj2 (profile_urls_never_chain (canned sample_pages)
                          ["https://www.instagram.com/codehype_";
                           "https://www.instagram.com/90svogue.__"] tt _))).
  repeat constructor.
Defined.


(** * Further properties of the business fields *)

(** X9: the scan of the biography never replaces an e-mail that the
    entry already has, and without a biography text the e-mail is left as
    it was (null when missing or empty): the closing steps change
    [business_email] only when it is falsy and the biography is a
    non-empty string in which the pattern matches (the last part for a
    biography of ASCII text). *)
Theorem business_email_changes_only_by_match (raw entry : dict) :
  finish_entry raw = Ret entry ->
  (forall v, dict_lookup "business_email" raw = Some v -> truthy v = true ->
             dict_lookup "business_email" entry = Some v) /\
  (truthy (field raw "biography") = false ->
   dict_lookup "business_email" entry
   = Some (business_value raw "business_email")) /\
  (forall text, dict_lookup "biography" raw = Some (VStr text) ->
                ascii_text text ->
                re_search email_pattern text = None ->
                dict_lookup "business_email" entry
                = Some (business_value raw "business_email")).
Proof.
  intros Hfinish.
  destruct (finish_entry_business raw entry Hfinish)
    as (_ & _ & Hemail & _).
  split; [|split].
  - intros v Hv Htruthy.
    assert (Hbv : business_value raw "business_email" = v).
    { unfold business_value. rewrite Hv.
      destruct v as [| | |s| |]; try done. cbn in *.
      by destruct (String.eqb s EmptyString). }
    destruct Hemail as [-> | (Hfalsy & _)]; [by rewrite Hbv|].
    rewrite Hbv in Hfalsy. congruence.
  - intros Hbio.
    destruct Hemail as [-> | (_ & text & email & Hb & Hs & _)]; [done|].
    unfold field in Hbio. rewrite Hb in Hbio. cbn in Hbio.
    destruct text; [|done]. by vm_compute in Hs.
  - intros text Hb _ Hnone.
    destruct Hemail as [-> | (_ & text' & email & Hb' & Hs & _)]; [done|].
    rewrite Hb in Hb'. injection Hb' as <-. congruence.
Qed.

Lemma business_email_changes_only_by_match_witness :
  dict_lookup "business_email"
    [("url", VStr "u"); ("business_email", VStr "shop@example.com");
     ("biography", VStr "write to a@b.com");
     ("business_phone_number", VNone); ("business_category_name", VNone)]
  = Some (VStr "shop@example.com")
  /\ dict_lookup "business_email"
       [("url", VStr "u"); ("biography", VStr "no address here");
        ("business_email", VNone); ("business_phone_number", VNone);
        ("business_category_name", VNone)]
     = Some VNone.
Proof.
  split.
  - refine (proj1 (business_email_changes_only_by_match
                     [("url", VStr "u");
                      ("business_email", VStr "shop@example.com");
                      ("biography", VStr "write to a@b.com")] _ _)
                  _ eq_refl eq_refl).
    vm_compute. reflexivity.
  - refine (proj2 (proj2 (business_email_changes_only_by_match
                            [("url", VStr "u");
                             ("biography", VStr "no address here")] _ _))
                  "no address here"%string eq_refl _ _);
      vm_compute; reflexivity.
Defined.

(** X10: an article or video entry never carries business data: it has
    no biography to scan, so its three business fields are all null. *)
Theorem post_entry_business_fields_null (url content_type : pyval)
    (extracted_data username : pyval) (fields entry : dict) :
  post_fields extracted_data = Ret (username, fields) ->
  finish_entry (dict_update [("url", url); ("content_type", content_type)]
                            fields) = Ret entry ->
  dict_lookup "business_email" entry = Some VNone /\
  dict_lookup "business_phone_number" entry = Some VNone /\
  dict_lookup "business_category_name" entry = Some VNone /\
  dict_lookup "biography" entry = None.
Proof.
  intros Hpost Hfinish.
  apply post_fields_dict in Hpost as (lc & cc & pd & cap & ->).
  destruct (finish_entry_business _ entry Hfinish)
    as (Hphone & Hcat & Hemail & _).
  split; [|split; [exact Hphone|split; [exact Hcat|]]].
  - destruct Hemail as [-> | (_ & text & email & Hb & _)]; [done|].
    discriminate Hb.
  - assert (Hnodup : NoDup (map fst
              (dict_update [("url", url); ("content_type", content_type)]
                 [("likes_count", lc); ("comments_count", cc);
                  ("username", username); ("post_date", pd);
                  ("caption", cap)])))
      by (by apply (bool_decide_unpack _)).
    by rewrite (finish_entry_lookup "biography" _ _ Hfinish Hnodup).
Qed.

Lemma post_entry_business_fields_null_witness :
  dict_lookup "business_email"
    [("url", VStr "https://www.instagram.com/p/DMsercXMVeZ/");
     ("content_type", VStr "article"); ("likes_count", VStr "7");
     ("username", VStr "bob"); ("caption", VStr "hi");
     ("business_email", VNone); ("business_phone_number", VNone);
     ("business_category_name", VNone)] = Some VNone.
Proof.
  refine (proj1 (post_entry_business_fields_null
                   (VStr "https://www.instagram.com/p/DMsercXMVeZ/")
                   (VStr "article")
                   (VDict [("meta_data",
                            VDict [("username", VStr "bob");
                                   ("likes_count", VInt 0)]);
                           ("script_data",
                            VDict [("likes", VInt 7);
                                   ("caption", VStr "hi")])])
                   (VStr "bob") _ _ _ _)).
  - vm_compute. reflexivity.
  - vm_compute. reflexivity.
Defined.


(** * The search for an e-mail in the biography *)

Lemma first_down_Some (f : nat -> option nat) (lo n r : nat) :
  first_down f lo n = Some r ->
  exists k, (lo <= k <= n)%nat /\ f k = Some r.
Proof.
  induction n as [|n IH]; cbn [first_down].
  - destruct (Nat.ltb_spec 0 lo); [done|].
    destruct (f O) eqn:Hf; [|done]. intros [= <-]. exists O. split; [lia|done].
  - destruct (Nat.ltb_spec (S n) lo); [done|].
    destruct (f (S n)) eqn:Hf.
    + intros [= <-]. exists (S n). split; [lia|done].
    + intros H'. destruct (IH H') as (k & Hk & Hfk). exists k. split; [lia|done].
Qed.

Lemma first_down_is_Some (f : nat -> option nat) (lo n k : nat) :
  (lo <= k <= n)%nat -> is_Some (f k) -> is_Some (first_down f lo n).
Proof.
  intros Hk Hf. induction n as [|n IH]; cbn [first_down].
  - assert (k = O) as -> by lia.
    destruct (Nat.ltb_spec 0 lo); [lia|]. destruct Hf as [r ->]. by eexists.
  - destruct (Nat.ltb_spec (S n) lo); [lia|].
    destruct (f (S n)) eqn:Hfn; [by eexists|].
    apply IH. destruct (decide (k = S n)) as [->|Hne]; [|lia].
    rewrite Hfn in Hf. by destruct Hf.
Qed.

Lemma run_length_take (p : ascii -> bool) (s : list ascii) (k : nat) :
  (k <= run_length p s)%nat ->
  forallb p (take k s) = true /\ length (take k s) = k.
Proof.
  revert k. induction s as [|c s IH]; intros k Hk; cbn in Hk.
  - assert (k = O) as -> by lia. done.
  - destruct k as [|k]; [done|]. destruct (p c) eqn:Hc; [|lia].
    destruct (IH k ltac:(lia)) as [H1 H2]. cbn. rewrite Hc, H1, H2. done.
Qed.

Lemma run_length_app (p : ascii -> bool) (l rest : list ascii) :
  forallb p l = true -> (length l <= run_length p (l ++ rest))%nat.
Proof.
  induction l as [|c l IH]; cbn; [lia|].
  intros H. apply andb_prop in H as [-> H]. specialize (IH H). lia.
Qed.

Lemma last_seen_nonempty (prev : option ascii) (l : list ascii) :
  l <> [] -> last_seen prev l = last l.
Proof.
  intros Hl. unfold last_seen. destruct (last l) eqn:Hlast; [done|].
  by apply last_None in Hlast.
Qed.

(** What a match of the pattern at the start of [s] is made of. *)
Lemma match_here_email_sound (prev : option ascii) (s : list ascii) (n : nat) :
  match_here email_pattern prev s = Some n ->
  exists loc domain tld rest,
    s = (loc ++ "@"%char :: domain ++ "."%char :: tld) ++ rest /\
    n = length (loc ++ "@"%char :: domain ++ "."%char :: tld) /\
    loc <> [] /\ forallb local_class loc = true /\
    domain <> [] /\ forallb domain_class domain = true /\
    (2 <= length tld)%nat /\ forallb tld_class tld = true /\
    at_boundary prev (head s) = true /\
    at_boundary (last tld) (head rest) = true.
Proof.
  unfold email_pattern. cbn [match_here].
  destruct (at_boundary prev (head s)) eqn:Hb0; [|done]. intros H.
  apply first_down_Some in H as (k1 & Hk1 & H).
  destruct (run_length_take _ _ _ (proj2 Hk1)) as [Hloc Hlen1].
  destruct (drop k1 s) as [|x s2] eqn:Hs2; [done|].
  destruct (Ascii.eqb_spec x "@") as [->|]; [|done].
  apply fmap_Some in H as (n2 & H & ->).
  apply fmap_Some in H as (n3 & H & ->).
  apply first_down_Some in H as (k2 & Hk2 & H).
  destruct (run_length_take _ _ _ (proj2 Hk2)) as [Hdom Hlen2].
  destruct (drop k2 s2) as [|y s3] eqn:Hs3; [done|].
  destruct (Ascii.eqb_spec y ".") as [->|]; [|done].
  apply fmap_Some in H as (n4 & H & ->).
  apply fmap_Some in H as (n5 & H & ->).
  apply first_down_Some in H as (k3 & Hk3 & H).
  destruct (run_length_take _ _ _ (proj2 Hk3)) as [Htld Hlen3].
  apply fmap_Some in H as (n6 & H & ->).
  destruct (at_boundary _ (head (drop k3 s3))) eqn:Hb1; [|done].
  injection H as <-.
  exists (take k1 s), (take k2 s2), (take k3 s3), (drop k3 s3).
  assert (Hne3 : take k3 s3 <> []) by (intros E; rewrite E in Hlen3; cbn in *; lia).
  rewrite last_seen_nonempty in Hb1 by done.
  split.
  { rewrite <- (take_drop k1 s) at 1. rewrite Hs2.
    rewrite <- (take_drop k2 s2) at 1. rewrite Hs3.
    rewrite <- (take_drop k3 s3) at 1.
    by rewrite <- !app_assoc, <- !app_comm_cons, <- !app_assoc. }
  split.
  { rewrite length_app, length_cons, length_app, length_cons.
    rewrite Hlen1, Hlen2, Hlen3. lia. }
  split; [intros E; rewrite E in Hlen1; cbn in *; lia|].
  split; [done|].
  split; [intros E; rewrite E in Hlen2; cbn in *; lia|].
  split; [done|]. split; [lia|]. done.
Qed.

(** A text of the pattern's shape between two boundaries is matched,
    by this or by a longer match. *)
Lemma match_here_email_complete (prev : option ascii)
    (loc domain tld rest : list ascii) :
  loc <> [] -> forallb local_class loc = true ->
  domain <> [] -> forallb domain_class domain = true ->
  (2 <= length tld)%nat -> forallb tld_class tld = true ->
  at_boundary prev
    (head ((loc ++ "@"%char :: domain ++ "."%char :: tld) ++ rest)) = true ->
  at_boundary (last tld) (head rest) = true ->
  is_Some (match_here email_pattern prev
             ((loc ++ "@"%char :: domain ++ "."%char :: tld) ++ rest)).
Proof.
  intros Hloc1 Hloc Hdom1 Hdom Htld1 Htld Hb0 Hb1.
  unfold email_pattern. cbn [match_here]. rewrite Hb0.
  rewrite <- !app_assoc, <- !app_comm_cons, <- !app_assoc,
    <- !app_comm_cons.
  eapply (first_down_is_Some _ _ _ (length loc)).
  { split; [destruct loc; [done|cbn; lia]|by apply run_length_app]. }
  rewrite drop_app_length. cbn [Ascii.eqb]. 
  change (Ascii.eqb "@" "@") with true. cbv iota.
  apply fmap_is_Some, fmap_is_Some.
  eapply (first_down_is_Some _ _ _ (length domain)).
  { split; [destruct domain; [done|cbn; lia]|by apply run_length_app]. }
  rewrite drop_app_length.
  change (Ascii.eqb "." ".") with true. cbv iota.
  apply fmap_is_Some, fmap_is_Some.
  eapply (first_down_is_Some _ _ _ (length tld)).
  { split; [lia|by apply run_length_app]. }
  rewrite drop_app_length, take_app_length.
  rewrite last_seen_nonempty by (destruct tld; [cbn in *; lia|done]).
  rewrite Hb1. by eexists.
Qed.

Lemma substring_take_drop (pos n : nat) (s : string) :
  list_ascii_of_string (String.substring pos n s)
  = take n (drop pos (list_ascii_of_string s)).
Proof.
  revert pos n. induction s as [|c s IH]; intros pos n.
  - destruct pos, n; reflexivity.
  - destruct pos as [|pos].
    + destruct n as [|n]; [reflexivity|]. cbn. by rewrite IH.
    + cbn. apply IH.
Qed.

(** [search_from] returns the first position, from left to right, at which
    [match_here] succeeds. *)
Lemma search_from_Some (items : list re_item) (pre s : list ascii)
    (p n : nat) :
  search_from items (last pre) s (length pre) = Some (p, n) ->
  exists k, p = (length pre + k)%nat /\ (k <= length s)%nat /\
    match_here items (last (pre ++ take k s)) (drop k s) = Some n /\
    forall j, (j < k)%nat ->
      match_here items (last (pre ++ take j s)) (drop j s) = None.
Proof.
  revert pre. induction s as [|x s IH]; intros pre; cbn [search_from].
  - destruct (match_here items (last pre) []) eqn:Hm; [|done].
    intros [= <- <-]. exists O. cbn. rewrite app_nil_r.
    repeat split; [lia|lia|done|lia].
  - destruct (match_here items (last pre) (x :: s)) eqn:Hm.
    + intros [= <- <-]. exists O. cbn. rewrite app_nil_r.
      repeat split; [lia|lia|done|lia].
    + intros H. specialize (IH (pre ++ [x])).
      rewrite last_snoc, length_app in IH. cbn in IH.
      rewrite Nat.add_1_r in IH. destruct (IH H) as (k & -> & Hk & Hmk & Hlt).
      exists (S k). cbn [take drop length].
      rewrite <- app_assoc in Hmk. cbn in Hmk.
      repeat split; [lia|lia|done|].
      intros [|j] Hj; cbn [take drop]; [by rewrite app_nil_r|].
      specialize (Hlt j ltac:(lia)). by rewrite <- app_assoc in Hlt.
Qed.

Lemma search_from_None (items : list re_item) (pre s : list ascii) :
  search_from items (last pre) s (length pre) = None ->
  forall k, (k <= length s)%nat ->
    match_here items (last (pre ++ take k s)) (drop k s) = None.
Proof.
  revert pre. induction s as [|x s IH]; intros pre; cbn [search_from].
  - destruct (match_here items (last pre) []) eqn:Hm; [done|].
    intros _ k Hk. cbn in Hk. assert (k = O) as -> by lia.
    cbn. by rewrite app_nil_r.
  - destruct (match_here items (last pre) (x :: s)) eqn:Hm; [done|].
    intros H [|k] Hk; cbn [take drop]; [by rewrite app_nil_r|].
    specialize (IH (pre ++ [x])).
    rewrite last_snoc, length_app in IH. cbn in IH.
    rewrite Nat.add_1_r in IH. specialize (IH H k ltac:(cbn in Hk; lia)).
    by rewrite <- app_assoc in IH.
Qed.

Lemma match_at_sound (text : list ascii) (pos n : nat) :
  (pos <= length text)%nat ->
  match_here email_pattern (last (take pos text)) (drop pos text) = Some n ->
  pattern_match_at text pos n.
Proof.
  intros Hpos H.
  apply match_here_email_sound in H
    as (loc & domain & tld & rest & Hs & -> & H1 & H2 & H3 & H4 & H5 & H6
        & Hb0 & Hb1).
  set (m := loc ++ "@"%char :: domain ++ "."%char :: tld) in *.
  assert (Htake : take (length m) (drop pos text) = m)
    by (rewrite Hs; apply take_app_length).
  assert (Hdrop : drop (pos + length m) text = rest).
  { rewrite <- drop_drop, Hs. apply drop_app_length. }
  assert (Hlast : last (take (pos + length m) text) = last tld).
  { rewrite <- take_take_drop, Htake.
    subst m. rewrite !last_app.
    destruct tld as [|t tld]; [cbn in H5; lia|].
    change (last ("."%char :: t :: tld)) with (last (t :: tld)).
    destruct (last (t :: tld)) eqn:E; [|by apply last_None in E].
    rewrite last_cons. rewrite last_app, last_cons, E. done. }
  split; [|split; [|split]].
  - rewrite Htake. by exists loc, domain, tld.
  - pose proof (f_equal length Hs) as Hl.
    rewrite length_drop, length_app in Hl. lia.
  - done.
  - by rewrite Hlast, Hdrop.
Qed.

Lemma match_at_complete (text : list ascii) (pos len : nat) :
  pattern_match_at text pos len ->
  is_Some (match_here email_pattern (last (take pos text)) (drop pos text)).
Proof.
  intros ((loc & domain & tld & Hs & H1 & H2 & H3 & H4 & H5 & H6)
          & Hlen & Hb0 & Hb1).
  set (m := loc ++ "@"%char :: domain ++ "."%char :: tld) in *.
  assert (Hm : length m = len).
  { rewrite <- Hs, length_take, length_drop. lia. }
  assert (Hsplit : drop pos text = m ++ drop (pos + len) text).
  { rewrite <- (take_drop len (drop pos text)) at 1.
    by rewrite Hs, drop_drop. }
  assert (Hlast : last (take (pos + len) text) = last tld).
  { rewrite <- take_take_drop, Hs.
    subst m. rewrite !last_app.
    destruct tld as [|t tld]; [cbn in H5; lia|].
    change (last ("."%char :: t :: tld)) with (last (t :: tld)).
    destruct (last (t :: tld)) eqn:E; [|by apply last_None in E].
    rewrite last_cons. rewrite last_app, last_cons, E. done. }
  subst m. rewrite Hsplit. apply match_here_email_complete; try done.
  - by rewrite <- Hsplit.
  - by rewrite <- Hlast.
Qed.

(** X11: an e-mail that the search finds in a biography of ASCII text
    is a substring of the pattern's shape (local part, [@], domain, dot,
    two or more characters of the last class) between two word
    boundaries, and no substring of that shape starts further to the
    left. *)
Theorem found_email_is_leftmost_match (text email : string) :
  ascii_text text ->
  re_search email_pattern text = Some email ->
  exists pos len,
    email = String.substring pos len text /\
    pattern_match_at (list_ascii_of_string text) pos len /\
    forall pos' len', (pos' < pos)%nat ->
      ~ pattern_match_at (list_ascii_of_string text) pos' len'.
Proof.
  intros _. unfold re_search.
  destruct (search_from _ _ _ _) as [[p n]|] eqn:Hs; [|done].
  intros [= <-].
  apply (search_from_Some _ []) in Hs as (k & -> & Hk & Hm & Hlt).
  cbn [app length Nat.add] in *.
  exists k, n. split; [done|]. split; [by apply match_at_sound|].
  intros pos' len' Hpos' Hat.
  apply match_at_complete in Hat as [r Hr].
  rewrite (Hlt pos' Hpos') in Hr. done.
Qed.

Lemma found_email_is_leftmost_match_witness :
  re_search email_pattern "mail me: a.b@c-d.org, thanks"
  = Some "a.b@c-d.org"%string
  /\ exists pos len,
       "a.b@c-d.org"%string
       = String.substring pos len "mail me: a.b@c-d.org, thanks" /\
       pattern_match_at
         (list_ascii_of_string "mail me: a.b@c-d.org, thanks") pos len /\
       forall pos' len', (pos' < pos)%nat ->
         ~ pattern_match_at
             (list_ascii_of_string "mail me: a.b@c-d.org, thanks") pos' len'.
Proof.
  split; [vm_compute; reflexivity|].
  apply (found_email_is_leftmost_match "mail me: a.b@c-d.org, thanks");
    vm_compute; reflexivity.
Defined.

(** X12: the search leaves a biography of ASCII text without an e-mail
    exactly when no substring of it has the pattern's shape between two
    word boundaries. *)
Theorem no_email_iff_no_match (text : string) :
  ascii_text text ->
  (re_search email_pattern text = None <->
   forall pos len, ~ pattern_match_at (list_ascii_of_string text) pos len).
Proof.
  intros _. unfold re_search. split.
  - destruct (search_from _ _ _ _) as [[p n]|] eqn:Hs; [done|]. intros _.
    intros pos len Hat.
    pose proof (search_from_None _ [] _ Hs pos) as Hn.
    cbn [app] in Hn.
    destruct Hat as (Hshape & Hlen & Hrest).
    assert (Hat : pattern_match_at (list_ascii_of_string text) pos len)
      by done.
    apply match_at_complete in Hat as [r Hr].
    rewrite Hn in Hr by lia. done.
  - intros Hno.
    destruct (search_from _ _ _ _) as [[p n]|] eqn:Hs; [|done].
    apply (search_from_Some _ []) in Hs as (k & -> & Hk & Hm & _).
    cbn [app length Nat.add] in *.
    destruct (Hno k n). by apply match_at_sound.
Qed.


Lemma no_email_iff_no_match_witness :
  re_search email_pattern "no address here" = None
  /\ forall pos len,
       ~ pattern_match_at (list_ascii_of_string "no address here") pos len.
Proof.
  split; [vm_compute; reflexivity|].
  apply (proj1 (no_email_iff_no_match "no address here"
                  ltac:(vm_compute; reflexivity))).
  vm_compute. reflexivity.
Defined.

(** * Further properties of [_format_count] *)

Lemma format_count_K (n : Z) :
  1000 <= n < 1000000 ->
  _format_count (VInt n)
  = Ret (VStr (abbreviated (quotient_tenths n 1000) "K")).
Proof.
  intros Hn. unfold _format_count. cbn [py_int].
  assert (Hdl : 1000000 <= double_limit) by (vm_compute; discriminate).
  destruct (Z.leb_spec 1000000 n); [lia|].
  destruct (Z.leb_spec 1000 n); [|lia].
  destruct (int_quotient_normal n 1000) as (m & e & _ & -> & ->); [nia..|].
  cbn. f_equal. f_equal.
  apply one_decimal_stripped; [apply tenths_nonneg|by left].
Qed.

Lemma format_count_M (n : Z) :
  1000000 <= n < 1000000 * double_limit ->
  _format_count (VInt n)
  = Ret (VStr (abbreviated (quotient_tenths n 1000000) "M")).
Proof.
  intros Hn. unfold _format_count. cbn [py_int].
  destruct (Z.leb_spec 1000000 n); [|lia].
  destruct (int_quotient_normal n 1000000) as (m & e & _ & -> & ->); [lia..|].
  cbn. f_equal. f_equal.
  apply one_decimal_stripped; [apply tenths_nonneg|by right].
Qed.

(** X13: a count that is a whole number of hundreds below one million,
    or a whole number of hundred thousands from one million on (up to
    [2^34] millions), is shown exactly: its tenths of the unit, without
    rounding. *)
Theorem format_count_round_hundreds (k : Z) :
  (10 <= k < 10000 ->
   _format_count (VInt (100 * k)) = Ret (VStr (abbreviated k "K"))) /\
  (10 <= k < 10 * 2 ^ 34 ->
   _format_count (VInt (100000 * k)) = Ret (VStr (abbreviated k "M"))).
Proof.
  assert (H34 : 2 ^ 34 = 17179869184) by reflexivity.
  split; intros Hk.
  - rewrite format_count_K by lia. do 3 f_equal.
    pose proof (quotient_tenths_nearest (100 * k) 1000 ltac:(by left)
                  ltac:(lia) ltac:(lia)) as Hn.
    lia.
  - assert (Hdl : 2 ^ 34 <= double_limit) by (vm_compute; discriminate).
    rewrite format_count_M by lia. do 3 f_equal.
    pose proof (quotient_tenths_nearest (100000 * k) 1000000 ltac:(by right)
                  ltac:(lia) ltac:(lia)) as Hn.
    lia.
Qed.

Lemma format_count_round_hundreds_witness :
  _format_count (VInt (100 * 165)) = Ret (VStr (abbreviated 165 "K")) /\
  _format_count (VInt (100000 * 20)) = Ret (VStr (abbreviated 20 "M")).
Proof.
  split.
  - apply (proj1 (format_count_round_hundreds 165)). lia.
  - apply (proj2 (format_count_round_hundreds 20)).
    split; [lia|vm_compute; reflexivity].
Defined.

(** X14: the last fifty counts below one million are shown as [1000K]:
    the quotient by 1000 rounds up to [1000.0] and the unit stays K. *)
Theorem format_count_just_below_million (n : Z) :
  999950 <= n < 1000000 ->
  _format_count (VInt n) = Ret (VStr "1000K").
Proof.
  intros Hn. destruct (Z.eq_dec n 999950) as [->|Hne].
  - vm_compute. reflexivity.
  - rewrite format_count_K by lia.
    assert (H34 : 2 ^ 34 = 17179869184) by reflexivity.
    pose proof (quotient_tenths_nearest n 1000 ltac:(by left)
                  ltac:(lia) ltac:(lia)) as Hq.
    assert (quotient_tenths n 1000 = 10000) as -> by lia.
    vm_compute. reflexivity.
Qed.

Lemma format_count_just_below_million_witness :
  _format_count (VInt 999987) = Ret (VStr "1000K").
Proof. apply format_count_just_below_million. lia. Defined.

(** ** Counts given as decimal text *)

Lemma int_strip_no_space (l : list ascii) :
  Forall (fun c => is_int_space c = false) l -> int_strip l = l.
Proof.
  assert (Hl : forall l', Forall (fun c => is_int_space c = false) l' ->
                 int_lstrip l' = l').
  { intros l' H. destruct H as [|c l' Hc _]; [done|]. cbn. by rewrite Hc. }
  intros H. unfold int_strip. rewrite (Hl l H).
  rewrite (Hl (rev l)) by (by apply Forall_rev). apply rev_involutive.
Qed.

Lemma uint_chars_no_space (d : Decimal.uint) :
  Forall (fun c => is_int_space c = false)
         (list_ascii_of_string (NilEmpty.string_of_uint d)).
Proof. induction d; cbn; constructor; done. Qed.

Lemma int_digits_digit (acc v : Z) (c : ascii) (l : list ascii) :
  is_digit c = true -> Z.of_nat (nat_of_ascii c) - 48 = v ->
  int_digits acc false (c :: l) = int_digits (10 * acc + v) false l.
Proof. intros Hc <-. cbn [int_digits]. by rewrite Hc. Qed.

Lemma int_digits_acc (d : Decimal.uint) (acc : positive) :
  int_digits (Zpos acc) false
             (list_ascii_of_string (NilEmpty.string_of_uint d))
  = Some (Zpos (Pos.of_uint_acc d acc)).
Proof.
  revert acc.
  induction d as [|d IH|d IH|d IH|d IH|d IH|d IH|d IH|d IH|d IH|d IH];
    intros acc;
    cbn [NilEmpty.string_of_uint list_ascii_of_string Pos.of_uint_acc];
    [reflexivity|..].
  1: rewrite (int_digits_digit _ 0) by reflexivity.
  2: rewrite (int_digits_digit _ 1) by reflexivity.
  3: rewrite (int_digits_digit _ 2) by reflexivity.
  4: rewrite (int_digits_digit _ 3) by reflexivity.
  5: rewrite (int_digits_digit _ 4) by reflexivity.
  6: rewrite (int_digits_digit _ 5) by reflexivity.
  7: rewrite (int_digits_digit _ 6) by reflexivity.
  8: rewrite (int_digits_digit _ 7) by reflexivity.
  9: rewrite (int_digits_digit _ 8) by reflexivity.
  10: rewrite (int_digits_digit _ 9) by reflexivity.
  all: rewrite <- IH; f_equal; lia.
Qed.

Lemma int_digits_uint (d : Decimal.uint) :
  int_digits 0 false (list_ascii_of_string (NilEmpty.string_of_uint d))
  = Some (Z.of_N (Pos.of_uint d)).
Proof.
  induction d as [|d IH|d IH|d IH|d IH|d IH|d IH|d IH|d IH|d IH|d IH];
    cbn [NilEmpty.string_of_uint list_ascii_of_string Pos.of_uint];
    [reflexivity|..].
  1: rewrite (int_digits_digit _ 0) by reflexivity.
  2: rewrite (int_digits_digit _ 1) by reflexivity.
  3: rewrite (int_digits_digit _ 2) by reflexivity.
  4: rewrite (int_digits_digit _ 3) by reflexivity.
  5: rewrite (int_digits_digit _ 4) by reflexivity.
  6: rewrite (int_digits_digit _ 5) by reflexivity.
  7: rewrite (int_digits_digit _ 6) by reflexivity.
  8: rewrite (int_digits_digit _ 7) by reflexivity.
  9: rewrite (int_digits_digit _ 8) by reflexivity.
  10: rewrite (int_digits_digit _ 9) by reflexivity.
  1: exact IH.
  all: cbn [Z.mul Z.add]; apply int_digits_acc.
Qed.

Lemma int_unsigned_uint (p : positive) :
  Zpos p < 10 ^ 4300 ->
  int_unsigned
    (list_ascii_of_string (NilZero.string_of_uint (Pos.to_uint p)))
  = Some (Zpos p)
  /\ exists c l,
       list_ascii_of_string (NilZero.string_of_uint (Pos.to_uint p)) = c :: l
       /\ is_digit c = true.
Proof.
  intros Hlt.
  pose proof (Unsigned.of_to p) as Hp.
  pose proof (int_digits_uint (Pos.to_uint p)) as Hd.
  pose proof (to_uint_digits p 4300 Hlt) as Hk.
  rewrite <- uint_digit_count in Hk. apply Nat.leb_le in Hk.
  rewrite Hp in Hd. cbn [Z.of_N] in Hd.
  destruct (Pos.to_uint p) as [|d|d|d|d|d|d|d|d|d|d]; [discriminate Hp|..].
  all: (split; [|eexists _, _; split; reflexivity]).
  all: unfold int_unsigned, NilZero.string_of_uint, int_max_str_digits.
  all: rewrite Hk; exact Hd.
Qed.

(** [int] reads back the decimal text of an integer of at most 4300
    digits. *)
Lemma int_of_str_of_Z (n : Z) :
  Z.abs n < 10 ^ 4300 -> int_of_str (str_of_Z n) = Some n.
Proof.
  intros Hn.
  unfold str_of_Z, int_of_str. destruct n as [|p|p]; [reflexivity|..];
    cbn [Z.to_int NilZero.string_of_int list_ascii_of_string];
    destruct (int_unsigned_uint p Hn) as (Hv & c & l & Hl & Hc).
  - rewrite int_strip_no_space.
    + rewrite Hl in *.
      destruct c as [[] [] [] [] [] [] [] []]; try discriminate Hc;
        exact Hv.
    + unfold NilZero.string_of_uint.
      destruct (Pos.to_uint p); try apply uint_chars_no_space.
      by repeat constructor.
  - rewrite int_strip_no_space.
    + by rewrite Hv.
    + constructor; [reflexivity|]. unfold NilZero.string_of_uint.
      destruct (Pos.to_uint p); try apply uint_chars_no_space.
      by repeat constructor.
Qed.

(** X15: a count that arrives as the decimal text of an integer is
    formatted exactly like that integer (for texts of at most 4300
    digits, which every interpreter converts). *)
Theorem format_count_decimal_text (n : Z) :
  Z.abs n < 10 ^ 4300 ->
  _format_count (VStr (str_of_Z n)) = _format_count (VInt n).
Proof.
  intros Hn. unfold _format_count. cbn [py_int].
  by rewrite int_of_str_of_Z.
Qed.

Lemma format_count_decimal_text_witness :
  _format_count (VStr "-12") = Ret (VStr "-12") /\
  _format_count (VStr (str_of_Z 16500)) = Ret (VStr "16.5K").
Proof.
  split; [vm_compute; reflexivity|].
  rewrite (format_count_decimal_text 16500)
    by (vm_compute; reflexivity).
  vm_compute. reflexivity.
Defined.

(** * [main]: the URLs and the options read from the input *)

Lemma falsy_str (s : string) :
  negb (truthy (VStr s)) = true <-> s = EmptyString.
Proof.
  cbn [truthy]. rewrite negb_involutive. apply String.eqb_eq.
Qed.

Lemma read_urls_Ret (acc stdin urls rest : list string) :
  read_urls acc stdin = Ret (urls, rest) ->
  exists before blank,
    stdin = before ++ blank :: rest /\ str_strip blank = EmptyString /\
    Forall (fun line => str_strip line <> EmptyString) before /\
    urls = acc ++ List.filter (str_contains "instagram.com")
                              (map str_strip before).
Proof.
  revert acc. induction stdin as [|line stdin IH]; intros acc; [done|].
  cbn [read_urls].
  destruct (negb (truthy (VStr (str_strip line)))) eqn:Hblank.
  - intros [= <- <-]. apply falsy_str in Hblank.
    exists [], line. cbn. by rewrite app_nil_r.
  - assert (Hne : str_strip line <> EmptyString).
    { intros E. apply falsy_str in E. by rewrite E in Hblank. }
    destruct (str_contains "instagram.com" (str_strip line)) eqn:Hc;
      intros H; destruct (IH _ H) as (before & blank & -> & Hb & Hall & ->);
      exists (line :: before), blank; cbn [map List.filter]; rewrite Hc;
      (split; [done|]); (split; [done|]); (split; [by constructor|]).
    + by rewrite <- app_assoc.
    + done.
Qed.

Lemma read_urls_Raise (acc stdin : list string) :
  (exists e, read_urls acc stdin = Raise e) <->
  Forall (fun line => str_strip line <> EmptyString) stdin.
Proof.
  revert acc. induction stdin as [|line stdin IH]; intros acc.
  - split; [by constructor|]. intros _. by eexists.
  - cbn [read_urls].
    destruct (negb (truthy (VStr (str_strip line)))) eqn:Hblank.
    + apply falsy_str in Hblank. split; [by intros [e He]|].
      intros H. by inversion H.
    + assert (Hne : str_strip line <> EmptyString).
      { intros E. apply falsy_str in E. by rewrite E in Hblank. }
      destruct (str_contains "instagram.com" (str_strip line));
        rewrite IH; (split; [by constructor|]); intros H; by inversion H.
Qed.

(** X16: on lines of ASCII text, the loop that reads the URLs returns
    the stripped lines before the first blank line that contain
    [instagram.com], in their order, and leaves the input after that
    blank line; it ends with [EOFError] exactly when no line is blank. *)
Theorem read_urls_collects (stdin : list string) :
  Forall ascii_text stdin ->
  (forall urls rest,
     read_urls [] stdin = Ret (urls, rest) ->
     exists before blank,
       stdin = before ++ blank :: rest /\ str_strip blank = EmptyString /\
       Forall (fun line => str_strip line <> EmptyString) before /\
       urls = List.filter (str_contains "instagram.com")
                          (map str_strip before)) /\
  ((exists e, read_urls [] stdin = Raise e) <->
   Forall (fun line => str_strip line <> EmptyString) stdin).
Proof.
  intros _. split; [|apply read_urls_Raise].
  intros urls rest H. by apply read_urls_Ret in H.
Qed.

Lemma read_urls_collects_witness :
  read_urls [] ["  https://www.instagram.com/a "; "example.org";
                "instagram.com/p/x"; " "; "y"]
  = Ret (["https://www.instagram.com/a"; "instagram.com/p/x"], ["y"])
  /\ exists before blank,
       ["  https://www.instagram.com/a "; "example.org";
        "instagram.com/p/x"; " "; "y"] = before ++ blank :: ["y"]
       /\ str_strip blank = EmptyString.
Proof.
  split; [vm_compute; reflexivity|].
  destruct (proj1 (read_urls_collects
                     ["  https://www.instagram.com/a "; "example.org";
                      "instagram.com/p/x"; " "; "y"]
                     ltac:(repeat constructor))
              ["https://www.instagram.com/a"; "instagram.com/p/x"] ["y"]
              ltac:(vm_compute; reflexivity))
    as (before & blank & H1 & H2 & _).
  by exists before, blank.
Defined.

Lemma choose_urls_Ret (stdin urls rest : list string) :
  choose_urls stdin = Ret (urls, rest) ->
  urls <> [] /\
  Forall (fun url => str_contains "instagram.com" url = true) urls.
Proof.
  assert (Hex : example_urls <> [] /\
                Forall (fun url => str_contains "instagram.com" url = true)
                       example_urls).
  { split; [done|]. repeat constructor. }
  unfold choose_urls. destruct stdin as [|line stdin]; [done|].
  cbn [input mbind res_bind].
  destruct (String.eqb _ "y"); [by intros [= <- <-]|].
  destruct (read_urls [] stdin) as [[urls' rest']|e] eqn:Hr; [|done].
  cbn [mbind res_bind].
  apply read_urls_Ret in Hr as (before & blank & _ & _ & _ & ->).
  cbn [app].
  destruct (List.filter _ _) as [|u us] eqn:Hf; cbn [map truthy negb];
    intros [= <- <-]; [done|].
  split; [done|]. rewrite <- Hf. apply Forall_forall. intros u' Hin.
  by apply list_elem_of_In, filter_In in Hin as [_ Hin].
Qed.

Lemma read_options_Ret (stdin rest : list string) (options : scraper_options) :
  read_options stdin = Ret (options, rest) ->
  opt_output_file options <> Some EmptyString.
Proof.
  unfold read_options.
  destruct stdin as [|l1 [|l2 [|l3 [|l4 stdin]]]]; try done.
  cbn [input mbind res_bind].
  destruct (negb (String.eqb (str_lower (str_strip l4)) "n")).
  - destruct stdin as [|l5 stdin]; [done|]. cbn [input mbind res_bind].
    destruct (negb (truthy (VStr (str_strip l5)))) eqn:Hb;
      intros [= <- <-]; cbn; [done|].
    intros [= E]. apply falsy_str in E. by rewrite E in Hb.
  - by intros [= <- <-].
Qed.

Section MainProperties.

Context {St : Type}.
Variable extract_graphql_data : St -> string -> St * res pyval.
Variable start : bool -> bool -> bool -> res St.
Variable get_stealth_report : St -> res pyval.
Variable save_json : string -> list dict -> bool.
Variable total_time : spec_float.
Variable time_of_failure : spec_float.

Let run_main := main extract_graphql_data start get_stealth_report save_json
               total_time time_of_failure.
Let run_scraper :=
scrape_instagram_urls extract_graphql_data start get_stealth_report
                      save_json total_time time_of_failure.

(** X17: whatever is typed, [main] calls the scraper on a list of URLs
  that is not empty and whose members all contain [instagram.com],
  with an output file that is absent or has a name of at least one
  character; so its result is never the one for an empty list, and
  when it has no [error] key it has the six keys of the normal
  return. *)
Theorem main_scrapes_instagram_urls (stdin : list string)
  (result : list (string * outval)) :
  run_main stdin = Ret result ->
exists urls options,
  result = run_scraper urls (opt_headless options)
             (opt_enable_anti_detection options) (opt_is_mobile options)
             (opt_output_file options) /\
  urls <> [] /\
  Forall (fun url => str_contains "instagram.com" url = true) urls /\
  opt_output_file options <> Some EmptyString /\
  lookup_key "error" result <> Some (OStr "No URLs provided") /\
  (lookup_key "error" result = None -> map fst result = result_keys).
Proof.
unfold run_main, main.
destruct (choose_urls stdin) as [[urls stdin1]|e] eqn:Hc; [|done].
cbn [mbind res_bind].
destruct (read_options stdin1) as [[options stdin2]|e] eqn:Ho; [|done].
cbn [mbind res_bind]. intros [= <-].
apply choose_urls_Ret in Hc as [Hne Hall].
apply read_options_Ret in Ho.
exists urls, options. do 4 (split; [done|]).
unfold run_scraper, scrape_instagram_urls.
destruct (start _ _ _) as [x|e] eqn:Hstart.
- destruct (scrape_normal extract_graphql_data (Ret x)
              get_stealth_report save_json total_time time_of_failure
              (opt_enable_anti_detection options) (opt_output_file options)
              urls x Hne eq_refl)
    as (m & path & report & _ & ->).
  split; [done|]. done.
- unfold scrape. destruct urls as [|url urls]; [done|].
  split; [|done]. cbn [critical_result lookup_key]. intros [=].
Qed.

End MainProperties.

Lemma main_scrapes_instagram_urls_witness :
  exists result,
    main (canned sample_pages) (fun _ _ _ => Ret tt) (fun _ => Ret VNone)
         (fun _ _ => true) (S754_zero false) (S754_zero false)
         ["n"; "example.org"; "https://www.instagram.com/codehype_";
          EmptyString; " "; "N"; "y"; EmptyString; EmptyString]
    = Ret result /\
    lookup_key "output_file" result
    = Some (OStr "instagram_scraped_data.json") /\
    lookup_key "error" result <> Some (OStr "No URLs provided").
Proof.
  eexists. split; [vm_compute; reflexivity|]. split; [reflexivity|].
  destruct (main_scrapes_instagram_urls
              (canned sample_pages) (fun _ _ _ => Ret tt)
              (fun _ => Ret VNone) (fun _ _ => true)
              (S754_zero false) (S754_zero false)
              ["n"; "example.org"; "https://www.instagram.com/codehype_";
               EmptyString; " "; "N"; "y"; EmptyString; EmptyString] _ ltac:(vm_compute; reflexivity))
    as (urls & options & _ & _ & _ & _ & H & _).
  exact H.
Defined.


(** * Saving the data *)

Section Saving.

Context {St : Type}.
Variable extract_graphql_data : St -> string -> St * res pyval.
Variable start : res St.
Variable get_stealth_report : St -> res pyval.
Variable save_json : string -> list dict -> bool.
Variables total_time time_of_failure : spec_float.
Variable enable_anti_detection : bool.
Variable output_file : option string.

Let run := scrape extract_graphql_data start get_stealth_report save_json
                total_time time_of_failure enable_anti_detection
                output_file.

(** X18: in a run that reaches the loop, the result names an output
  file exactly when a file name of at least one character was
  configured and the dump of the whole data list to it went through;
  and whether the dump went through changes nothing else in the
  result: success flag, data, summary, errors and stealth report are
  the same. *)
Theorem save_only_sets_output_file urls (x : St) :
urls <> [] -> start = Ret x ->
let st := run_loop extract_graphql_data 1 urls (initial_state x) in
(forall path,
   lookup_key "output_file" (run urls) = Some (OStr path) <->
   output_file = Some path /\ path <> EmptyString /\
   save_json path (all_extracted_data st) = true) /\
(forall (save_json' : string -> list dict -> bool) k,
   k <> "output_file"%string ->
   lookup_key k (run urls)
   = lookup_key k (scrape extract_graphql_data start get_stealth_report
                          save_json' total_time time_of_failure
                          enable_anti_detection output_file urls)).
Proof.
intros Hurls Hstart. cbn zeta.
pose proof (run_loop_from_start extract_graphql_data urls x) as Hok.
set (st := run_loop extract_graphql_data 1 urls (initial_state x)) in *.
destruct (count_content_types_spec (all_extracted_data st) ∅)
  as (m & Hcount & _).
{ intros entry Hentry.
  destruct (run_ok_entries_built 1 urls st entry Hok Hentry)
    as (url & ct & Hbuilt).
  exists ct. by apply (built_lookup url). }
unfold run, scrape. rewrite Hstart.
destruct urls as [|url urls']; [done|]. fold st. rewrite Hcount.
split.
- intros path. cbn [lookup_key String.eqb Ascii.eqb Bool.eqb].
  destruct output_file as [p|]; [|split; [done|by intros [? _]]].
  destruct (String.eqb_spec p EmptyString) as [->|Hp]; cbn [negb andb].
  + split; [done|]. by intros ([= <-] & ? & _).
  + destruct (save_json p (all_extracted_data st)) eqn:Hsave.
    * split; [by intros [= <-]|]. by intros ([= <-] & _).
    * split; [done|]. intros ([= <-] & _ & Hs). by rewrite Hs in Hsave.
- intros save_json' k Hk. cbn [lookup_key].
  by rewrite (proj2 (String.eqb_neq k "output_file") Hk).
Qed.

End Saving.

Lemma save_only_sets_output_file_witness :
  lookup_key "output_file"
    (scrape (canned sample_pages) (Ret tt) (fun _ => Ret VNone)
            (fun _ _ => true) (S754_zero false) (S754_zero false) true
            (Some "out.json"%string) sample_urls)
  = Some (OStr "out.json").
Proof.
  apply (proj1 (save_only_sets_output_file (canned sample_pages) (Ret tt)
                  (fun _ => Ret VNone) (fun _ _ => true) (S754_zero false)
                  (S754_zero false) true (Some "out.json"%string)
                  sample_urls tt sample_urls_not_nil eq_refl)
               "out.json"%string).
  repeat split. discriminate.
Defined.


(** * The entries of a run, URL by URL *)

Lemma chain_attempts_seen (user : hkey) (h : list event) :
  user ∈ omap chained_user h -> flat_map (chain_attempts user) h <> [].
Proof.
  induction h as [|ev h IH]; [by intros ?%elem_of_nil|].
  destruct ev as [| |i user' r]; cbn; try done.
  intros Hin. destruct (decide (user' = user)) as [->|Hne]; [done|].
  apply elem_of_cons in Hin as [Heq|Hin]; [congruence|]. by apply IH.
Qed.

Section RunLevel.

Context {St : Type}.
Variable extract_graphql_data : St -> string -> St * res pyval.

Implicit Types st : @loop_state St.

Lemma run_loop_app i (l1 l2 : list string) st :
run_loop extract_graphql_data i (l1 ++ l2) st
= run_loop extract_graphql_data (i + length l1) l2
           (run_loop extract_graphql_data i l1 st).
Proof.
revert i st. induction l1 as [|url l1 IH]; intros i st; cbn.
- by rewrite Nat.add_0_r.
- rewrite IH. f_equal. lia.
Qed.

(** The run, cut at the URL of position [k]. *)
Lemma run_loop_at i (urls : list string) (k : nat) url st :
urls !! k = Some url ->
run_loop extract_graphql_data i urls st
= run_loop extract_graphql_data (S (i + k)) (drop (S k) urls)
    (process_url extract_graphql_data (i + k) url
       (run_loop extract_graphql_data i (take k urls) st)).
Proof.
intros Hk. rewrite <- (take_drop_middle urls k url Hk) at 1.
rewrite run_loop_app. cbn [run_loop].
rewrite length_take_le by (apply lookup_lt_Some in Hk; lia).
done.
Qed.

Lemma process_url_grows i url st :
exists evs,
  history (process_url extract_graphql_data i url st) = history st ++ evs /\
  processed_usernames st
  ⊆ processed_usernames (process_url extract_graphql_data i url st).
Proof.
destruct (process_url_shape extract_graphql_data i url st)
  as [x last _ -> | x user r last _ _ _ ->]; cbn.
- by eexists.
- rewrite <- app_assoc. eexists. split; [done|].
  apply union_subseteq_r.
Qed.

Lemma run_loop_grows i urls st :
exists evs,
  history (run_loop extract_graphql_data i urls st) = history st ++ evs /\
  processed_usernames st
  ⊆ processed_usernames (run_loop extract_graphql_data i urls st).
Proof.
revert i st. induction urls as [|url urls IH]; intros i st; cbn.
- exists []. by rewrite app_nil_r.
- destruct (process_url_grows i url st) as (evs1 & H1 & Hs1).
  destruct (IH (S i) (process_url extract_graphql_data i url st))
    as (evs2 & H2 & Hs2).
  exists (evs1 ++ evs2). rewrite H2, H1, app_assoc.
  split; [done|]. by etransitivity.
Qed.

(** Once a user is in [processed_usernames], the rest of the run makes
  no chained extraction for that user. *)
Lemma run_loop_seen user i urls st :
user ∈ processed_usernames st ->
flat_map (chain_attempts user)
         (history (run_loop extract_graphql_data i urls st))
= flat_map (chain_attempts user) (history st).
Proof.
revert i st. induction urls as [|url urls IH]; intros i st Hin; [done|].
cbn [run_loop]. rewrite IH.
- by apply process_url_seen.
- destruct (process_url_grows i url st) as (_ & _ & Hsub). by apply Hsub.
Qed.

(** The state in which the URL of position [k] is processed. *)
Lemma run_loop_prefix_ok (urls : list string) (k : nat) (x : St) :
let st_k := run_loop extract_graphql_data 1 (take k urls) (initial_state x) in
run_ok 1 (take k urls) st_k /\
processed_usernames st_k = list_to_set (omap chained_user (history st_k)).
Proof.
split; [apply run_loop_from_start|].
by apply run_loop_processed.
Qed.

(** A URL that resolves to a user leaves one chained extraction for
  that user in the run: the one it makes, when the user was not
  processed before. *)
Lemma run_chains_user (urls : list string) (x : St) (k : nat) url
  username user :
urls !! k = Some url ->
let st := run_loop extract_graphql_data 1 urls (initial_state x) in
let st_k := run_loop extract_graphql_data 1 (take k urls)
                     (initial_state x) in
let x_k := fst (extract_graphql_data (extractor st_k) url) in
let profile_url := profile_url_of username in
resolves_to extract_graphql_data st_k url username user ->
exists r,
  flat_map (chain_attempts user) (history st) = [r] /\
  flat_map (chained_entries user) (history st) = omap id [r] /\
  (forall entry, r = Some entry -> entry ∈ all_extracted_data st) /\
  (user ∉ processed_usernames st_k ->
   r = chain_outcome profile_url
         (snd (extract_graphql_data x_k profile_url))).
Proof.
intros Hk. cbn zeta. intros Hres.
pose proof (run_loop_from_start extract_graphql_data urls x) as Hok.
pose proof (chain_attempts_once user _ (ok_chained_once _ _ _ Hok))
  as Honce.
destruct (run_loop_prefix_ok urls k x) as [Hokk Hprock].
rewrite (run_loop_at 1 urls k url _ Hk) in *.
set (st_k := run_loop extract_graphql_data 1 (take k urls)
                      (initial_state x)) in *.
set (st1 := process_url extract_graphql_data (1 + k) url st_k) in *.
set (st := run_loop extract_graphql_data (S (1 + k)) (drop (S k) urls) st1)
  in *.
assert (Hstep :
  user ∈ processed_usernames st1 /\
  ((user ∈ processed_usernames st_k /\
     flat_map (chain_attempts user) (history st1)
     = flat_map (chain_attempts user) (history st_k) /\
     flat_map (chain_attempts user) (history st_k) <> [])
   \/ ((user ∉ processed_usernames st_k) /\
       flat_map (chain_attempts user) (history st1)
       = [chain_outcome (profile_url_of username)
            (snd (extract_graphql_data
                    (fst (extract_graphql_data (extractor st_k) url))
                    (profile_url_of username)))]))).
{ destruct (decide (user ∈ processed_usernames st_k)) as [Hin|Hnew].
  - split.
    + destruct (process_url_grows (1 + k) url st_k) as (_ & _ & Hsub).
      by apply Hsub.
    + left. split; [done|]. split; [by apply process_url_seen|].
      (* the user has been chained before *)
      apply chain_attempts_seen. rewrite Hprock in Hin.
      by apply elem_of_list_to_set in Hin.
  - destruct (process_url_first_time extract_graphql_data username user
                (1 + k) url st_k Hres Hnew) as (Hin & Hatt & _).
    split; [exact Hin|]. right. split; [done|]. fold st1 in Hatt.
    rewrite Hatt, chain_attempts_unseen; [done|].
    rewrite Hprock in Hnew. by rewrite elem_of_list_to_set in Hnew. }
destruct Hstep as [Hin1 Hcases].
assert (Hsame : flat_map (chain_attempts user) (history st)
                = flat_map (chain_attempts user) (history st1))
  by (by apply run_loop_seen).
assert (Hone : exists r, flat_map (chain_attempts user) (history st) = [r]).
{ destruct (flat_map (chain_attempts user) (history st)) as [|r [|r' l]] eqn:E.
  - exfalso. destruct Hcases as [(_ & H1 & Hne)|(_ & H1)]; congruence.
  - by exists r.
  - cbn in Honce. lia. }
destruct Hone as (r & Hr). exists r. split; [exact Hr|].
split; [by rewrite chained_entries_attempts, Hr|].
split.
- intros entry ->. rewrite (ok_data _ _ _ Hok).
  apply (chained_entries_in_data user).
  rewrite chained_entries_attempts, Hr. cbn. apply list_elem_of_here.
- intros Hnew. destruct Hcases as [(Hin & _)|(_ & H1)]; [done|].
  rewrite Hsame, H1 in Hr. by injection Hr as <-.
Qed.

(** C6: within one run a chained profile extraction is attempted at
  most once per username, so at most one chained profile entry per
  username is appended to the output; a URL of the run that resolves
  to the username leaves exactly one attempt for it in the run, made
  when the username is found for the first time, with one extraction of
  its profile URL, and exactly one chained entry, in the output, when
  that attempt succeeds; a username already processed is never chained
  again; and the attempt succeeds whenever its result is a well-formed
  profile. *)
Theorem chained_profile_once (urls : list string) (x : St) (user : hkey) :
let st := run_loop extract_graphql_data 1 urls (initial_state x) in
(length (flat_map (chain_attempts user) (history st)) <= 1)%nat /\
(length (flat_map (chained_entries user) (history st)) <= 1)%nat /\
(forall entry, entry ∈ flat_map (chained_entries user) (history st) ->
               entry ∈ all_extracted_data st) /\
(forall (k : nat) url username,
   urls !! k = Some url ->
   let st_k := run_loop extract_graphql_data 1 (take k urls)
                        (initial_state x) in
   let x_k := fst (extract_graphql_data (extractor st_k) url) in
   let profile_url := profile_url_of username in
   resolves_to extract_graphql_data st_k url username user ->
   exists r,
     flat_map (chain_attempts user) (history st) = [r] /\
     flat_map (chained_entries user) (history st) = omap id [r] /\
     (forall entry, r = Some entry -> entry ∈ all_extracted_data st) /\
     (user ∉ processed_usernames st_k ->
      r = chain_outcome profile_url
            (snd (extract_graphql_data x_k profile_url)))) /\
(forall st0 i url,
   user ∈ processed_usernames st0 ->
   flat_map (chain_attempts user)
            (history (process_url extract_graphql_data i url st0))
   = flat_map (chain_attempts user) (history st0)) /\
(forall profile_url payload,
   profile_payload_ok payload ->
   is_Some (chain_outcome profile_url (Ret (VDict payload)))).
Proof.
cbn zeta.
pose proof (run_loop_from_start extract_graphql_data urls x) as Hok.
pose proof (chain_attempts_once user _ (ok_chained_once _ _ _ Hok))
  as Honce.
split; [exact Honce|].
split.
{ rewrite chained_entries_attempts.
  destruct (flat_map (chain_attempts user) _) as [|[entry|] [|]];
    cbn in *; lia. }
split.
{ intros entry Hentry. rewrite (ok_data _ _ _ Hok).
  by apply (chained_entries_in_data user). }
split.
{ intros k url username Hk Hres.
  exact (run_chains_user urls x k url username user Hk Hres). }
split; [intros; by apply process_url_seen|].
intros. by apply chain_outcome_succeeds.
Qed.

End RunLevel.

Lemma chained_profile_once_witness :
  exists entry,
    flat_map (chained_entries (Some (inr "bob")))
             (history (sample_loop sample_urls)) = [entry]
    /\ entry ∈ all_extracted_data (sample_loop sample_urls)
    /\ dict_lookup "url" entry = Some (VStr "https://www.instagram.com/bob/").
Proof.
  destruct (proj1 (proj2 (proj2 (proj2
              (chained_profile_once (canned sample_pages) sample_urls tt
                 (Some (inr "bob"))))))
              1%nat "https://www.instagram.com/p/DMsercXMVeZ/"
              (VStr "bob") eq_refl)
    as (r & _ & Hentries & Hin & Hfirst).
  { eexists _, _, _, _.
    split; [lazy; reflexivity|]. split; [lazy; reflexivity|].
    split; [reflexivity|]. split; [vm_compute; reflexivity|].
    split; [by left|]. split; [vm_compute; reflexivity|].
    repeat split. }
  assert (Hr : r = Some [("url", VStr "https://www.instagram.com/bob/");
           ("content_type", VStr "profile"); ("username", VStr "bob");
           ("biography", VStr EmptyString); ("bio_links", VList []);
           ("is_private", VBool false); ("is_verified", VBool false);
           ("is_business_account", VBool false);
           ("is_professional_account", VBool true);
           ("business_email", VNone); ("business_phone_number", VNone);
           ("business_category_name", VNone)]).
  { rewrite Hfirst; [vm_compute; reflexivity|].
    rewrite (run_loop_processed (canned sample_pages) 1 _ (initial_state tt))
      by reflexivity.
    rewrite elem_of_list_to_set.
    replace (omap chained_user _) with (@nil hkey)
      by (vm_compute; reflexivity).
    apply not_elem_of_nil. }
  eexists. split; [unfold sample_loop; rewrite Hentries, Hr; reflexivity|].
  split; [by apply Hin|reflexivity].
Defined.

(** ** The flags of a profile entry *)

Lemma profile_entry_flags (clean_entry fields : dict) (user_data entry : dict) :
  profile_fields (VDict user_data) = Ret fields ->
  finish_entry (clean_entry ++ fields) = Ret entry ->
  map fst clean_entry = ["url"; "content_type"] ->
  flag_defaults user_data entry.
Proof.
  intros Hfields Hentry Hkeys.
  apply profile_fields_dict in Hfields as (fc1 & fc2 & _ & _ & ->).
  destruct clean_entry as [|[k1 v1] [|[k2 v2] [|]]]; try done.
  injection Hkeys as -> ->.
  repeat split; intros Hmissing;
    (eapply finish_entry_lookup_kept;
     [exact Hentry|reflexivity|cbn; rewrite Hmissing; reflexivity|reflexivity]).
Qed.

(** What a chained profile entry is made of. *)
Lemma chained_profile_entry_flags (profile_url : string) (r : res pyval)
    (entry : dict) :
  chained_profile_entry profile_url r = Ret (Some entry) ->
  exists payload user_data,
    r = Ret (VDict payload) /\
    truthy (field payload "error") = false /\
    sub_dict payload "user_data" = Some user_data /\
    dict_lookup "url" entry = Some (VStr profile_url) /\
    dict_lookup "content_type" entry = Some (VStr "profile") /\
    flag_defaults user_data entry.
Proof.
  unfold chained_profile_entry. destruct r as [v|e]; [|done].
  cbn [mbind res_bind]. destruct v as [| | | | |payload]; try done.
  cbn [py_get mbind res_bind]. fold (field payload "error").
  destruct (truthy (field payload "error")) eqn:Herror; [done|].
  destruct (default (VDict []) (dict_lookup "user_data" payload))
    as [| | | | |user_data] eqn:Hud; try done.
  intros H. apply bind_ret_inv in H as (fields & Hfields & H).
  apply bind_ret_inv in H as (entry' & Hentry & [= <-]).
  exists payload, user_data. split; [done|]. split; [done|].
  split.
  { unfold sub_dict. destruct (dict_lookup "user_data" payload) as [v|];
      cbn in Hud; [by subst v|]. by injection Hud as <-. }
  split; [by eapply finish_entry_lookup_kept|].
  split; [by eapply finish_entry_lookup_kept|].
  by eapply (profile_entry_flags [("url", _); ("content_type", _)]).
Qed.

Lemma chain_outcome_entry (profile_url : string) (r : res pyval)
    (entry : dict) :
  chain_outcome profile_url r = Some entry ->
  chained_profile_entry profile_url r = Ret (Some entry).
Proof.
  unfold chain_outcome.
  destruct (chained_profile_entry profile_url r) as [[e|]|]; try done.
  by intros [= ->].
Qed.

Section ProfileEntries.

Context {St : Type}.
Variable extract_graphql_data : St -> string -> St * res pyval.

Implicit Types st : @loop_state St.

(** An event of the history of a run has its entry in the data. *)
Lemma emitted_in_data first urls st i entry :
run_ok first urls st -> Emitted i entry ∈ history st ->
entry ∈ all_extracted_data st.
Proof.
intros Hok Hin. rewrite (ok_data _ _ _ Hok).
apply list_elem_of_In, in_flat_map. exists (Emitted i entry).
split; [by apply list_elem_of_In|by left].
Qed.

(** An event of the step that processes the URL of position [k] is in
  the history of the run. *)
Lemma run_loop_event (urls : list string) (x : St) (k : nat) url ev :
urls !! k = Some url ->
ev ∈ history (process_url extract_graphql_data (S k) url
                (run_loop extract_graphql_data 1 (take k urls)
                          (initial_state x))) ->
ev ∈ history (run_loop extract_graphql_data 1 urls (initial_state x)).
Proof.
intros Hk Hev. rewrite (run_loop_at extract_graphql_data 1 urls k url _ Hk).
destruct (run_loop_grows extract_graphql_data (S (1 + k))
            (drop (S k) urls)
            (process_url extract_graphql_data (1 + k) url
               (run_loop extract_graphql_data 1 (take k urls)
                         (initial_state x)))) as (evs & -> & _).
apply elem_of_app. by left.
Qed.

(** The step on a profile URL whose extraction is a well-formed
  profile. *)
Lemma process_url_profile_entry i url st (payload : dict) :
profile_url url ->
snd (extract_graphql_data (extractor st) url) = Ret (VDict payload) ->
profile_payload_ok payload ->
exists user_data entry,
  sub_dict payload "user_data" = Some user_data /\
  history (process_url extract_graphql_data i url st)
  = history st ++ [Emitted i entry] /\
  dict_lookup "url" entry = Some (VStr url) /\
  dict_lookup "content_type" entry = Some (VStr "profile") /\
  flag_defaults user_data entry.
Proof.
intros [Hreel Hp] Hex
  (Herror & user_data & Hud & (v1 & Hv1) & (v2 & Hv2) & text & Hbio).
unfold field in Herror, Hv1, Hv2.
exists user_data. unfold process_url.
destruct (extract_graphql_data (extractor st) url) as [x r].
cbn in Hex. subst r. cbn [mbind res_bind py_get]. rewrite Herror.
rewrite (proj1 (proj2 (determine_content_type_cases url (VDict payload)))
           Hreel Hp).
cbn [String.eqb Ascii.eqb Bool.eqb]. 
change (String.eqb "profile" "profile") with true. cbv iota.
rewrite (sub_dict_default _ _ _ Hud).
destruct (profile_fields (VDict user_data)) as [fields|e] eqn:Hfields.
2:{ exfalso. revert Hfields. unfold profile_fields.
    cbn [mbind res_bind py_get]. rewrite Hv1. cbn [mbind res_bind].
    rewrite Hv2. by cbn [mbind res_bind]. }
cbn [mbind res_bind].
rewrite (profile_entry_update _ _ _ _ Hfields).
destruct (finish_entry_ok ([("url", VStr url);
                            ("content_type", VStr "profile")] ++ fields))
  as (entry & Hentry).
{ right. exists text.
  apply profile_fields_dict in Hfields as (fc1 & fc2 & _ & _ & ->).
  cbn. by rewrite Hbio. }
exists entry. split; [done|]. unfold emit. rewrite Hentry.
split; [reflexivity|].
split; [by eapply finish_entry_lookup_kept|].
split; [by eapply finish_entry_lookup_kept|].
by eapply (profile_entry_flags [("url", _); ("content_type", _)]).
Qed.

(** C9: in a run, the entry of a profile URL and the profile entry
  chained from a post are built with the same defaults: a [user_data]
  without [is_professional_account] gives the emitted entry
  [is_professional_account = True], while a missing [is_private],
  [is_verified] or [is_business_account] gives [False]; and so for
  every entry that the chaining step builds. *)
Theorem profile_flag_defaults (urls : list string) (x : St) (k : nat) url :
urls !! k = Some url ->
let st := run_loop extract_graphql_data 1 urls (initial_state x) in
let st_k := run_loop extract_graphql_data 1 (take k urls)
                     (initial_state x) in
let x_k := fst (extract_graphql_data (extractor st_k) url) in
(forall payload,
   profile_url url ->
   snd (extract_graphql_data (extractor st_k) url) = Ret (VDict payload) ->
   profile_payload_ok payload ->
   exists user_data entry,
     sub_dict payload "user_data" = Some user_data /\
     Emitted (S k) entry ∈ history st /\
     entry ∈ all_extracted_data st /\
     dict_lookup "url" entry = Some (VStr url) /\
     dict_lookup "content_type" entry = Some (VStr "profile") /\
     flag_defaults user_data entry) /\
(forall username user payload,
   resolves_to extract_graphql_data st_k url username user ->
   user ∉ processed_usernames st_k ->
   snd (extract_graphql_data x_k (profile_url_of username))
   = Ret (VDict payload) ->
   profile_payload_ok payload ->
   exists user_data entry,
     sub_dict payload "user_data" = Some user_data /\
     flat_map (chained_entries user) (history st) = [entry] /\
     entry ∈ all_extracted_data st /\
     dict_lookup "url" entry = Some (VStr (profile_url_of username)) /\
     dict_lookup "content_type" entry = Some (VStr "profile") /\
     flag_defaults user_data entry) /\
(forall profile_url r entry,
   chained_profile_entry profile_url r = Ret (Some entry) ->
   exists payload user_data,
     r = Ret (VDict payload) /\
     sub_dict payload "user_data" = Some user_data /\
     dict_lookup "url" entry = Some (VStr profile_url) /\
     dict_lookup "content_type" entry = Some (VStr "profile") /\
     flag_defaults user_data entry).
Proof.
intros Hk. cbn zeta.
pose proof (run_loop_from_start extract_graphql_data urls x) as Hok.
split; [|split].
- intros payload Hprofile Hex Hpayload.
  destruct (process_url_profile_entry (S k) url _ payload
              Hprofile Hex Hpayload)
    as (user_data & entry & Hud & Hhist & Hurl & Hct & Hflags).
  exists user_data, entry. split; [done|].
  assert (Hev : Emitted (S k) entry
                ∈ history (run_loop extract_graphql_data 1 urls
                                    (initial_state x))).
  { apply (run_loop_event urls x k url _ Hk). rewrite Hhist.
    apply elem_of_app. right. apply list_elem_of_here. }
  split; [exact Hev|].
  split; [by apply (emitted_in_data 1 urls _ (S k))|done].
- intros username user payload Hres Hnew Hex Hpayload.
  destruct (run_chains_user extract_graphql_data urls x k url username
              user Hk Hres) as (r & _ & Hentries & Hin & Hfirst).
  specialize (Hfirst Hnew). rewrite Hex in Hfirst.
  destruct (chain_outcome_succeeds (profile_url_of username) payload
              Hpayload) as (entry & Hentry).
  rewrite Hentry in Hfirst. subst r.
  apply chain_outcome_entry, chained_profile_entry_flags in Hentry
    as (payload' & user_data & [= <-] & _ & Hud & Hurl & Hct & Hflags).
  exists user_data, entry. split; [done|]. split; [exact Hentries|].
  split; [by apply Hin|done].
- intros profile_url r entry Hentry.
  apply chained_profile_entry_flags in Hentry
    as (payload & user_data & -> & _ & Hud & Hurl & Hct & Hflags).
  by exists payload, user_data.
Qed.

End ProfileEntries.

Lemma profile_flag_defaults_witness :
  exists entry,
    entry ∈ all_extracted_data (sample_loop sample_urls) /\
    dict_lookup "url" entry
    = Some (VStr "https://www.instagram.com/codehype_") /\
    dict_lookup "is_professional_account" entry = Some (VBool true) /\
    dict_lookup "is_private" entry = Some (VBool false) /\
    dict_lookup "is_verified" entry = Some (VBool false) /\
    dict_lookup "is_business_account" entry = Some (VBool false).
Proof.
  destruct (proj1 (profile_flag_defaults (canned sample_pages) sample_urls tt
              0%nat "https://www.instagram.com/codehype_" eq_refl)
              [("user_data",
                VDict [("username", VStr "codehype_");
                       ("followers_count", VInt 16500);
                       ("biography", VStr "Contact a@b.com|x");
                       ("business_email", VStr EmptyString)])])
    as (user_data & entry & Hud & _ & Hin & Hurl & _ & Hflags).
  - split; vm_compute; reflexivity.
  - reflexivity.
  - split; [reflexivity|]. eexists. split; [reflexivity|].
    split; [exists (VStr "16.5K"); vm_compute; reflexivity|].
    split; [exists VNone; vm_compute; reflexivity|].
    eexists. reflexivity.
  - injection Hud as <-. destruct Hflags as (H1 & H2 & H3 & H4).
    exists entry. unfold sample_loop.
    split; [exact Hin|]. split; [exact Hurl|].
    split; [by apply H1|]. split; [by apply H2|].
    split; [by apply H3|by apply H4].
Defined.

(** ** The fields of an article or video entry *)




Section PostEntries.

Context {St : Type}.
Variable extract_graphql_data : St -> string -> St * res pyval.

Implicit Types st : @loop_state St.




End PostEntries.




